(** * hyou: a shallow embedding of the windowed cell cache and commit engine

    The development follows the Python sources module by module:
    - [Util]        : hyou/util.py  (A1 addresses, [LazyOrderedDictionary])
    - [Json]        : the JSON objects exchanged with the Sheets API
    - [CellFormat]  : hyou/cell_format.py
    - [Hyou]        : hyou/cell.py, hyou/view.py and hyou/worksheet.py

    Python [int] is [Z]; a Python [dict] whose iteration order is observable
    is an association list in insertion order; a [dict] used only as a map
    is a [gmap]; a raised exception is the [Err] branch of [result]. *)

From Stdlib Require Import ZArith Ascii String List Floats DecimalString.
From stdpp Require Import base option list gmap strings.

Open Scope Z_scope.

(** ** Exceptions *)

Inductive error : Type :=
  | IndexError
  | KeyError
  | ValueError
  | TypeError
  | AttributeError
  | HyouRuntimeError
  | UncommittedCellPropertyError (property_name : string)
  | AssertionError
  | TransportError.

Inductive result (A : Type) : Type :=
  | Ok (a : A)
  | Err (e : error).
Arguments Ok {A} a.
Arguments Err {A} e.

#[global] Instance result_ret : MRet result := fun _ a => Ok a.
#[global] Instance result_bind : MBind result := fun _ _ k r =>
  match r with
  | Ok a => k a
  | Err e => Err e
  end.

#[global] Instance result_fmap : FMap result := fun _ _ f r =>
  match r with
  | Ok a => Ok (f a)
  | Err e => Err e
  end.

(** A [for] loop whose body may raise. *)
Fixpoint foldlM {A B : Type} (f : A -> B -> result A) (a : A) (l : list B)
  : result A :=
  match l with
  | [] => Ok a
  | b :: l' => a' ← f a b; foldlM f a' l'
  end.

(** ** Computations that change a state and may raise

    A method that raises keeps the assignments it made before the
    exception, so a computation returns its outcome together with the state
    it leaves. *)

Definition ST (S A : Type) : Type := S -> result A * S.

#[global] Instance ST_ret {S : Type} : MRet (ST S) := fun _ a s => (Ok a, s).
#[global] Instance ST_bind {S : Type} : MBind (ST S) := fun _ _ k m s =>
  match m s with
  | (Ok a, s') => k a s'
  | (Err e, s') => (Err e, s')
  end.

Definition raise {S A : Type} (e : error) : ST S A := fun s => (Err e, s).
Definition get_state {S : Type} : ST S S := fun s => (Ok s, s).
Definition modify {S : Type} (f : S -> S) : ST S unit := fun s => (Ok tt, f s).
Definition lift {S A : Type} (r : result A) : ST S A := fun s => (r, s).

(** An initialiser run on a blank object; the object exists only when the
    initialiser returns. *)
Definition construct {S A : Type} (m : ST S A) (blank : S) : result S :=
  match m blank with
  | (Ok _, s) => Ok s
  | (Err e, _) => Err e
  end.

(** A computation on a part [T] of the state [S]. *)
Definition zoom {S T A : Type} (project : S -> T) (update : T -> S -> S)
    (m : ST T A) : ST S A :=
  fun s => let '(r, t) := m (project s) in (r, update t s).

(** A [for] loop over [l] run for its effects. *)
Fixpoint for_each {S B : Type} (l : list B) (body : B -> ST S unit)
  : ST S unit :=
  match l with
  | [] => mret tt
  | b :: l' => body b ;; for_each l' body
  end.

Definition is_ok {A : Type} (r : result A) : bool :=
  match r with Ok _ => true | Err _ => false end.

(** A computation that does not reach the service does not end in a
    transport error. *)
Definition local {A : Type} (r : result A) : Prop := r <> Err TransportError.

(** ** Python built-ins used by the sources *)

Module Py.

Definition double_quote : ascii := ascii_of_nat 34.
Definition single_quote : ascii := ascii_of_nat 39.
Definition backslash : ascii := ascii_of_nat 92.

Fixpoint contains_char (c : ascii) (s : string) : bool :=
  match s with
  | EmptyString => false
  | String c' s' => Ascii.eqb c c' || contains_char c s'
  end.

Definition hex_digit (n : nat) : ascii :=
  if (n <? 10)%nat then ascii_of_nat (48 + n) else ascii_of_nat (87 + n).

(** Text.  A Rocq string stands for a Python text string of ASCII
    characters, one character per code point; [is_ascii] is the test.  The
    functions below that look at the characters of a string ([repr_str])
    are Python's on ASCII text.  For a character beyond ASCII Python's
    [repr] keeps or escapes it according to [str.isprintable], which is not
    modelled: such a character is left as it is, and the statements about
    [repr_str] are stated for ASCII text. *)
Fixpoint is_ascii (s : string) : bool :=
  match s with
  | EmptyString => true
  | String c s' => (nat_of_ascii c <? 128)%nat && is_ascii s'
  end.

(** One character of [repr(s)] for an ASCII string [s] delimited by
    [quote]. *)
Definition repr_char (quote c : ascii) : string :=
  let n := nat_of_ascii c in
  if Ascii.eqb c backslash then String backslash (String backslash EmptyString)
  else if Ascii.eqb c quote then String backslash (String quote EmptyString)
  else if (n =? 9)%nat then String backslash "t"
  else if (n =? 10)%nat then String backslash "n"
  else if (n =? 13)%nat then String backslash "r"
  else if (n <? 32)%nat || (n =? 127)%nat then
    String backslash
      (String "x" (String (hex_digit (n / 16)) (String (hex_digit (n mod 16))
         EmptyString)))
  else String c EmptyString.

Fixpoint repr_chars (quote : ascii) (s : string) : string :=
  match s with
  | EmptyString => EmptyString
  | String c s' => (repr_char quote c ++ repr_chars quote s')%string
  end.

(** [repr(s)] for an ASCII text string: single quotes, unless the string
    holds a single quote and no double quote. *)
Definition repr_str (s : string) : string :=
  let quote :=
    if contains_char single_quote s && negb (contains_char double_quote s)
    then double_quote else single_quote in
  String quote (repr_chars quote s ++ String quote EmptyString)%string.

(** [s.replace(old, new)] for a one-character [old]. *)
Fixpoint replace_char (old : ascii) (new : string) (s : string) : string :=
  match s with
  | EmptyString => EmptyString
  | String c s' =>
      ((if Ascii.eqb c old then new else String c EmptyString)
         ++ replace_char old new s')%string
  end.

(** ['%d' % n] *)
Definition format_d (n : Z) : string :=
  DecimalString.NilZero.string_of_int (Z.to_int n).

(** [slice(start, stop).indices(length)] without its step, which is 1:
    negative bounds count from the end and every bound is clipped to
    [0 .. length]. *)
Definition clip_index (length : Z) (dflt : Z) (i : option Z) : Z :=
  match i with
  | None => dflt
  | Some i =>
      let i := if i <? 0 then i + length else i in
      if i <? 0 then 0 else if length <? i then length else i
  end.

Definition slice_indices (start stop : option Z) (length : Z) : Z * Z :=
  (clip_index length 0 start, clip_index length length stop).

End Py.

(** ** hyou/util.py *)

Module Util.

(** [chr(ord('A') + d)] *)
Definition letter (d : Z) : ascii := ascii_of_nat (Z.to_nat (65 + d)).

(** The [while k >= 26 ** p] loop of [format_column_address]; it returns the
    final [(k, p)].  Every iteration lowers [k] by at least 26, so
    [Z.to_nat k] iterations are enough (lemma [while_loop_exits]). *)
Fixpoint while_loop (fuel : nat) (k p : Z) : Z * Z :=
  match fuel with
  | O => (k, p)
  | S fuel' =>
      if 26 ^ p <=? k then while_loop fuel' (k - 26 ^ p) (p + 1) else (k, p)
  end.

(** The [for i in range(p)] loop: the body prepends
    [chr(ord('A') + k % 26)] and leaves [k] as it is. *)
Fixpoint for_loop (n : nat) (k : Z) (s : string) : string :=
  match n with
  | O => s
  | S n' => for_loop n' k (String (letter (k mod 26)) s)
  end.

Definition format_column_address (index_column : Z) : string :=
  let '(k, p) := while_loop (Z.to_nat index_column) index_column 1 in
  for_loop (Z.to_nat p) k EmptyString.

Definition format_range_a1_notation (worksheet_title : string)
    (start_row end_row start_col end_col : Z) : string :=
  ("'" ++ Py.replace_char Py.single_quote "''" worksheet_title ++ "'!"
   ++ format_column_address start_col ++ Py.format_d (start_row + 1) ++ ":"
   ++ format_column_address (end_col - 1) ++ Py.format_d end_row)%string.

(** The numeral the specification asks for: bijective base 26 over the
    digits A..Z, written from the specification's words and used only to
    compare [format_column_address] with it.  [m] is the 1-based index. *)
Fixpoint bijective_numeral (fuel : nat) (m : Z) (acc : string) : string :=
  match fuel with
  | O => acc
  | S fuel' =>
      if m <=? 0 then acc
      else bijective_numeral fuel' ((m - 1) / 26)
             (String (letter ((m - 1) mod 26)) acc)
  end.

Definition bijective_base26 (index_column : Z) : string :=
  bijective_numeral (Z.to_nat (index_column + 1)) (index_column + 1) EmptyString.

(** *** [class LazyOrderedDictionary]

    The enumerator and the by-key constructor are callables that reach the
    remote service, so every operation receives what they do at the time of
    the call.  [enumerator] is what iterating [self._enumerator()] does: it
    yields some pairs and ends, or yields some pairs and raises (a listing
    that fails raises before it yields anything).  [constructor] is
    [self._constructor] ([None] when not configured, and returning [None]
    for a key that does not exist). *)
Section LazyOrderedDictionary.
Context {K : Type} `{Countable K} {V : Type}.

Inductive Enumeration : Type :=
  | Yields (pairs : list (K * V))
  | Raises (pairs : list (K * V)) (e : error).

Definition yielded (enumerator : Enumeration) : list (K * V) :=
  match enumerator with
  | Yields pairs | Raises pairs _ => pairs
  end.

Record LazyOrderedDictionary : Type := {
  cache_list : list (K * V);
  cache_index : gmap K nat;
  enumerated : bool;
}.

(** [__init__] *)
Definition init : LazyOrderedDictionary :=
  {| cache_list := []; cache_index := ∅; enumerated := false |}.

Definition refresh (d : LazyOrderedDictionary) : LazyOrderedDictionary :=
  {| cache_list := []; cache_index := ∅; enumerated := false |}.

(** One turn of [for key, value in self._enumerator()]. *)
Definition enumerate_step (st : list (K * V) * gmap K nat) (kv : K * V)
  : list (K * V) * gmap K nat :=
  let '(l, idx) := st in (l ++ [kv], <[kv.1 := length l]> idx).

(** One turn of [for key, value in saves]; the index is read and never
    written here.  An index found in [idx] is a position of [l]
    (lemma [enumerate_index_sound]), so the assignment cannot raise. *)
Definition restore_step (idx : gmap K nat) (l : list (K * V)) (kv : K * V)
  : list (K * V) :=
  match idx !! kv.1 with
  | Some index => <[index := kv]> l
  | None => l ++ [kv]
  end.

(** [_ensure_enumerated].  The list and the index are cleared before the
    enumerator runs, so when the enumerator raises the dictionary is left
    with the pairs yielded so far, the saved entries are lost and
    [_enumerated] stays false. *)
Definition _ensure_enumerated (enumerator : Enumeration)
  : ST LazyOrderedDictionary unit :=
  fun d =>
    if enumerated d then (Ok tt, d)
    else
      let saves := cache_list d in
      let '(l, idx) := foldl enumerate_step ([], ∅) (yielded enumerator) in
      match enumerator with
      | Raises _ e =>
          (Err e,
           {| cache_list := l; cache_index := idx; enumerated := false |})
      | Yields _ =>
          (Ok tt,
           {| cache_list := foldl (restore_step idx) l saves;
              cache_index := idx;
              enumerated := true |})
      end.

(** [__len__] *)
Definition len (enumerator : Enumeration) : ST LazyOrderedDictionary nat :=
  _ensure_enumerated enumerator;;
  d ← get_state;
  mret (length (cache_list d)).

(** [iterkeys] and [iteritems], run to their end: the keys and the items
    they yield. *)
Definition iterkeys (enumerator : Enumeration)
  : ST LazyOrderedDictionary (list K) :=
  _ensure_enumerated enumerator;;
  d ← get_state;
  mret (cache_list d).*1.

Definition iteritems (enumerator : Enumeration)
  : ST LazyOrderedDictionary (list (K * V)) :=
  _ensure_enumerated enumerator;;
  d ← get_state;
  mret (cache_list d).

(** [a_list[i]] for a Python integer [i]: negative indices count from the
    end, and an index out of range raises [IndexError]. *)
Definition py_list_get {A : Type} (l : list A) (i : Z) : result A :=
  let j := if i <? 0 then i + Z.of_nat (length l) else i in
  if j <? 0 then Err IndexError
  else match l !! Z.to_nat j with
       | Some a => Ok a
       | None => Err IndexError
       end.

Definition entry_value (l : list (K * V)) (index : nat) : result V :=
  match l !! index with
  | Some kv => Ok kv.2
  | None => Err IndexError
  end.

(** [__getitem__]; the key is an integer position ([inl]) or a key
    ([inr]). *)
Definition getitem (enumerator : Enumeration)
    (constructor : option (K -> option V)) (key : Z + K)
  : ST LazyOrderedDictionary V :=
  match key with
  | inl i =>
      _ensure_enumerated enumerator;;
      d ← get_state;
      lift (snd <$> py_list_get (cache_list d) i)
  | inr k =>
      d ← get_state;
      match cache_index d !! k with
      | Some index => lift (entry_value (cache_list d) index)
      | None =>
          match constructor with
          | Some construct =>
              match construct k with
              | None => raise KeyError
              | Some value =>
                  let index := length (cache_list d) in
                  modify (fun d =>
                    {| cache_list := cache_list d ++ [(k, value)];
                       cache_index := <[k := index]> (cache_index d);
                       enumerated := enumerated d |});;
                  mret value
              end
          | None =>
              _ensure_enumerated enumerator;;
              d ← get_state;
              match cache_index d !! k with
              | None => raise KeyError
              | Some index => lift (entry_value (cache_list d) index)
              end
          end
      end
  end.

(** [get]: the [KeyError] of [__getitem__] becomes [default]; any other
    exception goes on. *)
Definition get (enumerator : Enumeration)
    (constructor : option (K -> option V)) (key : Z + K) (default : V)
  : ST LazyOrderedDictionary V :=
  fun d =>
    match getitem enumerator constructor key d with
    | (Err KeyError, d') => (Ok default, d')
    | r => r
    end.

(** The dictionary after the keys [keys] have been looked up one after
    the other in a new dictionary whose constructor is [construct]. *)
Definition looked_up (enumerator : Enumeration) (construct : K -> option V)
    (keys : list K) : LazyOrderedDictionary :=
  foldl (fun d k => (getitem enumerator (Some construct) (inr k) d).2) init keys.

(** [dict(pairs)]: a later pair replaces an earlier one of the same key. *)
Definition dict_of (pairs : list (K * V)) : gmap K V :=
  foldl (fun m kv => <[kv.1 := kv.2]> m) ∅ pairs.

(** The consistency of the index with the list: position [i] holds an entry
    of key [k] exactly when the index sends [k] to [i]. *)
Definition index_consistent (d : LazyOrderedDictionary) : Prop :=
  forall (i : nat) (k : K),
    (exists v, cache_list d !! i = Some (k, v)) <-> cache_index d !! k = Some i.

(** Every index entry points at a position whose entry carries that key. *)
Definition index_sound (idx : gmap K nat) (l : list (K * V)) : Prop :=
  forall k i, idx !! k = Some i -> l.*1 !! i = Some k.

End LazyOrderedDictionary.
Arguments LazyOrderedDictionary K {_ _} V.
Arguments Enumeration K V : clear implicits.

End Util.

(** ** JSON values and Python dictionaries *)

Module Json.

(** A decoded JSON value.  An object keeps its entries in insertion order,
    as a Python [dict] does; JSON [null] is Python's [None]. *)
#[warnings="-register-all"] Inductive json : Type :=
  | JNull
  | JBool (b : bool)
  | JInt (z : Z)
  | JFloat (f : float)
  | JStr (s : string)
  | JObj (entries : list (string * json)).

Fixpoint assoc_get {A : Type} (entries : list (string * A)) (key : string)
  : option A :=
  match entries with
  | [] => None
  | (k, v) :: rest => if String.eqb k key then Some v else assoc_get rest key
  end.

(** [d[key] = value]: an existing key keeps its place, a new one goes last. *)
Fixpoint assoc_set {A : Type} (entries : list (string * A)) (key : string)
    (value : A) : list (string * A) :=
  match entries with
  | [] => [(key, value)]
  | (k, v) :: rest =>
      if String.eqb k key then (k, value) :: rest
      else (k, v) :: assoc_set rest key value
  end.

(** [key in d] *)
Definition dict_contains (d : json) (key : string) : result bool :=
  match d with
  | JObj entries => Ok (bool_decide (is_Some (assoc_get entries key)))
  | _ => Err TypeError
  end.

(** [d.get(key, default)]; a value without a [get] attribute raises. *)
Definition dict_get_default (d : json) (key : string) (dflt : json)
  : result json :=
  match d with
  | JObj entries => Ok (default dflt (assoc_get entries key))
  | _ => Err AttributeError
  end.

(** [d.get(key)] *)
Definition dict_get (d : json) (key : string) : result json :=
  dict_get_default d key JNull.

(** [d[key]] *)
Definition dict_getitem (d : json) (key : string) : result json :=
  match d with
  | JObj entries =>
      match assoc_get entries key with
      | Some v => Ok v
      | None => Err KeyError
      end
  | _ => Err TypeError
  end.

(** [d[key] = value] *)
Definition dict_setitem (d : json) (key : string) (value : json)
  : result json :=
  match d with
  | JObj entries => Ok (JObj (assoc_set entries key value))
  | _ => Err TypeError
  end.

(** [d.setdefault(key, default)]: the dictionary afterwards and the value
    returned. *)
Definition dict_setdefault (d : json) (key : string) (dflt : json)
  : result (json * json) :=
  match d with
  | JObj entries =>
      match assoc_get entries key with
      | Some v => Ok (d, v)
      | None => Ok (JObj (entries ++ [(key, dflt)]), dflt)
      end
  | _ => Err AttributeError
  end.

(** Truth value of an object in a condition. *)
Definition truthy (j : json) : bool :=
  match j with
  | JNull => false
  | JBool b => b
  | JInt z => negb (z =? 0)
  | JFloat f => negb (PrimFloat.eqb f 0%float)
  | JStr s => negb (String.eqb s EmptyString)
  | JObj entries => negb (bool_decide (entries = []))
  end.

Definition is_None (j : json) : bool :=
  match j with JNull => true | _ => false end.

End Json.

(** ** hyou/cell_format.py *)

Module CellFormat.
Import Json.

Inductive NumberFormatType : Type :=
  | UNSPECIFIED | TEXT | NUMBER | PERCENT | CURRENCY
  | DATE | TIME | DATE_TIME | SCIENTIFIC.

(** [NumberFormatType.X.value] *)
Definition NumberFormatType_value (t : NumberFormatType) : string :=
  match t with
  | UNSPECIFIED => "NUMBER_FORMAT_TYPE_UNSPECIFIED"
  | TEXT => "TEXT"
  | NUMBER => "NUMBER"
  | PERCENT => "PERCENT"
  | CURRENCY => "CURRENCY"
  | DATE => "DATE"
  | TIME => "TIME"
  | DATE_TIME => "DATE_TIME"
  | SCIENTIFIC => "SCIENTIFIC"
  end.

Definition NumberFormatType_members : list NumberFormatType :=
  [UNSPECIFIED; TEXT; NUMBER; PERCENT; CURRENCY; DATE; TIME; DATE_TIME;
   SCIENTIFIC].

(** [NumberFormatType(s)]: the member whose value is [s], or [ValueError]. *)
Definition NumberFormatType_of_value (s : string) : result NumberFormatType :=
  match List.find (fun t => String.eqb (NumberFormatType_value t) s)
          NumberFormatType_members with
  | Some t => Ok t
  | None => Err ValueError
  end.

Record Color : Type := { r : float; g : float; b : float; a : float }.

Definition Color_BLACK : Color :=
  {| r := 0%float; g := 0%float; b := 0%float; a := 1%float |}.
Definition Color_WHITE : Color :=
  {| r := 1%float; g := 1%float; b := 1%float; a := 1%float |}.

Record date : Type := { year : Z; month : Z; day : Z }.
Record time : Type := { hour : Z; minute : Z; second : Z; microsecond : Z }.
Record datetime : Type := { date_of : date; time_of : time }.

(** The Python objects that are stored in a cell or assigned to a format
    property.  [PyDict] is a dictionary taken from a response as it is.
    Tuples are not part of this domain, so the 3/4-tuple shorthand for a
    [Color] is not represented. *)
Inductive pyvalue : Type :=
  | PyNone
  | PyStr (s : string)
  | PyBool (b : bool)
  | PyInt (z : Z)
  | PyFloat (f : float)
  | PyFormulaValue (formula : string)
  | PyErrorValue (error : string)
  | PyDatetime (dt : datetime)
  | PyDate (d : date)
  | PyTime (t : time)
  | PyEnum (t : NumberFormatType)
  | PyColor (c : Color)
  | PyDict (entries : list (string * json)).

(** A decoded JSON value seen as a Python object. *)
Definition value_of_json (j : json) : pyvalue :=
  match j with
  | JNull => PyNone
  | JBool b => PyBool b
  | JInt z => PyInt z
  | JFloat f => PyFloat f
  | JStr s => PyStr s
  | JObj entries => PyDict entries
  end.

(** One argument of [Color(r, g, b, a)]: the test [0 <= x <= 1], then
    [float(x)]. *)
Definition unit_interval (x : json) : result float :=
  match x with
  | JInt z =>
      if (0 <=? z) && (z <=? 1)
      then Ok (if z =? 0 then 0%float else 1%float)
      else Err ValueError
  | JBool b => Ok (if b then 1%float else 0%float)
  | JFloat f =>
      if PrimFloat.leb 0 f && PrimFloat.leb f 1 then Ok f else Err ValueError
  | _ => Err TypeError
  end.

(** [Color._from_data] *)
Definition Color_from_data (data : json) : result pyvalue :=
  red ← dict_get_default data "red" (JInt 0);
  green ← dict_get_default data "green" (JInt 0);
  blue ← dict_get_default data "blue" (JInt 0);
  alpha ← dict_get_default data "alpha" (JInt 1);
  r ← unit_interval red;
  g ← unit_interval green;
  b ← unit_interval blue;
  a ← unit_interval alpha;
  Ok (PyColor {| r := r; g := g; b := b; a := a |}).

(** [Color._to_data] *)
Definition Color_to_data (c : Color) : json :=
  JObj [("red", JFloat (r c)); ("green", JFloat (g c));
        ("blue", JFloat (b c)); ("alpha", JFloat (a c))]%string.

(** [Color.__init__]: the range test, argument by argument as [and]
    evaluates it, then the conversions to [float]. *)
Definition Color_init (r g b a : json) : result Color :=
  r ← unit_interval r;
  g ← unit_interval g;
  b ← unit_interval b;
  a ← unit_interval a;
  Ok {| r := r; g := g; b := b; a := a |}.

(** [Color.replace]: an argument that is [None] is the component of
    [self]. *)
Definition Color_replace (self : Color) (r g b a : json) : result Color :=
  let or_own (x : json) (own : float) := if is_None x then JFloat own else x in
  Color_init (or_own r (CellFormat.r self)) (or_own g (CellFormat.g self))
    (or_own b (CellFormat.b self)) (or_own a (CellFormat.a self)).

Inductive property_type : Type :=
  | Type_NumberFormatType | Type_str | Type_Color | Type_int | Type_bool.

Record CellFormatProperty : Type := {
  _data_path : list string;
  _type : property_type;
  _default_value : pyvalue;
  _explicit_default_value : bool;
  _allow_null : bool;
  _decoder : json -> result pyvalue;
  _encoder : pyvalue -> result json;
}.

(** The default [lambda x: x] in both directions. *)
Definition identity_decoder (x : json) : result pyvalue := Ok (value_of_json x).
Definition identity_encoder (x : pyvalue) : result json :=
  match x with
  | PyNone => Ok JNull
  | PyBool b => Ok (JBool b)
  | PyInt z => Ok (JInt z)
  | PyFloat f => Ok (JFloat f)
  | PyStr s => Ok (JStr s)
  | PyDict entries => Ok (JObj entries)
  | _ => Err TypeError
  end.

Definition number_format_type : CellFormatProperty :=
  {| _data_path := ["numberFormat"; "type"]%string;
     _type := Type_NumberFormatType;
     _default_value := PyEnum UNSPECIFIED;
     _explicit_default_value := true;
     _allow_null := false;
     _decoder := fun x =>
       match x with
       | JStr s => PyEnum <$> NumberFormatType_of_value s
       | _ => Err ValueError
       end;
     _encoder := fun value =>
       match value with
       | PyEnum t => Ok (JStr (NumberFormatType_value t))
       | _ => Err AttributeError
       end |}.

Definition number_format_pattern : CellFormatProperty :=
  {| _data_path := ["numberFormat"; "pattern"]%string;
     _type := Type_str;
     _default_value := PyNone;
     _explicit_default_value := true;
     _allow_null := true;
     _decoder := identity_decoder;
     _encoder := identity_encoder |}.

Definition color_property (path : list string) (dflt : Color)
  : CellFormatProperty :=
  {| _data_path := path;
     _type := Type_Color;
     _default_value := PyColor dflt;
     _explicit_default_value := true;
     _allow_null := false;
     _decoder := Color_from_data;
     _encoder := fun value =>
       match value with
       | PyColor c => Ok (Color_to_data c)
       | _ => Err AttributeError
       end |}.

(** A property declared with neither a default nor [allow_null]: the
    default is [type()]. *)
Definition plain_property (path : list string) (t : property_type)
    (zero : pyvalue) : CellFormatProperty :=
  {| _data_path := path;
     _type := t;
     _default_value := zero;
     _explicit_default_value := false;
     _allow_null := false;
     _decoder := identity_decoder;
     _encoder := identity_encoder |}.

Definition background_color : CellFormatProperty :=
  color_property ["backgroundColor"]%string Color_WHITE.
Definition foreground_color : CellFormatProperty :=
  color_property ["textFormat"; "foregroundColor"]%string Color_BLACK.
Definition font_family : CellFormatProperty :=
  plain_property ["textFormat"; "fontFamily"]%string Type_str (PyStr EmptyString).
Definition font_size : CellFormatProperty :=
  plain_property ["textFormat"; "fontSize"]%string Type_int (PyInt 0).
Definition bold : CellFormatProperty :=
  plain_property ["textFormat"; "bold"]%string Type_bool (PyBool false).
Definition italic : CellFormatProperty :=
  plain_property ["textFormat"; "italic"]%string Type_bool (PyBool false).
Definition strikethrough : CellFormatProperty :=
  plain_property ["textFormat"; "strikethrough"]%string Type_bool (PyBool false).
Definition underline : CellFormatProperty :=
  plain_property ["textFormat"; "underline"]%string Type_bool (PyBool false).

(** [CellFormat._property_names], in declaration order, as
    [_initialize_properties] sorts them (by [_index]). *)
Definition _properties : list CellFormatProperty :=
  [number_format_type; number_format_pattern; background_color;
   foreground_color; font_family; font_size; bold; italic; strikethrough;
   underline].

(** [CellFormatProperty._get_value_from_data], for the path [path]. *)
Fixpoint _get_value_from_data (path : list string) (format_data : json)
  : result json :=
  match path with
  | [] => Ok format_data
  | data_name :: rest =>
      if is_None format_data then _get_value_from_data rest format_data
      else
        format_data' ← dict_get format_data data_name;
        _get_value_from_data rest format_data'
  end.

(** [path[:-1]] and [path[-1]]; the latter raises on an empty tuple. *)
Definition split_path (path : list string) : result (list string * string) :=
  match reverse path with
  | [] => Err IndexError
  | last :: front => Ok (reverse front, last)
  end.

(** The descent [format_data = format_data.setdefault(data_name, {})] along
    [names], followed by [format_data[last] = new_value] in the dictionary
    reached.  The dictionaries on the way are shared with the enclosing
    one, so the enclosing dictionary is returned with the change in it. *)
Fixpoint set_along (names : list string) (last : string) (new_value : json)
    (format_data : json) : result json :=
  match names with
  | [] => dict_setitem format_data last new_value
  | data_name :: rest =>
      '(format_data', inner) ← dict_setdefault format_data data_name (JObj []);
      inner' ← set_along rest last new_value inner;
      dict_setitem format_data' data_name inner'
  end.

(** [CellFormatProperty._set_value_to_data] *)
Definition _set_value_to_data (path : list string) (format_data : json)
    (new_value : json) : result json :=
  '(names, last) ← split_path path;
  set_along names last new_value format_data.

(** The descent [d = d.setdefault(data_name, {})] alone, as
    [_merge_formats] performs it on [merged_format] for every property. *)
Fixpoint setdefault_along (names : list string) (format_data : json)
  : result json :=
  match names with
  | [] => Ok format_data
  | data_name :: rest =>
      '(format_data', inner) ← dict_setdefault format_data data_name (JObj []);
      inner' ← setdefault_along rest inner;
      dict_setitem format_data' data_name inner'
  end.

(** The descent [d = d.get(data_name, {})] of [_merge_formats]. *)
Fixpoint get_along (names : list string) (format_data : json) : result json :=
  match names with
  | [] => Ok format_data
  | data_name :: rest =>
      inner ← dict_get_default format_data data_name (JObj []);
      get_along rest inner
  end.

(** The body of the loop of [_merge_formats], for a property whose
    [_data_path] is [path]. *)
Definition merge_path (local_format default_format merged_format : json)
    (path : list string) : result json :=
  '(names, last_path) ← split_path path;
  local_data ← get_along names local_format;
  default_data ← get_along names default_format;
  merged_format ← setdefault_along names merged_format;
  local_data ← dict_get local_data last_path;
  default_data ← dict_get default_data last_path;
  if negb (is_None local_data)
  then set_along names last_path local_data merged_format
  else if negb (is_None default_data)
  then set_along names last_path default_data merged_format
  else Ok merged_format.

Definition merge_property (local_format default_format : json)
    (merged_format : json) (property : CellFormatProperty) : result json :=
  merge_path local_format default_format merged_format (_data_path property).

Definition _merge_formats (local_format default_format : json) : result json :=
  foldlM (merge_property local_format default_format) (JObj []) _properties.

(** [list.sort()] on strings, as an insertion sort. *)
Fixpoint insert_sorted (x : string) (l : list string) : list string :=
  match l with
  | [] => [x]
  | y :: rest => if String.leb x y then x :: l else y :: insert_sorted x rest
  end.

Definition sort (l : list string) : list string :=
  foldr insert_sorted [] l.

(** The first loop of [_get_pending_update]. *)
Definition pending_field (pending_format : json) (fields : list string)
    (property : CellFormatProperty) : result (list string) :=
  format_data ← _get_value_from_data (_data_path property) pending_format;
  if negb (is_None format_data)
  then Ok (fields ++ [String.concat "." (_data_path property)])
  else Ok fields.

(** [CellFormat._get_pending_update]; [copy.deepcopy] is the identity on
    values. *)
Definition _get_pending_update (_pending_format : json)
  : result (json * list string) :=
  fields ← foldlM (pending_field _pending_format) [] _properties;
  let pending_format := _pending_format in
  pending_number_format ← dict_get pending_format "numberFormat";
  if truthy pending_number_format then
    '(pending_number_format, _) ←
      dict_setdefault pending_number_format "type"
        (JStr (NumberFormatType_value UNSPECIFIED));
    '(pending_number_format, _) ←
      dict_setdefault pending_number_format "pattern" (JStr EmptyString);
    pending_format ← dict_setitem pending_format "numberFormat"
                       pending_number_format;
    let fields :=
      List.filter (fun f => negb (String.prefix "numberFormat." f)) fields in
    let fields := fields ++ ["numberFormat"%string] in
    Ok (pending_format, sort fields)
  else Ok (pending_format, sort fields).

(** The type checks and coercions at the head of
    [CellFormatProperty.__set__], after the read-only test.
    [util.check_type] and [py3.promote_str] are not in the sources at hand:
    the former raises [TypeError] unless the value is an instance of the
    type, the latter leaves a text string as it is. *)
Definition check_set_value (property : CellFormatProperty)
    (new_value : pyvalue) : result pyvalue :=
  match new_value with
  | PyNone =>
      if _explicit_default_value property then Ok (_default_value property)
      else Err ValueError
  | _ =>
      match _type property, new_value with
      | Type_str, PyStr _ => Ok new_value
      | Type_int, (PyInt _ | PyBool _) => Ok new_value
      | Type_NumberFormatType, PyStr s => PyEnum <$> NumberFormatType_of_value s
      | Type_NumberFormatType, PyEnum _ => Ok new_value
      | Type_Color, PyColor _ => Ok new_value
      | Type_bool, PyBool _ => Ok new_value
      | _, _ => Err TypeError
      end
  end.

(** The state of a [CellFormat] object; [_cell] is the cell that holds it. *)
Record CellFormat : Type := {
  _user_entered : bool;
  _local_format : json;
  _default_format : json;
  _current_format : json;
  _pending_format : json;
}.

Definition set_local_format (x : json) (f : CellFormat) : CellFormat :=
  {| _user_entered := _user_entered f; _local_format := x;
     _default_format := _default_format f;
     _current_format := _current_format f;
     _pending_format := _pending_format f |}.
Definition set_default_format (x : json) (f : CellFormat) : CellFormat :=
  {| _user_entered := _user_entered f; _local_format := _local_format f;
     _default_format := x;
     _current_format := _current_format f;
     _pending_format := _pending_format f |}.
Definition set_current_format (x : json) (f : CellFormat) : CellFormat :=
  {| _user_entered := _user_entered f; _local_format := _local_format f;
     _default_format := _default_format f;
     _current_format := x;
     _pending_format := _pending_format f |}.
Definition set_pending_format (x : json) (f : CellFormat) : CellFormat :=
  {| _user_entered := _user_entered f; _local_format := _local_format f;
     _default_format := _default_format f;
     _current_format := _current_format f;
     _pending_format := x |}.

(** [CellFormat._reset_data] *)
Definition _reset_data (local_format default_format : json)
  : ST CellFormat unit :=
  modify (set_local_format local_format);;
  modify (set_default_format default_format);;
  current ← lift (_merge_formats local_format default_format);
  modify (set_current_format current);;
  modify (set_pending_format (JObj [])).

(** [CellFormat.__init__]; an exception leaves no object behind. *)
Definition __init__ (user_entered : bool) (local_format default_format : json)
  : result CellFormat :=
  construct (_reset_data local_format default_format)
    {| _user_entered := user_entered; _local_format := JNull;
       _default_format := JNull; _current_format := JNull;
       _pending_format := JNull |}.

(** The reading part of [CellFormatProperty.__get__], after the owning
    cell has been checked. *)
Definition property_get (property : CellFormatProperty) (format : CellFormat)
  : result pyvalue :=
  format_data ← _get_value_from_data (_data_path property)
                  (_current_format format);
  if is_None format_data then Ok (_default_value property)
  else _decoder property format_data.

(** The writing part of [CellFormatProperty.__set__]: the value, already
    checked, goes into [_current_format] and then into [_pending_format]. *)
Definition property_store (property : CellFormatProperty)
    (new_value : pyvalue) : ST CellFormat unit :=
  encoded ← lift match new_value with
                 | PyNone => Ok JNull
                 | _ => _encoder property new_value
                 end;
  format ← get_state;
  current ← lift (_set_value_to_data (_data_path property)
                    (_current_format format) encoded);
  modify (set_current_format current);;
  pending ← lift (_set_value_to_data (_data_path property)
                    (_pending_format format) encoded);
  modify (set_pending_format pending).

(** [CellFormat.clear], but for the dirty flag of the owning cell. *)
Definition clear : ST CellFormat unit :=
  format ← get_state;
  modify (set_current_format (_default_format format));;
  modify (set_pending_format (_default_format format)).

(** A format dictionary as the service sends it: an object in which the
    groups [numberFormat] and [textFormat], when present, are objects. *)
Definition group_ok (entries : list (string * json)) (name : string) : bool :=
  match assoc_get entries name with
  | None | Some (JObj _) => true
  | Some _ => false
  end.

Definition wf_format (format_data : json) : bool :=
  match format_data with
  | JObj entries => group_ok entries "numberFormat" && group_ok entries "textFormat"
  | _ => false
  end.

(** *** Vocabulary for the statements about paths *)

(** The paths [p] and [q] part at some position: neither runs through the
    other. *)
Fixpoint diverges (p q : list string) : bool :=
  match p, q with
  | x :: p', y :: q' => if String.eqb x y then diverges p' q' else true
  | _, _ => false
  end.

(** [q] is a prefix of [names]. *)
Fixpoint is_prefix (q names : list string) : bool :=
  match q, names with
  | [], _ => true
  | y :: q', n :: ns => String.eqb y n && is_prefix q' ns
  | _ :: _, [] => false
  end.

(** The dictionaries met on the way down [names] are dictionaries. *)
Fixpoint dict_shaped (names : list string) (d : json) : bool :=
  match d with
  | JObj e =>
      match names with
      | [] => true
      | n :: ns =>
          match assoc_get e n with
          | None => true
          | Some inner => dict_shaped ns inner
          end
      end
  | _ => false
  end.

(** The value [_merge_formats] selects for a path. *)
Definition selected (local_format default_format : json) (path : list string)
  : json :=
  match _get_value_from_data path local_format, _get_value_from_data path default_format with
  | Ok l, Ok d => if is_None l then d else l
  | _, _ => JNull
  end.

(** The entry [name: value] of a dictionary, left out when the value is
    [None]. *)
Definition entry_unless_None (name : string) (value : json)
  : list (string * json) :=
  if is_None value then [] else [(name, value)].

(** The merged dictionary as the specification describes it: the two
    groups, and at each declared path the value selected for it, the path
    being left out when there is none. *)
Definition merged_format (local_format default_format : json) : json :=
  let value := selected local_format default_format in
  JObj
    ([("numberFormat"%string,
       JObj (entry_unless_None "type" (value ["numberFormat"; "type"]%string) ++
             entry_unless_None "pattern" (value ["numberFormat"; "pattern"]%string)))]
     ++ entry_unless_None "backgroundColor" (value ["backgroundColor"]%string)
     ++ [("textFormat"%string,
          JObj (entry_unless_None "foregroundColor"
                  (value ["textFormat"; "foregroundColor"]%string) ++
                entry_unless_None "fontFamily"
                  (value ["textFormat"; "fontFamily"]%string) ++
                entry_unless_None "fontSize" (value ["textFormat"; "fontSize"]%string) ++
                entry_unless_None "bold" (value ["textFormat"; "bold"]%string) ++
                entry_unless_None "italic" (value ["textFormat"; "italic"]%string) ++
                entry_unless_None "strikethrough"
                  (value ["textFormat"; "strikethrough"]%string) ++
                entry_unless_None "underline"
                  (value ["textFormat"; "underline"]%string)))]).
Definition full (nl : list string * string) : list string := nl.1 ++ [nl.2].

(** The declared paths, split as [_merge_formats] splits them. *)
Definition declared : list (list string * string) :=
  [(["numberFormat"], "type"); (["numberFormat"], "pattern");
   ([], "backgroundColor"); (["textFormat"], "foregroundColor");
   (["textFormat"], "fontFamily"); (["textFormat"], "fontSize");
   (["textFormat"], "bold"); (["textFormat"], "italic");
   (["textFormat"], "strikethrough"); (["textFormat"], "underline")]%string.

(** No declared path runs through another one. *)
Definition apart (all : list (list string * string)) : Prop :=
  forall p q, p ∈ all -> q ∈ all ->
    (p = q \/ diverges (full p) (full q) = true) /\
    is_prefix (full q) p.1 = false.

End CellFormat.


(** ** The shapes exchanged with the transport (spreadsheets API) *)

Module Wire.
Import Json.

(** One [cellEntry] of a range-fetch response; every part is optional and
    [{}] is the entry with no part. *)
Record CellData : Type := {
  userEnteredValue : option (list (string * json));
  effectiveValue : option (list (string * json));
  userEnteredFormat : option json;
  effectiveFormat : option json;
  formattedValue : option string;
}.

Definition empty_cell_data : CellData :=
  {| userEnteredValue := None; effectiveValue := None;
     userEnteredFormat := None; effectiveFormat := None;
     formattedValue := None |}.

(** [response['properties']['defaultFormat']] and the rows
    [response['sheets'][0]['data'][0]['rowData']], each with its optional
    ['values']. *)
Record Response : Type := {
  defaultFormat : json;
  rowData : list (option (list CellData));
}.

(** One [updateCells] fragment. *)
Record UpdateCells : Type := {
  sheetId : Z;
  rowIndex : Z;
  columnIndex : Z;
  values : list (string * json);
  fields : string;
}.

(** The [properties] of a sheet entry of the listing, with the
    [rowCount] and [columnCount] of its [gridProperties].  The answers of
    the service are taken in the shape its API gives them, so an entry
    always has these four parts. *)
Record Entry : Type := {
  entry_sheetId : Z;
  title : string;
  rowCount : Z;
  columnCount : Z;
}.

(** What the remote service answers: [None] stands for a call whose
    [execute()] raises. *)
Record Api : Type := {
  spreadsheets_get : string -> string -> option Response;
  spreadsheets_get_sheets : string -> option (list Entry);
  spreadsheets_batchUpdate : string -> list UpdateCells -> option unit;
}.

(** The calls issued to the service. *)
Inductive ApiCall : Type :=
  | Call_get (spreadsheetId ranges : string)
  | Call_get_sheets (spreadsheetId : string)
  | Call_batchUpdate (spreadsheetId : string) (requests : list UpdateCells).

End Wire.

(** ** The objects of cell.py, view.py and worksheet.py *)

Module Cell.
Import Json CellFormat.

(** [_view] is the view whose [_cell_map] holds the cell. *)
Record Cell : Type := {
  _row : Z;
  _col : Z;
  _user_entered_format : CellFormat;
  _effective_format : CellFormat;
  _user_entered_value : pyvalue;
  _effective_value : pyvalue;
  _formatted_value : string;
  _value_dirty : bool;
  _format_dirty : bool;
}.

Definition set_user_entered_format (x : CellFormat) (c : Cell) : Cell :=
  {| _row := _row c; _col := _col c; _user_entered_format := x;
     _effective_format := _effective_format c;
     _user_entered_value := _user_entered_value c;
     _effective_value := _effective_value c;
     _formatted_value := _formatted_value c;
     _value_dirty := _value_dirty c; _format_dirty := _format_dirty c |}.
Definition set_effective_format (x : CellFormat) (c : Cell) : Cell :=
  {| _row := _row c; _col := _col c;
     _user_entered_format := _user_entered_format c;
     _effective_format := x;
     _user_entered_value := _user_entered_value c;
     _effective_value := _effective_value c;
     _formatted_value := _formatted_value c;
     _value_dirty := _value_dirty c; _format_dirty := _format_dirty c |}.
Definition set_user_entered_value (x : pyvalue) (c : Cell) : Cell :=
  {| _row := _row c; _col := _col c;
     _user_entered_format := _user_entered_format c;
     _effective_format := _effective_format c;
     _user_entered_value := x;
     _effective_value := _effective_value c;
     _formatted_value := _formatted_value c;
     _value_dirty := _value_dirty c; _format_dirty := _format_dirty c |}.
Definition set_effective_value (x : pyvalue) (c : Cell) : Cell :=
  {| _row := _row c; _col := _col c;
     _user_entered_format := _user_entered_format c;
     _effective_format := _effective_format c;
     _user_entered_value := _user_entered_value c;
     _effective_value := x;
     _formatted_value := _formatted_value c;
     _value_dirty := _value_dirty c; _format_dirty := _format_dirty c |}.
Definition set_formatted_value (x : string) (c : Cell) : Cell :=
  {| _row := _row c; _col := _col c;
     _user_entered_format := _user_entered_format c;
     _effective_format := _effective_format c;
     _user_entered_value := _user_entered_value c;
     _effective_value := _effective_value c;
     _formatted_value := x;
     _value_dirty := _value_dirty c; _format_dirty := _format_dirty c |}.
Definition set_value_dirty (x : bool) (c : Cell) : Cell :=
  {| _row := _row c; _col := _col c;
     _user_entered_format := _user_entered_format c;
     _effective_format := _effective_format c;
     _user_entered_value := _user_entered_value c;
     _effective_value := _effective_value c;
     _formatted_value := _formatted_value c;
     _value_dirty := x; _format_dirty := _format_dirty c |}.
Definition set_format_dirty (x : bool) (c : Cell) : Cell :=
  {| _row := _row c; _col := _col c;
     _user_entered_format := _user_entered_format c;
     _effective_format := _effective_format c;
     _user_entered_value := _user_entered_value c;
     _effective_value := _effective_value c;
     _formatted_value := _formatted_value c;
     _value_dirty := _value_dirty c; _format_dirty := x |}.

Section Values.

(** [util.datetime_to_serial], [util.serial_to_datetime] and
    [util.SERIAL_EPOCH] are used by cell.py and are not in the util.py at
    hand, so the value codec is stated for any such functions.
    [epoch_plus seconds microseconds] stands for
    [util.SERIAL_EPOCH + datetime.timedelta(seconds=…, microseconds=…)]. *)
Variable datetime_to_serial : datetime -> float.
Variable serial_to_datetime : json -> datetime.
Variable epoch_plus : Z -> Z -> datetime.

(** [FormulaValue.__repr__] *)
Definition FormulaValue_repr (formula : string) : string :=
  ("FormulaValue(formula=" ++ Py.repr_str formula ++ ")")%string.

(** [py3.str(value)] for a [FormulaValue].  hyou/py3.py is not at hand:
    [py3.str] is the text type the sources test values against with
    [isinstance], and [FormulaValue] defines [__repr__] and no [__str__], so
    the text of the object is its [repr]. *)
Definition py3_str_FormulaValue (formula : string) : string :=
  FormulaValue_repr formula.

(** [Cell._unparse_extended_value].  [py3.promote_to_str] turns a native
    byte string into text and leaves the values of this domain alone. *)
Definition _unparse_extended_value (value : pyvalue)
  : result (list (string * json) * option NumberFormatType) :=
  match value with
  | PyNone => Ok ([], None)
  | PyStr s => Ok ([("stringValue", JStr s)], None)
  | PyBool b => Ok ([("boolValue", JBool b)], None)
  | PyFormulaValue formula =>
      Ok ([("formulaValue", JStr (py3_str_FormulaValue formula))], None)
  | PyErrorValue _ => Err ValueError
  | PyInt z => Ok ([("numberValue", JInt z)], None)
  | PyDatetime dt =>
      let serial := datetime_to_serial dt in
      Ok ([("numberValue", JFloat serial)], Some DATE_TIME)
  | PyDate d =>
      let serial :=
        datetime_to_serial
          {| date_of := d;
             time_of := {| hour := 0; minute := 0; second := 0;
                           microsecond := 0 |} |} in
      Ok ([("numberValue", JFloat serial)], Some DATE)
  | PyTime t =>
      let serial :=
        datetime_to_serial
          (epoch_plus ((hour t * 60 + minute t) * 60 + second t)
             (microsecond t)) in
      Ok ([("numberValue", JFloat serial)], Some TIME)
  | PyFloat _ | PyEnum _ | PyColor _ | PyDict _ => Err ValueError
  end%string.

(** [FormulaValue(x)] and [ErrorValue(x)]: the argument must be text. *)
Definition FormulaValue (x : json) : result pyvalue :=
  match x with JStr s => Ok (PyFormulaValue s) | _ => Err TypeError end.
Definition ErrorValue (x : json) : result pyvalue :=
  match x with JStr s => Ok (PyErrorValue s) | _ => Err TypeError end.

(** [Cell._parse_extended_value].  [number_format_type] is the outcome of
    reading [format.number_format_type]; it is looked at in the numeric
    branch only, as in the source. *)
Definition _parse_extended_value (extended_value : option (list (string * json)))
    (number_format_type : result pyvalue) : result pyvalue :=
  match extended_value with
  | None | Some [] => Ok PyNone
  | Some entries =>
      match assoc_get entries "stringValue" with
      | Some x => Ok (value_of_json x)
      | None =>
      match assoc_get entries "boolValue" with
      | Some x => Ok (value_of_json x)
      | None =>
      match assoc_get entries "formulaValue" with
      | Some x => FormulaValue x
      | None =>
      match assoc_get entries "errorValue" with
      | Some x => ErrorValue x
      | None =>
      match assoc_get entries "numberValue" with
      | None => Err KeyError
      | Some number =>
          t ← number_format_type;
          match t with
          | PyEnum DATE_TIME => Ok (PyDatetime (serial_to_datetime number))
          | PyEnum DATE => Ok (PyDate (date_of (serial_to_datetime number)))
          | PyEnum TIME => Ok (PyTime (time_of (serial_to_datetime number)))
          | _ => Ok (value_of_json number)
          end
      end end end end end
  end%string.

(** Encoding a value and decoding the result, the number-format type of
    the decoding context being the one the encoder inferred, or
    [UNSPECIFIED] (a plain number) when it inferred none. *)
Definition round_trip (value : pyvalue) : result pyvalue :=
  '(extended_value, inferred) ← _unparse_extended_value value;
  _parse_extended_value (Some extended_value)
    (Ok (PyEnum (default UNSPECIFIED inferred))).

(** [format.number_format_type], read for the cell that owns [format].
    [CellFormatProperty.__get__] first calls
    [format._cell._ensure_fetched_and_valid()]; at the places where a value
    is parsed (the constructor and [_reset_data] of a cell, both called by
    the view after it has set [_fetched]) the fetch inside returns at once
    and what is left is the test that the cell lies in the window, whose
    outcome is [in_window]. *)
Definition read_number_format_type (in_window : bool) (format : CellFormat)
  : result pyvalue :=
  if in_window then property_get number_format_type format
  else Err HyouRuntimeError.

(** [Cell._reset_data] *)
Definition _reset_data (in_window : bool) (cell_data : Wire.CellData)
    (default_format : json) : ST Cell unit :=
  zoom _user_entered_format set_user_entered_format
    (CellFormat._reset_data
       (default (JObj []) (Wire.userEnteredFormat cell_data)) default_format);;
  zoom _effective_format set_effective_format
    (CellFormat._reset_data
       (default (JObj []) (Wire.effectiveFormat cell_data)) default_format);;
  self ← get_state;
  value ← lift (_parse_extended_value (Wire.userEnteredValue cell_data)
                  (read_number_format_type in_window (_user_entered_format self)));
  modify (set_user_entered_value value);;
  value ← lift (_parse_extended_value (Wire.effectiveValue cell_data)
                  (read_number_format_type in_window (_effective_format self)));
  modify (set_effective_value value);;
  modify (set_formatted_value
            (default EmptyString (Wire.formattedValue cell_data)));;
  modify (set_value_dirty false);;
  modify (set_format_dirty false).

(** [Cell.__init__]: the same assignments on a new object, whose two
    formats are new [CellFormat] objects. *)
Definition __init__ (in_window : bool) (row col : Z)
    (cell_data : Wire.CellData) (default_format : json) : result Cell :=
  let blank user_entered :=
    {| CellFormat._user_entered := user_entered;
       CellFormat._local_format := JNull;
       CellFormat._default_format := JNull;
       CellFormat._current_format := JNull;
       CellFormat._pending_format := JNull |} in
  construct (_reset_data in_window cell_data default_format)
    {| _row := row; _col := col;
       _user_entered_format := blank true;
       _effective_format := blank false;
       _user_entered_value := PyNone; _effective_value := PyNone;
       _formatted_value := EmptyString;
       _value_dirty := false; _format_dirty := false |}.

(** [Cell._build_update_request]; [key] is the outcome of reading
    [self._view._worksheet.key]. *)
Definition _build_update_request (key : result Z) (self : Cell)
  : result (option Wire.UpdateCells) :=
  if negb (_value_dirty self || _format_dirty self) then Ok None
  else
    let value_data : list (string * json) := [] in
    let fields : list string := [] in
    '(value_data, fields) ←
      (if _value_dirty self then
         '(extended_value, _) ← _unparse_extended_value (_user_entered_value self);
         Ok (assoc_set value_data "userEnteredValue"%string (JObj extended_value),
             fields ++ ["userEnteredValue"%string])
       else Ok (value_data, fields));
    '(value_data, fields) ←
      (if _format_dirty self then
         '(pending_format, format_fields) ←
           _get_pending_update (_pending_format (_user_entered_format self));
         Ok (assoc_set value_data "userEnteredFormat"%string pending_format,
             fields ++ ((fun f => "userEnteredFormat." +:+ f) <$> format_fields))
       else Ok (value_data, fields));
    key ← key;
    Ok (Some {| Wire.sheetId := key;
                Wire.rowIndex := _row self;
                Wire.columnIndex := _col self;
                Wire.values := value_data;
                Wire.fields := String.concat "," fields |}).

End Values.

End Cell.

Module ViewRow.

(** [_view] is a reference to the view, shared by every row made from it. *)
Record ViewRow : Type := {
  _view : nat;
  _row : Z;
  _start_col : Z;
  _end_col : Z;
}.

End ViewRow.

Module View.
Import Json CellFormat Wire.

(** A [View] / [WorksheetView] object.  A [Worksheet] is a [WorksheetView]
    with [_spreadsheet] (the key of its spreadsheet) and [_entry]; the other
    views have neither.  [_worksheet] is a reference to the worksheet and
    [_cell_map] keeps its entries in insertion order.  [_api] is the [Api]
    the operations below receive. *)
Record View : Type := {
  _worksheet : nat;
  _start_row : Z;
  _end_row : Z;
  _start_col : Z;
  _end_col : Z;
  _view_rows : list ViewRow.ViewRow;
  _cell_map : list ((Z * Z) * Cell.Cell);
  _default_format : json;
  _fetched : bool;
  _spreadsheet : option string;
  _entry : option Entry;
}.

(** The objects in existence, by reference, and the calls issued to the
    service so far. *)
Record World : Type := {
  views : list View;
  calls : list ApiCall;
}.

Definition set_window (start_row end_row start_col end_col : Z)
    (view_rows : list ViewRow.ViewRow) (v : View) : View :=
  {| _worksheet := _worksheet v;
     _start_row := start_row; _end_row := end_row;
     _start_col := start_col; _end_col := end_col;
     _view_rows := view_rows;
     _cell_map := _cell_map v; _default_format := _default_format v;
     _fetched := _fetched v; _spreadsheet := _spreadsheet v;
     _entry := _entry v |}.
Definition set_cell_map (x : list ((Z * Z) * Cell.Cell)) (v : View) : View :=
  {| _worksheet := _worksheet v;
     _start_row := _start_row v; _end_row := _end_row v;
     _start_col := _start_col v; _end_col := _end_col v;
     _view_rows := _view_rows v;
     _cell_map := x; _default_format := _default_format v;
     _fetched := _fetched v; _spreadsheet := _spreadsheet v;
     _entry := _entry v |}.
Definition set_default_format (x : json) (v : View) : View :=
  {| _worksheet := _worksheet v;
     _start_row := _start_row v; _end_row := _end_row v;
     _start_col := _start_col v; _end_col := _end_col v;
     _view_rows := _view_rows v;
     _cell_map := _cell_map v; _default_format := x;
     _fetched := _fetched v; _spreadsheet := _spreadsheet v;
     _entry := _entry v |}.
Definition set_fetched (x : bool) (v : View) : View :=
  {| _worksheet := _worksheet v;
     _start_row := _start_row v; _end_row := _end_row v;
     _start_col := _start_col v; _end_col := _end_col v;
     _view_rows := _view_rows v;
     _cell_map := _cell_map v; _default_format := _default_format v;
     _fetched := x; _spreadsheet := _spreadsheet v;
     _entry := _entry v |}.
Definition set_entry (x : option Entry) (v : View) : View :=
  {| _worksheet := _worksheet v;
     _start_row := _start_row v; _end_row := _end_row v;
     _start_col := _start_col v; _end_col := _end_col v;
     _view_rows := _view_rows v;
     _cell_map := _cell_map v; _default_format := _default_format v;
     _fetched := _fetched v; _spreadsheet := _spreadsheet v;
     _entry := x |}.

(** [location in self._cell_map] and [self._cell_map[location]] *)
Fixpoint cell_map_get (m : list ((Z * Z) * Cell.Cell)) (location : Z * Z)
  : option Cell.Cell :=
  match m with
  | [] => None
  | (k, c) :: rest =>
      if bool_decide (k = location) then Some c else cell_map_get rest location
  end.

(** [self._cell_map[location] = c] *)
Fixpoint cell_map_set (m : list ((Z * Z) * Cell.Cell)) (location : Z * Z)
    (c : Cell.Cell) : list ((Z * Z) * Cell.Cell) :=
  match m with
  | [] => [(location, c)]
  | (k, c') :: rest =>
      if bool_decide (k = location) then (k, c) :: rest
      else (k, c') :: cell_map_set rest location c
  end.

(** An object that no reference denotes; it is what a dangling reference
    reads, and no reference handed out by the operations below dangles. *)
Definition no_view : View :=
  {| _worksheet := 0%nat;
     _start_row := 0; _end_row := 0; _start_col := 0; _end_col := 0;
     _view_rows := []; _cell_map := []; _default_format := JNull;
     _fetched := false; _spreadsheet := None; _entry := None |}.

Definition the_view (w : World) (self : nat) : View :=
  default no_view (views w !! self).

Definition update_view (self : nat) (f : View -> View) (w : World) : World :=
  {| views := alter f self (views w); calls := calls w |}.

Definition issue (call : ApiCall) (w : World) : World :=
  {| views := views w; calls := calls w ++ [call] |}.

Abbreviation M := (ST World).

Definition view (self : nat) : M View :=
  w ← get_state; mret (the_view w self).

(** [[ViewRow(self, row, start_col, end_col) for row in range(start_row, end_row)]] *)
Definition make_view_rows (self : nat) (start_row end_row start_col end_col : Z)
  : list ViewRow.ViewRow :=
  (fun row => {| ViewRow._view := self; ViewRow._row := row;
                 ViewRow._start_col := start_col;
                 ViewRow._end_col := end_col |})
    <$> seqZ start_row (end_row - start_row).

(** [View.__init__] / [WorksheetView.__init__]: the new object gets the
    next reference. *)
Definition __init__ (worksheet : nat)
    (start_row end_row start_col end_col : Z) : M nat :=
  w ← get_state;
  let self := length (views w) in
  modify (fun w =>
    {| views := views w ++
         [{| _worksheet := worksheet;
             _start_row := start_row; _end_row := end_row;
             _start_col := start_col; _end_col := end_col;
             _view_rows :=
               make_view_rows self start_row end_row start_col end_col;
             _cell_map := []; _default_format := JNull; _fetched := false;
             _spreadsheet := None; _entry := None |}];
       calls := calls w |});;
  mret self.

(** [WorksheetView._reset_size] *)
Definition _reset_size (self : nat) (start_row end_row start_col end_col : Z)
  : M unit :=
  modify (update_view self
            (set_window start_row end_row start_col end_col
               (make_view_rows self start_row end_row start_col end_col))).

Definition refresh (self : nat) : M unit :=
  modify (update_view self (set_default_format JNull));;
  modify (update_view self (set_fetched false)).

(** [self._worksheet._entry['properties']], the source of [title] and
    [key], and [self._worksheet._spreadsheet.key]. *)
Definition worksheet_entry (self : nat) : M Entry :=
  v ← view self;
  worksheet ← view (_worksheet v);
  match _entry worksheet with
  | Some entry => mret entry
  | None => raise AttributeError
  end.

Definition spreadsheet_key (self : nat) : M string :=
  v ← view self;
  worksheet ← view (_worksheet v);
  match _spreadsheet worksheet with
  | Some key => mret key
  | None => raise AttributeError
  end.

Definition _fetch (api : Api) (self : nat) : M Response :=
  v ← view self;
  entry ← worksheet_entry self;
  let range_str :=
    Util.format_range_a1_notation (title entry)
      (_start_row v) (_end_row v) (_start_col v) (_end_col v) in
  key ← spreadsheet_key self;
  modify (issue (Call_get key range_str));;
  match spreadsheets_get api key range_str with
  | Some response => mret response
  | None => raise TransportError
  end.

Definition in_window (v : View) (row col : Z) : bool :=
  (_start_row v <=? row) && (row <? _end_row v) &&
  (_start_col v <=? col) && (col <? _end_col v).

(** A computation on the cell at [location] of the view [self]. *)
Definition on_cell {A : Type} (self : nat) (location : Z * Z)
    (m : ST Cell.Cell A) : M A :=
  fun w =>
    match cell_map_get (_cell_map (the_view w self)) location with
    | None => (Err KeyError, w)
    | Some c =>
        let '(r, c') := m c in
        (r, update_view self
              (fun v => set_cell_map (cell_map_set (_cell_map v) location c') v)
              w)
    end.

(** The cell at [location] of the view [self], read. *)
Definition read_cell (self : nat) (location : Z * Z) : M Cell.Cell :=
  v ← view self;
  match cell_map_get (_cell_map v) location with
  | Some c => mret c
  | None => raise KeyError
  end.

(** [for i in …: for j, x in enumerate(…)]: the body gets the offset. *)
Fixpoint for_each_from {S B : Type} (i : Z) (l : list B)
    (body : Z -> B -> ST S unit) : ST S unit :=
  match l with
  | [] => mret tt
  | b :: l' => body i b ;; for_each_from (i + 1) l' body
  end.

(** The locations the two loops of [_ensure_fetched] visit, that is, those
    they discard from [cleared_locations]. *)
Definition visited (start_row start_col : Z)
    (row_data : list (option (list CellData))) : list (Z * Z) :=
  mjoin (imap (fun i r =>
           imap (fun j (_ : CellData) =>
                   (start_row + Z.of_nat i, start_col + Z.of_nat j))
             (default [] r)) row_data).

(** *** Vocabulary for the statements about worlds *)

(** The worlds [w] and [w'] hold the same objects up to [hdr]. *)
Definition same {H : Type} (hdr : View -> H) (w w' : World) : Prop :=
  length (views w) = length (views w') /\
  forall i, hdr (the_view w i) = hdr (the_view w' i).

(** No call was issued between [w] and [w']. *)
Definition quiet (w w' : World) : Prop := calls w = calls w'.

(** The computation [m] takes every world to one related to it by [R],
    however it ends. *)
Definition keeps (R : World -> World -> Prop) {A : Type} (m : M A) : Prop :=
  forall w, R w (m w).2.

(** The write [f] to the object [self] takes every world to one related to
    it by [R]. *)
Definition writes_keep (R : World -> World -> Prop) (self : nat)
    (f : View -> View) : Prop :=
  forall w, R w (update_view self f w).

(** What no operation on cells changes, and what a fetch leaves alone. *)
Definition header (v : View) :=
  (_worksheet v, _start_row v, _end_row v, _start_col v, _end_col v,
   _view_rows v, _default_format v, _fetched v, _spreadsheet v, _entry v).
Definition shape (v : View) :=
  (_worksheet v, _start_row v, _end_row v, _start_col v, _end_col v,
   _view_rows v, _spreadsheet v, _entry v).

Section Operations.

Variable datetime_to_serial : datetime -> float.
Variable serial_to_datetime : json -> datetime.
Variable epoch_plus : Z -> Z -> datetime.

(** The part of [_ensure_fetched] that goes through the response: [v] is
    the view as it was when the method was entered. *)
Definition process_response (self : nat) (v : View) (response : Response)
  : M unit :=
  let cleared_locations :=
    List.filter
      (fun location =>
         negb (bool_decide
                 (location ∈ visited (_start_row v) (_start_col v)
                               (rowData response))))
      (_cell_map v).*1 in
  for_each_from 0 (rowData response) (fun i row_data =>
    let row := _start_row v + i in
    for_each_from 0 (default [] row_data) (fun j cell_data =>
      let col := _start_col v + j in
      let location := (row, col) in
      v ← view self;
      match cell_map_get (_cell_map v) location with
      | None =>
          c ← lift (Cell.__init__ serial_to_datetime (in_window v row col)
                      row col cell_data (_default_format v));
          modify (update_view self
                    (fun v => set_cell_map (_cell_map v ++ [(location, c)]) v))
      | Some _ =>
          on_cell self location
            (Cell._reset_data serial_to_datetime (in_window v row col)
               cell_data (_default_format v))
      end));;
  for_each cleared_locations (fun location =>
    v ← view self;
    on_cell self location
      (Cell._reset_data serial_to_datetime
         (in_window v location.1 location.2)
         empty_cell_data (_default_format v))).

Definition _ensure_fetched (api : Api) (self : nat) : M unit :=
  v ← view self;
  if _fetched v then mret tt
  else
    response ← _fetch api self;
    modify (update_view self (set_fetched true));;
    modify (update_view self (set_default_format (defaultFormat response)));;
    process_response self v response.

Definition _get_cell (api : Api) (self : nat) (row col : Z) : M (Z * Z) :=
  v ← view self;
  if negb ((_start_row v <=? row) && (row <? _end_row v))
  then raise IndexError
  else if negb ((_start_col v <=? col) && (col <? _end_col v))
  then raise IndexError
  else
    _ensure_fetched api self;;
    let location := (row, col) in
    v ← view self;
    match cell_map_get (_cell_map v) location with
    | None =>
        c ← lift (Cell.__init__ serial_to_datetime (in_window v row col)
                    row col empty_cell_data (_default_format v));
        modify (update_view self
                  (fun v => set_cell_map (_cell_map v ++ [(location, c)]) v))
    | Some _ => mret tt
    end;;
    mret location.

(** The first loop of [commit] (the method itself comes after
    [Worksheet], whose [refresh] it may call). *)
Fixpoint collect_update_requests (key : result Z) (cells : list Cell.Cell)
    (update_requests : list UpdateCells) : result (list UpdateCells) :=
  match cells with
  | [] => Ok update_requests
  | c :: rest =>
      update_request ←
        Cell._build_update_request datetime_to_serial epoch_plus key c;
      collect_update_requests key rest
        (match update_request with
         | Some r => update_requests ++ [r]
         | None => update_requests
         end)
  end.

(** The fragments [commit] builds: a function of the objects alone. *)
Definition fragments (self : nat) (w : World) : result (list UpdateCells) :=
  collect_update_requests
    (entry_sheetId <$> (worksheet_entry self w).1)
    (_cell_map (the_view w self)).*2 [].

End Operations.

End View.

(** The methods and properties of [Cell] that go through the owning view.
    A cell is denoted by the reference of its view and its location, the
    key under which [_cell_map] holds it: a cell is created only when it is
    stored under its own [(row, col)], and is never removed or replaced. *)
Module CellMethods.
Import Json CellFormat Wire View.

Definition CellRef : Type := nat * (Z * Z).

Section Operations.

Variable datetime_to_serial : datetime -> float.
Variable serial_to_datetime : json -> datetime.
Variable epoch_plus : Z -> Z -> datetime.

Definition _ensure_fetched_and_valid (api : Api) (self : CellRef) : M unit :=
  _ensure_fetched serial_to_datetime api self.1;;
  v ← view self.1;
  c ← read_cell self.1 self.2;
  if negb ((_start_row v <=? Cell._row c) && (Cell._row c <? _end_row v) &&
           (_start_col v <=? Cell._col c) && (Cell._col c <? _end_col v))
  then raise HyouRuntimeError
  else mret tt.

Definition dirty (c : Cell.Cell) : bool :=
  Cell._value_dirty c || Cell._format_dirty c.

(** What a read of a server-computed property named [name] gives for a cell
    that is or is not in the window of its view ([valid]) and that has or
    has not a local edit pending ([pending]), [x] being the stored state. *)
Definition read_outcome {A : Type} (valid pending : bool) (name : string)
    (x : A) : result A :=
  if negb valid then Err HyouRuntimeError
  else if pending then Err (UncommittedCellPropertyError name)
  else Ok x.

Definition user_entered_value (api : Api) (self : CellRef) : M pyvalue :=
  _ensure_fetched_and_valid api self;;
  c ← read_cell self.1 self.2;
  mret (Cell._user_entered_value c).

Definition effective_value (api : Api) (self : CellRef) : M pyvalue :=
  _ensure_fetched_and_valid api self;;
  c ← read_cell self.1 self.2;
  if dirty c then raise (UncommittedCellPropertyError "effective_value")
  else mret (Cell._effective_value c).

Definition formatted_value (api : Api) (self : CellRef) : M string :=
  _ensure_fetched_and_valid api self;;
  c ← read_cell self.1 self.2;
  if dirty c then raise (UncommittedCellPropertyError "formatted_value")
  else mret (Cell._formatted_value c).

(** The format objects are returned as the state they hold. *)
Definition user_entered_format (api : Api) (self : CellRef) : M CellFormat :=
  _ensure_fetched_and_valid api self;;
  c ← read_cell self.1 self.2;
  mret (Cell._user_entered_format c).

Definition effective_format (api : Api) (self : CellRef) : M CellFormat :=
  _ensure_fetched_and_valid api self;;
  c ← read_cell self.1 self.2;
  if dirty c then raise (UncommittedCellPropertyError "effective_format")
  else mret (Cell._effective_format c).

(** [CellFormatProperty.__set__] on the user-entered ([user_entered]) or
    the effective format of the cell. *)
Definition property_set (api : Api) (self : CellRef) (user_entered : bool)
    (property : CellFormatProperty) (new_value : pyvalue) : M unit :=
  if negb user_entered then raise AttributeError
  else
    new_value ← lift (check_set_value property new_value);
    _ensure_fetched_and_valid api self;;
    on_cell self.1 self.2
      (zoom Cell._user_entered_format Cell.set_user_entered_format
         (property_store property new_value));;
    on_cell self.1 self.2 (modify (Cell.set_format_dirty true)).

Definition _assign_value (api : Api) (self : CellRef) (new_value : pyvalue)
  : M unit :=
  _ensure_fetched_and_valid api self;;
  '(_, number_format_type) ←
    lift (Cell._unparse_extended_value datetime_to_serial epoch_plus new_value);
  match number_format_type with
  | Some t =>
      property_set api self true CellFormat.number_format_type (PyEnum t)
  | None => mret tt
  end;;
  on_cell self.1 self.2 (modify (Cell.set_user_entered_value new_value));;
  on_cell self.1 self.2 (modify (Cell.set_value_dirty true)).

(** [CellFormat.clear] on a format object of the cell, already in hand. *)
Definition CellFormat_clear (self : CellRef) : M unit :=
  on_cell self.1 self.2
    (zoom Cell._user_entered_format Cell.set_user_entered_format
       CellFormat.clear);;
  on_cell self.1 self.2 (modify (Cell.set_format_dirty true)).

Definition clear (api : Api) (self : CellRef) : M unit :=
  _assign_value api self PyNone;;
  user_entered_format api self;;
  CellFormat_clear self.

End Operations.

(** *** Vocabulary for the statements about pending edits *)

(** The cell at [location] of the view [self] has an edit pending. *)
Definition pending (w : World) (self : nat) (location : Z * Z) : Prop :=
  exists c, cell_map_get (_cell_map (the_view w self)) location = Some c /\
            dirty c = true.

(** The computation [m] marks no cell of [self] as edited and, when it
    returns, leaves no edit pending at the locations in [P]. *)
Definition cleans {A : Type} (self : nat) (P : Z * Z -> Prop) (m : M A) : Prop :=
  forall w,
    (forall location, pending (m w).2 self location -> pending w self location) /\
    (is_ok (m w).1 = true ->
     forall location, P location -> ~ pending (m w).2 self location).
End CellMethods.

(** [ViewRow] / [WorksheetViewRow] and the indexing of a view. *)
Module Rows.
Import Json CellFormat Wire View.

Section Operations.

Variable serial_to_datetime : json -> datetime.

Definition len (self : ViewRow.ViewRow) : Z :=
  ViewRow._end_col self - ViewRow._start_col self.

(** [ViewRow.__getitem__] for [index = slice(start, stop)] *)
Definition getitem_slice (self : ViewRow.ViewRow) (start stop : option Z)
  : ViewRow.ViewRow :=
  let '(start, stop) := Py.slice_indices start stop (len self) in
  let stop := if stop <? start then start else stop in
  {| ViewRow._view := ViewRow._view self;
     ViewRow._row := ViewRow._row self;
     ViewRow._start_col := ViewRow._start_col self + start;
     ViewRow._end_col := ViewRow._start_col self + stop |}.

(** [ViewRow.__getitem__] for an integer [index] *)
Definition getitem (api : Api) (self : ViewRow.ViewRow) (index : Z)
  : M CellMethods.CellRef :=
  let col :=
    if index <? 0 then ViewRow._end_col self + index
    else ViewRow._start_col self + index in
  location ← _get_cell serial_to_datetime api (ViewRow._view self)
               (ViewRow._row self) col;
  mret (ViewRow._view self, location).

(** [View.__getitem__] for an integer [index] *)
Definition view_getitem (self : nat) (index : Z) : M ViewRow.ViewRow :=
  v ← view self;
  lift (Util.py_list_get (_view_rows v) index).

(** [View.__getitem__] for [index = slice(start, stop)]: a list of the
    rows the view already has. *)
Definition view_getitem_slice (self : nat) (start stop : option Z)
  : M (list ViewRow.ViewRow) :=
  v ← view self;
  let '(start, stop) :=
    Py.slice_indices start stop (Z.of_nat (length (_view_rows v))) in
  mret (take (Z.to_nat (stop - start)) (drop (Z.to_nat start) (_view_rows v))).

End Operations.

End Rows.

(** [class Worksheet(WorksheetView)] of worksheet.py *)
Module Worksheet.
Import Json CellFormat Wire View.

(** [self._entry['properties']] and [self._spreadsheet.key] of the
    worksheet [self] itself. *)
Definition entry (self : nat) : M Entry :=
  v ← View.view self;
  match _entry v with
  | Some entry => mret entry
  | None => raise AttributeError
  end.

Definition spreadsheet (self : nat) : M string :=
  v ← View.view self;
  match _spreadsheet v with
  | Some key => mret key
  | None => raise AttributeError
  end.

Definition key (self : nat) : M Z :=
  entry ← entry self; mret (entry_sheetId entry).
Definition rows (self : nat) : M Z :=
  entry ← entry self; mret (rowCount entry).
Definition cols (self : nat) : M Z :=
  entry ← entry self; mret (columnCount entry).

(** [Worksheet.__init__]: the object is its own [_worksheet]. *)
Definition __init__ (spreadsheet : string) (entry : Entry) : M nat :=
  w ← get_state;
  let self := length (views w) in
  modify (fun w =>
    {| views := views w ++
         [{| _worksheet := self;
             _start_row := 0; _end_row := rowCount entry;
             _start_col := 0; _end_col := columnCount entry;
             _view_rows :=
               make_view_rows self 0 (rowCount entry) 0 (columnCount entry);
             _cell_map := []; _default_format := JNull; _fetched := false;
             _spreadsheet := Some spreadsheet; _entry := Some entry |}];
       calls := calls w |});;
  mret self.

(** [Worksheet.refresh] *)
Definition refresh (api : Api) (self : nat) (entry : option Entry) : M unit :=
  match entry with
  | Some entry => modify (update_view self (set_entry (Some entry)))
  | None =>
      spreadsheetId ← spreadsheet self;
      modify (issue (Call_get_sheets spreadsheetId));;
      match spreadsheets_get_sheets api spreadsheetId with
      | None => raise TransportError
      | Some sheets =>
          key ← key self;
          match List.find (fun e => entry_sheetId e =? key) sheets with
          | Some entry => modify (update_view self (set_entry (Some entry)))
          | None => raise HyouRuntimeError
          end
      end
  end;;
  rows ← rows self;
  cols ← cols self;
  _reset_size self 0 rows 0 cols;;
  View.refresh self.

(** [Worksheet.view] *)
Definition view (self : nat) (start_row end_row start_col end_col : option Z)
  : M nat :=
  rows ← rows self;
  cols ← cols self;
  let '(start_row, end_row) := Py.slice_indices start_row end_row rows in
  let '(start_col, end_col) := Py.slice_indices start_col end_col cols in
  let start_row := if end_row <? start_row then end_row else start_row in
  let start_col := if end_col <? start_col then end_col else start_col in
  View.__init__ self start_row end_row start_col end_col.

End Worksheet.

(** [commit] of view.py and worksheet.py.  Its last statement,
    [self.refresh()], is the method of the class of [self]: [refresh] of
    [Worksheet] when [self] is a worksheet (the object that has a
    [_spreadsheet]), which lists the sheets again before it resets the
    window, and the plain [refresh] for any other view. *)
Module Commit.
Import Json CellFormat Wire View.

Section Operations.

Variable datetime_to_serial : datetime -> float.
Variable epoch_plus : Z -> Z -> datetime.

Definition refresh_self (api : Api) (self : nat) : M unit :=
  v ← View.view self;
  match _spreadsheet v with
  | Some _ => Worksheet.refresh api self None
  | None => View.refresh self
  end.

Definition commit (api : Api) (self : nat) : M unit :=
  v ← View.view self;
  w ← get_state;
  let key := entry_sheetId <$> (worksheet_entry self w).1 in
  update_requests ←
    lift (collect_update_requests datetime_to_serial epoch_plus key
            (_cell_map v).*2 []);
  match update_requests with
  | [] => mret tt
  | _ =>
      spreadsheetId ← spreadsheet_key self;
      modify (issue (Call_batchUpdate spreadsheetId update_requests));;
      match spreadsheets_batchUpdate api spreadsheetId update_requests with
      | None => raise TransportError
      | Some _ => refresh_self api self
      end
  end.

End Operations.

End Commit.

(** ** A sample session

    One worksheet of three rows and three columns, whose range fetch
    answers three cells.  No sample value is a date, so the serial
    conversions, which are not in the sources at hand, never run; constant
    functions stand in for them. *)
Module Sample.
Import Json CellFormat Wire View.

Definition midnight : datetime :=
  {| date_of := {| year := 1899; month := 12; day := 30 |};
     time_of := {| hour := 0; minute := 0; second := 0; microsecond := 0 |} |}.
Definition datetime_to_serial : datetime -> float := fun _ => 0%float.
Definition serial_to_datetime : json -> datetime := fun _ => midnight.
Definition epoch_plus : Z -> Z -> datetime := fun _ _ => midnight.

Definition text_cell (s : string) : CellData :=
  {| userEnteredValue := Some [("stringValue"%string, JStr s)];
     effectiveValue := Some [("stringValue"%string, JStr s)];
     userEnteredFormat := None; effectiveFormat := None;
     formattedValue := Some s |}.

Definition response : Response :=
  {| defaultFormat := JObj [];
     rowData := [Some [text_cell "a"; text_cell "b"]; None;
                 Some [text_cell "c"]] |}.

Definition entry (rows : Z) : Entry :=
  {| entry_sheetId := 7; title := "Sheet1"; rowCount := rows;
     columnCount := 3 |}.

(** The service, reachable and unreachable. *)
Definition api : Api :=
  {| spreadsheets_get := fun _ _ => Some response;
     spreadsheets_get_sheets := fun _ => Some [entry 3];
     spreadsheets_batchUpdate := fun _ _ => Some tt |}.
Definition api_down : Api :=
  {| spreadsheets_get := fun _ _ => None;
     spreadsheets_get_sheets := fun _ => None;
     spreadsheets_batchUpdate := fun _ _ => None |}.

Definition after {A : Type} (w : World) (m : M A) : World := (m w).2.

(** The worksheet, new. *)
Definition w_new : World :=
  after {| views := []; calls := [] |} (Worksheet.__init__ "KEY" (entry 3)).

(** [c = ws[0][1]] *)
Definition w_fetched : World :=
  after w_new (_get_cell serial_to_datetime api 0%nat 0 1).

(** [c.user_entered_value = 5] *)
Definition w_edited : World :=
  after w_fetched
    (CellMethods._assign_value datetime_to_serial serial_to_datetime epoch_plus
       api (0%nat, (0, 1)) (PyInt 5)).

(** [ws.refresh()], with the edit pending *)
Definition w_refreshed : World :=
  after w_edited (Worksheet.refresh api 0%nat None).

(** The worksheet shrinks to two rows, is fetched again, and the format
    object taken earlier from the cell [ws[2][0]] is cleared. *)
Definition w_shrunk : World :=
  after
    (after
       (after w_fetched (Worksheet.refresh api 0%nat (Some (entry 2))))
       (_get_cell serial_to_datetime
          {| spreadsheets_get := fun _ _ =>
               Some {| defaultFormat := JObj [];
                       rowData := [Some [text_cell "a"; text_cell "b"]; None] |};
             spreadsheets_get_sheets := fun _ => None;
             spreadsheets_batchUpdate := fun _ _ => Some tt |}
          0%nat 0 0))
    (CellMethods.CellFormat_clear (0%nat, (2, 0))).

(** A worksheet of one row and sixty columns of numbers, a service that
    answers a range of it with the cells the range names, and the view
    [ws.view(start_col=0, end_col=28)]. *)
Definition number_cell (n : Z) : CellData :=
  {| userEnteredValue := Some [("numberValue"%string, JInt n)];
     effectiveValue := Some [("numberValue"%string, JInt n)];
     userEnteredFormat := None; effectiveFormat := None;
     formattedValue := Some (Py.format_d n) |}.

Definition entry_wide : Entry :=
  {| entry_sheetId := 7; title := "Sheet1"; rowCount := 1;
     columnCount := 60 |}.

Definition api_wide : Api :=
  {| spreadsheets_get := fun _ range_str =>
       if String.eqb range_str "'Sheet1'!A1:AB1"
       then Some {| defaultFormat := JObj [];
                    rowData := [Some (number_cell <$> seqZ 0 28)] |}
       else if String.eqb range_str "'Sheet1'!A1:BB1"
       then Some {| defaultFormat := JObj [];
                    rowData := [Some (number_cell <$> seqZ 0 54)] |}
       else None;
     spreadsheets_get_sheets := fun _ => Some [entry_wide];
     spreadsheets_batchUpdate := fun _ _ => Some tt |}.

Definition w_wide : World :=
  after
    (after {| views := []; calls := [] |}
       (Worksheet.__init__ "KEY" entry_wide))
    (Worksheet.view 0%nat None None (Some 0) (Some 28)).

(** The three-by-three worksheet again, with a service whose answer holds
    a cell in error: the wire value of an error is an object. *)
Definition error_cell : CellData :=
  {| userEnteredValue := Some [("formulaValue"%string, JStr "=1/0")];
     effectiveValue :=
       Some [("errorValue"%string,
              JObj [("type"%string, JStr "DIVIDE_BY_ZERO");
                    ("message"%string, JStr "Division by zero")])];
     userEnteredFormat := None; effectiveFormat := None;
     formattedValue := Some "#DIV/0!"%string |}.

Definition api_error : Api :=
  {| spreadsheets_get := fun _ _ =>
       Some {| defaultFormat := JObj []; rowData := [Some [error_cell]] |};
     spreadsheets_get_sheets := fun _ => Some [entry 3];
     spreadsheets_batchUpdate := fun _ _ => Some tt |}.

End Sample.

(** ** Theorems *)

Module UtilFacts.
Import Util.

(** The [while] loop never stops for lack of fuel: with [Z.to_nat k]
    iterations available it stops because its condition fails. *)
Lemma while_loop_exits (fuel : nat) (k p : Z) :
  1 <= p -> k <= Z.of_nat fuel ->
  let '(k', p') := while_loop fuel k p in k' < 26 ^ p'.
Proof.
  revert k p. induction fuel as [|fuel IH]; intros k p Hp Hk; simpl.
  - assert (0 < 26 ^ p) by (apply Z.pow_pos_nonneg; lia). lia.
  - destruct (Z.leb_spec (26 ^ p) k) as [Hle|Hlt]; [|exact Hlt].
    apply IH; [lia|].
    assert (26 ^ 1 <= 26 ^ p) by (apply Z.pow_le_mono_r; lia).
    rewrite Z.pow_1_r in *. lia.
Qed.

Lemma format_column_address_0 : format_column_address 0 = "A"%string.
Proof. reflexivity. Qed.

Lemma format_column_address_25 : format_column_address 25 = "Z"%string.
Proof. reflexivity. Qed.

Lemma format_column_address_26 : format_column_address 26 = "AA"%string.
Proof. reflexivity. Qed.

Lemma format_column_address_701 : format_column_address 701 = "ZZ"%string.
Proof. vm_compute. reflexivity. Qed.

Lemma format_column_address_702 : format_column_address 702 = "AAA"%string.
Proof. vm_compute. reflexivity. Qed.

(** C4, at the failing input: the body of the [for] loop never divides [k]
    by 26, so every position of the address repeats the last digit.  For
    column index 27 the code returns "BB", where the bijective base-26
    numeral is "AB". *)
Theorem format_column_address_27 :
  format_column_address 27 = "BB"%string /\
  bijective_base26 27 = "AB"%string /\
  format_column_address 27 <> bijective_base26 27.
Proof. repeat split; vm_compute; congruence. Qed.

End UtilFacts.

Module LazyOrderedDictionaryFacts.
Import Util.

Section Enumeration.
Context {K : Type} `{Countable K} {V : Type}.
Implicit Types (l saves pairs : list (K * V)) (idx : gmap K nat).
Implicit Types (enumerator : Enumeration K V) (d : LazyOrderedDictionary K V).

Lemma enumerate_fold pairs : forall l idx,
  foldl enumerate_step (l, idx) pairs =
    (l ++ pairs, (foldl enumerate_step (l, idx) pairs).2).
Proof.
  induction pairs as [|kv en IH]; intros l idx; simpl.
  - by rewrite app_nil_r.
  - rewrite IH. by rewrite <- app_assoc.
Qed.

Lemma index_sound_empty l : index_sound (∅ : gmap K nat) l.
Proof. intros k i. by rewrite lookup_empty. Qed.

Lemma index_sound_app idx l l' : index_sound idx l -> index_sound idx (l ++ l').
Proof.
  intros Hs k i Hi. rewrite fmap_app. apply lookup_app_l_Some. by apply Hs.
Qed.

Lemma enumerate_index_sound pairs : forall l idx,
  index_sound idx l ->
  index_sound (foldl enumerate_step (l, idx) pairs).2 (l ++ pairs).
Proof.
  induction pairs as [|kv en IH]; intros l idx Hs; simpl.
  - by rewrite app_nil_r.
  - replace (l ++ kv :: en) with ((l ++ [kv]) ++ en) by by rewrite <- app_assoc.
    apply IH. intros k i. rewrite lookup_insert. case_decide as Hk.
    + intros [= <-]. subst k. rewrite fmap_app.
      rewrite lookup_app_r; rewrite length_fmap; [|lia].
      by rewrite Nat.sub_diag.
    + intros Hi. rewrite fmap_app. apply lookup_app_l_Some. by apply Hs.
Qed.

Lemma enumerate_index_None pairs : forall l idx k,
  (foldl enumerate_step (l, idx) pairs).2 !! k = None <->
  idx !! k = None /\ k ∉ pairs.*1.
Proof.
  induction pairs as [|kv en IH]; intros l idx k; simpl.
  - split; [intros ?; split; [done|apply not_elem_of_nil]|tauto].
  - rewrite IH, lookup_insert_None, not_elem_of_cons. intuition congruence.
Qed.

Lemma restore_fold idx saves : forall l,
  index_sound idx l ->
  (foldl (restore_step idx) l saves).*1 =
    l.*1 ++ (filter (fun kv => idx !! kv.1 = None) saves).*1.
Proof.
  induction saves as [|kv saves IH]; intros l Hs; simpl.
  - by rewrite app_nil_r.
  - unfold restore_step at 2. destruct (idx !! kv.1) as [i|] eqn:Hi.
    + rewrite filter_cons_False by (rewrite Hi; done).
      assert (Hkeys : (<[i:=kv]> l).*1 = l.*1).
      { rewrite list_fmap_insert. apply list_insert_id. by apply Hs. }
      rewrite IH; [by rewrite Hkeys|].
      intros k j Hj. rewrite Hkeys. by apply Hs.
    + rewrite filter_cons_True by done.
      rewrite IH.
      * rewrite fmap_app, fmap_cons. by rewrite <- app_assoc.
      * by apply index_sound_app.
Qed.

(** An enumeration that completes, on a dictionary not yet enumerated. *)
Lemma ensure_enumerated_yields pairs l idx :
  exists l',
    _ensure_enumerated (Yields pairs)
      {| cache_list := l; cache_index := idx; enumerated := false |} =
    (Ok tt, {| cache_list := l';
               cache_index := (foldl enumerate_step ([], ∅) pairs).2;
               enumerated := true |}) /\
    l'.*1 = pairs.*1 ++ (filter (fun kv => kv.1 ∉ pairs.*1) l).*1.
Proof.
  unfold _ensure_enumerated; simpl.
  rewrite enumerate_fold. simpl. eexists. split; [reflexivity|].
  rewrite restore_fold.
  - f_equal. f_equal. apply list_filter_iff. intros kv.
    rewrite enumerate_index_None. rewrite lookup_empty. tauto.
  - apply (enumerate_index_sound pairs [] ∅), index_sound_empty.
Qed.

Lemma ensure_enumerated_idle enumerator d :
  enumerated d = true -> _ensure_enumerated enumerator d = (Ok tt, d).
Proof. unfold _ensure_enumerated. by intros ->. Qed.

Lemma iterkeys_yields pairs l idx :
  exists d',
    iterkeys (Yields pairs)
      {| cache_list := l; cache_index := idx; enumerated := false |} =
    (Ok (cache_list d').*1, d') /\
    (cache_list d').*1 =
      pairs.*1 ++ (filter (fun kv => kv.1 ∉ pairs.*1) l).*1 /\
    enumerated d' = true.
Proof.
  destruct (ensure_enumerated_yields pairs l idx) as (l' & He & Hkeys).
  exists {| cache_list := l';
            cache_index := (foldl enumerate_step ([], ∅) pairs).2;
            enumerated := true |}.
  unfold iterkeys, mbind, ST_bind. rewrite He. simpl.
  split; [reflexivity|]. split; [exact Hkeys|reflexivity].
Qed.

Lemma iterkeys_idle enumerator d :
  enumerated d = true -> iterkeys enumerator d = (Ok (cache_list d).*1, d).
Proof.
  intros He. unfold iterkeys, mbind, ST_bind.
  by rewrite ensure_enumerated_idle.
Qed.

(** Looking a key up through the constructor, in a dictionary that is not
    enumerated and does not hold the key, appends the new entry. *)
Lemma getitem_constructs enumerator construct k v l idx :
  idx !! k = None -> construct k = Some v ->
  getitem enumerator (Some construct) (inr k)
    {| cache_list := l; cache_index := idx; enumerated := false |} =
  (Ok v, {| cache_list := l ++ [(k, v)];
            cache_index := <[k := length l]> idx;
            enumerated := false |}).
Proof.
  intros Hi Hc. unfold getitem, mbind, ST_bind, get_state. simpl.
  by rewrite Hi, Hc.
Qed.

Lemma looked_up_held enumerator construct (keys : list K) :
  NoDup keys -> (forall k, k ∈ keys -> is_Some (construct k)) ->
  exists l idx,
    looked_up enumerator construct keys =
      {| cache_list := l; cache_index := idx; enumerated := false |} /\
    l.*1 = keys /\
    (forall k v, (k, v) ∈ l -> construct k = Some v) /\
    (forall k, idx !! k = None <-> k ∉ keys).
Proof.
  unfold looked_up. induction keys as [|k keys IH] using rev_ind; intros Hnd Hc.
  - exists [], ∅. split; [done|]. split; [done|]. split.
    + intros k v Hin. by apply elem_of_nil in Hin.
    + intros k. rewrite lookup_empty. split; [intros _; apply not_elem_of_nil|done].
  - apply NoDup_app in Hnd as (Hnd & Hk & _).
    destruct IH as (l & idx & Hd & Hl & Hv & Hidx); [done| |].
    { intros k' Hk'. apply Hc, elem_of_app. by left. }
    destruct (Hc k) as [v Hkv]; [apply elem_of_app; right; apply list_elem_of_here|].
    assert (Hnone : idx !! k = None).
    { apply Hidx. intros Hin. apply (Hk k Hin), list_elem_of_here. }
    rewrite foldl_app, Hd. cbn [foldl].
    rewrite (getitem_constructs enumerator construct k v l idx Hnone Hkv). simpl.
    eexists _, _. split; [reflexivity|]. split; [|split].
    + by rewrite fmap_app, Hl.
    + intros k' v' [Hin|Hin%list_elem_of_singleton]%elem_of_app; [by apply Hv|].
      by injection Hin as -> ->.
    + intros k'. rewrite lookup_insert_None, Hidx, not_elem_of_app,
        list_elem_of_singleton. intuition congruence.
Qed.

(** C8: in a dictionary where the distinct keys [keys] were constructed on
    demand, one after the other and before any enumeration, the list holds
    them in that order; an enumeration that completes yields the
    enumerator's keys in the enumerator's order, followed by those of
    [keys] that the enumerator did not produce, in the order they were
    constructed; iterating again does not run the enumerator again; and
    after [refresh()] the iteration yields the enumerator's keys alone.
    With the enumerator [(k1,v1),(k2,v2)], constructing [k3] on demand
    first, then [refresh()] and iterating, yields exactly [k1, k2]. *)
Theorem lazy_dictionary_iteration_order
    pairs enumerator enumerator' (construct : K -> option V) (keys : list K)
    k1 v1 k2 v2 k3 v3 :
  NoDup keys -> (forall k, k ∈ keys -> is_Some (construct k)) ->
  let d := looked_up enumerator construct keys in
  (cache_list d).*1 = keys
  /\ (iterkeys (Yields pairs) d).1 =
       Ok (pairs.*1 ++ filter (fun k => k ∉ pairs.*1) keys)
  /\ iterkeys enumerator' (iterkeys (Yields pairs) d).2 = iterkeys (Yields pairs) d
  /\ (iterkeys (Yields pairs) (refresh d)).1 = Ok pairs.*1
  /\ (let e := [(k1, v1); (k2, v2)] in
      let d1 := (getitem enumerator (Some (fun _ => Some v3)) (inr k3) init).2 in
      cache_list d1 = [(k3, v3)] /\
      (iterkeys (Yields e) (refresh d1)).1 = Ok [k1; k2]).
Proof.
  intros Hnd Hc d.
  destruct (looked_up_held enumerator construct keys Hnd Hc)
    as (l & idx & Hd & Hl & _ & _).
  subst d. rewrite Hd. cbn [cache_list].
  destruct (iterkeys_yields pairs l idx) as (d' & Hit & Hkeys & Hen).
  assert (Hfilter : (filter (fun kv => kv.1 ∉ pairs.*1) l).*1 =
                    filter (fun k => k ∉ pairs.*1) keys).
  { rewrite <- Hl. clear. induction l as [|kv l IH]; [done|].
    rewrite fmap_cons, !filter_cons. simpl.
    destruct (decide (kv.1 ∉ pairs.*1)); [rewrite fmap_cons|]; by rewrite IH. }
  split; [done|]. split; [by rewrite Hit, <- Hfilter; simpl; rewrite Hkeys|].
  split; [|split].
  - rewrite Hit. simpl. by rewrite iterkeys_idle.
  - unfold refresh.
    destruct (iterkeys_yields pairs [] ∅) as (d0 & -> & -> & _).
    simpl. by rewrite app_nil_r.
  - cbv zeta. unfold init.
    rewrite (getitem_constructs enumerator (fun _ => Some v3) k3 v3 [] ∅)
      by done.
    cbn [snd cache_list]. split; [done|]. unfold refresh.
    destruct (iterkeys_yields [(k1, v1); (k2, v2)] [] ∅) as (d0 & -> & -> & _).
    done.
Qed.

End Enumeration.

Lemma lazy_dictionary_iteration_order_witness :
  let d := looked_up (Yields []) (fun _ : string => Some 3) ["k3"; "k1"]%string in
  (cache_list d).*1 = ["k3"; "k1"]%string /\
  (iterkeys (Yields [("k1", 1); ("k2", 2)]%string) d).1 =
    Ok ["k1"; "k2"; "k3"]%string /\
  (iterkeys (Yields [("k1", 1); ("k2", 2)]%string) (refresh d)).1 =
    Ok ["k1"; "k2"]%string.
Proof.
  destruct (lazy_dictionary_iteration_order
              [("k1", 1); ("k2", 2)]%string (Yields []) (Yields [])
              (fun _ : string => Some 3) ["k3"; "k1"]%string
              "k1"%string 1 "k2"%string 2 "k3"%string 3)
    as (Hheld & Hiter & _ & Hrefresh & _).
  - apply (bool_decide_eq_true_1 (NoDup ["k3"; "k1"]%string)).
    vm_compute. reflexivity.
  - intros k _. by eexists.
  - split; [exact Hheld|]. split; [exact Hiter|exact Hrefresh].
Defined.

(** C10, at the failing input.  The listing is empty (the resource was just
    created and the listing does not show it yet), [k3] is constructed on
    demand, and [len()] enumerates: the restore loop of
    [_ensure_enumerated] puts [k3] back into the list and leaves the index
    without it.  The next by-key lookup of [k3] therefore misses the index,
    invokes the constructor again and appends a second entry for [k3]. *)
Theorem restored_entry_not_indexed :
  let k3 := "k3"%string in
  let d1 := (getitem (Yields []) (Some (fun _ => Some 1)) (inr k3) init).2 in
  let d2 := (len (Yields []) d1).2 in
  let r := getitem (Yields []) (Some (fun _ => Some 2)) (inr k3) d2 in
  index_consistent d1
  /\ cache_list d2 = [(k3, 1)]
  /\ cache_index d2 !! k3 = None
  /\ ~ index_consistent d2
  /\ r.1 = Ok 2
  /\ cache_list r.2 = [(k3, 1); (k3, 2)].
Proof.
  intros k3 d1 d2 r.
  assert (Hd2 : cache_list d2 = [(k3, 1)]) by reflexivity.
  assert (Hi2 : cache_index d2 !! k3 = None) by reflexivity.
  split; [|split; [done|split; [done|split; [|split; reflexivity]]]].
  - intros i k.
    assert (Hl1 : cache_list d1 = [(k3, 1)]) by reflexivity.
    assert (Hi1 : cache_index d1 = <[k3 := 0%nat]> ∅) by reflexivity.
    rewrite Hl1, Hi1, lookup_insert_Some, lookup_empty. split.
    + intros [v Hv]. destruct i as [|i]; [|done].
      injection Hv as <- <-. by left.
    + intros [[<- <-]|[_ ?]]; [by exists 1|done].
  - intros Hc. destruct (Hc 0%nat k3) as [Hc1 _].
    rewrite Hi2 in Hc1. discriminate Hc1. by exists 1.
Qed.

End LazyOrderedDictionaryFacts.

Module CellFormatFacts.
Import Json CellFormat.

#[local] Abbreviation leaf := _get_value_from_data.

Lemma assoc_get_set {A} (e : list (string * A)) k v k' :
  assoc_get (assoc_set e k v) k' =
  if String.eqb k k' then Some v else assoc_get e k'.
Proof.
  induction e as [|[k0 v0] e IH]; simpl.
  - done.
  - destruct (String.eqb_spec k0 k) as [->|Hne]; simpl.
    + destruct (String.eqb_spec k k'); done.
    + rewrite IH. destruct (String.eqb_spec k0 k') as [->|]; [|done].
      by destruct (String.eqb_spec k k') as [->|].
Qed.

Lemma assoc_get_app_single {A} (e : list (string * A)) k v k' :
  assoc_get (e ++ [(k, v)]) k' =
  match assoc_get e k' with
  | Some x => Some x
  | None => if String.eqb k k' then Some v else None
  end.
Proof.
  induction e as [|[k0 v0] e IH]; simpl; [done|].
  by destruct (String.eqb k0 k').
Qed.

Lemma bind_Ok {A B} (a : A) (f : A -> result B) : (Ok a ≫= f) = f a.
Proof. reflexivity. Qed.

Lemma bind_inv {A B} (r : result A) (f : A -> result B) b :
  r ≫= f = Ok b -> exists a, r = Ok a /\ f a = Ok b.
Proof. destruct r; [eauto|done]. Qed.

(** What one step of the descent does to the enclosing dictionary. *)
Lemma descend_spec d n d1 inner :
  dict_setdefault d n (JObj []) = Ok (d1, inner) ->
  exists e, d = JObj e /\ inner = default (JObj []) (assoc_get e n) /\
    forall inner', exists e',
      dict_setitem d1 n inner' = Ok (JObj e') /\
      forall k, assoc_get e' k =
                if String.eqb n k then Some inner' else assoc_get e k.
Proof.
  destruct d as [| | | | |e]; try done. simpl.
  destruct (assoc_get e n) as [x|] eqn:Hn; intros [= <- <-]; exists e.
  - rewrite Hn. split; [done|split; [done|]]. intros inner'. eexists.
    split; [done|]. intros k. by rewrite assoc_get_set.
  - rewrite Hn. split; [done|split; [done|]]. intros inner'. eexists.
    split; [done|]. intros k. rewrite assoc_get_set, assoc_get_app_single.
    destruct (String.eqb_spec n k) as [<-|]; [done|]. by destruct (assoc_get e k).
Qed.


Lemma leaf_null q : leaf q JNull = Ok JNull.
Proof. induction q; simpl; done. Qed.

Lemma leaf_obj_cons y q e :
  leaf (y :: q) (JObj e) = leaf q (default JNull (assoc_get e y)).
Proof. reflexivity. Qed.

Lemma leaf_empty_obj q : q <> [] -> leaf q (JObj []) = Ok JNull.
Proof. destruct q; [done|]. intros _. rewrite leaf_obj_cons. apply leaf_null. Qed.

Lemma set_along_leaf names : forall last v d d',
  set_along names last v d = Ok d' -> leaf (names ++ [last]) d' = Ok v.
Proof.
  induction names as [|n ns IH]; intros last v d d' Hs; simpl in Hs.
  - destruct d; try done. injection Hs as <-. simpl app.
    rewrite leaf_obj_cons, assoc_get_set, String.eqb_refl. done.
  - apply bind_inv in Hs as ([d1 inner] & Hd & Hs).
    apply bind_inv in Hs as (inner' & Hi & Hs).
    apply descend_spec in Hd as (e & -> & _ & Hd).
    destruct (Hd inner') as (e' & He' & Hget). rewrite He' in Hs.
    injection Hs as <-. simpl app.
    rewrite leaf_obj_cons, Hget, String.eqb_refl. simpl.
    by eapply IH.
Qed.

Lemma diverges_nonempty p q : diverges p q = true -> q <> [].
Proof. destruct p, q; done. Qed.

Lemma set_along_frame names : forall last v d d' q,
  set_along names last v d = Ok d' ->
  diverges (names ++ [last]) q = true ->
  leaf q d' = leaf q d.
Proof.
  induction names as [|n ns IH]; intros last v d d' [|y q] Hs Hq;
    simpl in Hs, Hq; try done.
  - destruct d; try done. injection Hs as <-.
    rewrite !leaf_obj_cons, assoc_get_set.
    by destruct (String.eqb_spec last y).
  - apply bind_inv in Hs as ([d1 inner] & Hd & Hs).
    apply bind_inv in Hs as (inner' & Hi & Hs).
    apply descend_spec in Hd as (e & -> & Hin & Hd).
    destruct (Hd inner') as (e' & He' & Hget). rewrite He' in Hs.
    injection Hs as <-. rewrite !leaf_obj_cons, Hget.
    destruct (String.eqb_spec n y) as [->|Hne]; [|done]. simpl.
    rewrite (IH _ _ _ _ _ Hi Hq). subst inner.
    destruct (assoc_get e y); simpl; [done|].
    rewrite leaf_null. apply leaf_empty_obj. by eapply diverges_nonempty.
Qed.

Lemma setdefault_along_frame names : forall d d' q,
  setdefault_along names d = Ok d' ->
  is_prefix q names = false ->
  leaf q d' = leaf q d.
Proof.
  induction names as [|n ns IH]; intros d d' [|y q] Hs Hq;
    simpl in Hs, Hq; try done.
  - by injection Hs as <-.
  - apply bind_inv in Hs as ([d1 inner] & Hd & Hs).
    apply bind_inv in Hs as (inner' & Hi & Hs).
    apply descend_spec in Hd as (e & -> & Hin & Hd).
    destruct (Hd inner') as (e' & He' & Hget). rewrite He' in Hs.
    injection Hs as <-. rewrite !leaf_obj_cons, Hget.
    rewrite String.eqb_sym.
    destruct (String.eqb_spec y n) as [->|Hne]; [|done]. simpl in *.
    rewrite (IH _ _ _ Hi Hq). subst inner.
    destruct (assoc_get e n); simpl; [done|].
    rewrite leaf_null. apply leaf_empty_obj. by destruct q.
Qed.

Lemma dict_shaped_obj names d : dict_shaped names d = true -> exists e, d = JObj e.
Proof. destruct names, d; try done; eauto. Qed.

Lemma dict_shaped_empty names : dict_shaped names (JObj []) = true.
Proof. by destruct names. Qed.

Lemma setdefault_along_ok names : forall d,
  dict_shaped names d = true ->
  exists d', setdefault_along names d = Ok d' /\
    forall ms, dict_shaped ms d = true -> dict_shaped ms d' = true.
Proof.
  induction names as [|n ns IH]; intros d Hd.
  - exists d. done.
  - destruct (dict_shaped_obj _ _ Hd) as [e ->]. simpl in Hd. simpl.
    destruct (assoc_get e n) as [inner|] eqn:Hn.
    + destruct (IH inner Hd) as (inner' & Hi & Hpres). rewrite bind_Ok, Hi.
      eexists. split; [done|]. intros [|m ms]; [done|]. simpl.
      rewrite assoc_get_set. destruct (String.eqb_spec n m) as [<-|]; [|done].
      rewrite Hn. apply Hpres.
    + destruct (IH (JObj []) (dict_shaped_empty _)) as (inner' & Hi & Hpres).
      rewrite bind_Ok, Hi. eexists. split; [done|]. intros [|m ms]; [done|].
      simpl. rewrite assoc_get_set, assoc_get_app_single.
      destruct (String.eqb_spec n m) as [<-|]; [|by destruct (assoc_get e m)].
      rewrite Hn. intros _. apply Hpres, dict_shaped_empty.
Qed.

Lemma set_along_ok names : forall last v d,
  dict_shaped names d = true ->
  exists d', set_along names last v d = Ok d' /\
    forall ms, dict_shaped ms d = true ->
               is_prefix (names ++ [last]) ms = false ->
               dict_shaped ms d' = true.
Proof.
  induction names as [|n ns IH]; intros last v d Hd.
  - destruct (dict_shaped_obj _ _ Hd) as [e ->]. simpl. eexists.
    split; [done|]. intros [|m ms]; [done|]. simpl.
    rewrite assoc_get_set. by destruct (String.eqb_spec last m) as [<-|].
  - destruct (dict_shaped_obj _ _ Hd) as [e ->]. simpl in Hd. simpl.
    destruct (assoc_get e n) as [inner|] eqn:Hn.
    + destruct (IH last v inner Hd) as (inner' & Hi & Hpres).
      rewrite bind_Ok, Hi. eexists. split; [done|].
      intros [|m ms]; [done|]. simpl.
      rewrite assoc_get_set. destruct (String.eqb_spec n m) as [<-|]; [|done].
      rewrite Hn. apply Hpres.
    + destruct (IH last v (JObj []) (dict_shaped_empty _)) as (inner' & Hi & Hpres).
      rewrite bind_Ok, Hi. eexists. split; [done|]. intros [|m ms]; [done|].
      simpl. rewrite assoc_get_set, assoc_get_app_single.
      destruct (String.eqb_spec n m) as [<-|]; [|by destruct (assoc_get e m)].
      rewrite Hn. intros _. apply Hpres, dict_shaped_empty.
Qed.


Lemma get_along_leaf names : forall d last,
  dict_shaped names d = true ->
  exists x, (get_along names d ≫= fun x => dict_get x last) = Ok x /\
            leaf (names ++ [last]) d = Ok x.
Proof.
  induction names as [|n ns IH]; intros d last Hd;
    destruct (dict_shaped_obj _ _ Hd) as [e ->].
  - eexists. split; reflexivity.
  - simpl in Hd. simpl app. rewrite leaf_obj_cons.
    change (get_along (n :: ns) (JObj e))
      with (get_along ns (default (JObj []) (assoc_get e n))).
    destruct (assoc_get e n) as [inner|]; simpl default.
    + by apply IH.
    + rewrite leaf_null.
      destruct (IH (JObj []) last (dict_shaped_empty _)) as (x & Hx & Hl).
      rewrite leaf_empty_obj in Hl by (by destruct ns). injection Hl as <-.
      eauto.
Qed.

Lemma split_path_app names last : split_path (names ++ [last]) = Ok (names, last).
Proof.
  unfold split_path. rewrite reverse_app. simpl. by rewrite reverse_involutive.
Qed.

Lemma bind_assoc_get {B} names d last (f : json -> json -> result B) x :
  (get_along names d ≫= fun y => dict_get y last) = Ok x ->
  (get_along names d ≫= fun y => dict_get y last ≫= f y) =
  (get_along names d ≫= fun y => f y x).
Proof.
  destruct (get_along names d) as [y|]; simpl; [|done]. by intros ->.
Qed.

Lemma merge_path_spec local_format default_format merged names last :
  dict_shaped names local_format = true ->
  dict_shaped names default_format = true ->
  dict_shaped names merged = true ->
  leaf (names ++ [last]) merged = Ok JNull ->
  exists merged',
    merge_path local_format default_format merged (names ++ [last]) = Ok merged' /\
    leaf (names ++ [last]) merged' =
      Ok (selected local_format default_format (names ++ [last])) /\
    (forall q, diverges (names ++ [last]) q = true ->
               is_prefix q names = false ->
               leaf q merged' = leaf q merged) /\
    (forall ms, dict_shaped ms merged = true ->
                is_prefix (names ++ [last]) ms = false ->
                dict_shaped ms merged' = true).
Proof.
  intros Hl Hd Hm Hleaf.
  destruct (get_along_leaf names local_format last Hl) as (l & Hgl & Hll).
  destruct (get_along_leaf names default_format last Hd) as (d & Hgd & Hld).
  destruct (setdefault_along_ok names merged Hm) as (m1 & Hm1 & Hsh1).
  unfold merge_path, selected. rewrite split_path_app, bind_Ok, Hll, Hld.
  apply bind_inv in Hgl as (xl & -> & Hxl).
  apply bind_inv in Hgd as (xd & -> & Hxd).
  rewrite !bind_Ok, Hm1, bind_Ok, Hxl, Hxd, !bind_Ok.
  assert (Hframe1 : forall q, is_prefix q names = false -> leaf q m1 = leaf q merged)
    by (intros q; by apply setdefault_along_frame).
  assert (Hnp : is_prefix (names ++ [last]) names = false).
  { clear. induction names as [|n ns IH]; simpl; [done|].
    by rewrite String.eqb_refl. }
  destruct (is_None l) eqn:El; simpl.
  - destruct (is_None d) eqn:Ed; simpl.
    + exists m1. split; [done|]. rewrite Hframe1 by done. split.
      { rewrite Hleaf. by destruct d. }
      split; [intros q _; apply Hframe1|]. intros ms Hms _. by apply Hsh1.
    + destruct (set_along_ok names last d m1 (Hsh1 _ Hm)) as (m2 & Hm2 & Hsh2).
      exists m2. split; [done|]. split; [by eapply set_along_leaf|]. split.
      * intros q Hq Hp. rewrite <- Hframe1 by done. by eapply set_along_frame.
      * intros ms Hms Hp. apply Hsh2; [by apply Hsh1|done].
  - destruct (set_along_ok names last l m1 (Hsh1 _ Hm)) as (m2 & Hm2 & Hsh2).
    exists m2. split; [done|]. split; [by eapply set_along_leaf|]. split.
    * intros q Hq Hp. rewrite <- Hframe1 by done. by eapply set_along_frame.
    * intros ms Hms Hp. apply Hsh2; [by apply Hsh1|done].
Qed.

Lemma declared_paths : _data_path <$> _properties = full <$> declared.
Proof. reflexivity. Qed.

Lemma declared_apart : apart declared.
Proof.
  assert (Hall : forallb (fun p => forallb (fun q =>
            (bool_decide (p = q) || diverges (full p) (full q)) &&
            negb (is_prefix (full q) p.1)) declared) declared = true)
    by (vm_compute; reflexivity).
  intros p q Hp%list_elem_of_In Hq%list_elem_of_In.
  rewrite forallb_forall in Hall. specialize (Hall p Hp).
  rewrite forallb_forall in Hall. specialize (Hall q Hq).
  apply andb_prop in Hall as [Hd Hpre]. split.
  - apply orb_prop in Hd as [Hd|Hd]; [left; by apply bool_decide_eq_true in Hd|by right].
  - by apply negb_true_iff.
Qed.

Lemma merge_fold local_format default_format all :
  apart all -> NoDup all ->
  (forall x, x ∈ all -> dict_shaped x.1 local_format = true /\
                        dict_shaped x.1 default_format = true) ->
  forall todo done merged,
    done ++ todo = all ->
    (forall x, x ∈ all -> dict_shaped x.1 merged = true) ->
    (forall x, x ∈ done ->
       leaf (full x) merged = Ok (selected local_format default_format (full x))) ->
    (forall x, x ∈ todo -> leaf (full x) merged = Ok JNull) ->
    exists merged',
      foldlM (merge_path local_format default_format) merged (full <$> todo)
        = Ok merged' /\
      forall x, x ∈ all ->
        leaf (full x) merged' = Ok (selected local_format default_format (full x)).
Proof.
  intros Hap Hnd Hsh. induction todo as [|nl todo IH]; intros done merged Hall Hm Hdone Htodo.
  - exists merged. split; [done|]. rewrite app_nil_r in Hall. by subst.
  - assert (Hnl : nl ∈ all)
      by (subst all; apply elem_of_app; right; apply list_elem_of_here).
    destruct (Hsh nl Hnl) as [Hl Hd].
    destruct (merge_path_spec local_format default_format merged nl.1 nl.2
                Hl Hd (Hm nl Hnl)) as (m1 & Hm1 & Hleaf & Hframe & Hshape).
    { apply Htodo, list_elem_of_here. }
    simpl. fold (full nl) in *. rewrite Hm1, bind_Ok.
    assert (Hother : forall x, x ∈ all -> x <> nl ->
              leaf (full x) m1 = leaf (full x) merged).
    { intros x Hx Hne. destruct (Hap nl x Hnl Hx) as [[->|Hdiv] Hpre]; [done|].
      by apply Hframe. }
    apply (IH (done ++ [nl]) m1).
    + by rewrite <- app_assoc.
    + intros x Hx. apply Hshape; [by apply Hm|]. by destruct (Hap x nl Hx Hnl).
    + intros x Hx. apply elem_of_app in Hx as [Hx|Hx].
      * rewrite Hother; [by apply Hdone|subst all; apply elem_of_app; by left|].
        intros ->. subst all. apply NoDup_app in Hnd as (_ & Hnd & _).
        apply (Hnd nl Hx), list_elem_of_here.
      * apply list_elem_of_singleton in Hx as ->. done.
    + intros x Hx.
      rewrite Hother;
        [by apply Htodo, list_elem_of_further
        |subst all; apply elem_of_app; right; by apply list_elem_of_further|].
      intros ->. subst all. apply NoDup_app in Hnd as (_ & _ & Hnd).
      apply NoDup_cons in Hnd as [Hnd _]. done.
Qed.

Lemma foldlM_fmap {A B C} (f : A -> C -> result A) (g : B -> C) l : forall a,
  foldlM (fun a b => f a (g b)) a l = foldlM f a (g <$> l).
Proof.
  induction l as [|b l IH]; intros a; simpl; [done|].
  destruct (f a (g b)); simpl; [apply IH|done].
Qed.

Lemma wf_format_shaped d x :
  wf_format d = true -> x ∈ declared -> dict_shaped x.1 d = true.
Proof.
  destruct d as [| | | | |e]; try done. unfold wf_format, group_ok.
  intros Hwf%andb_prop Hx. destruct Hwf as [Hn Ht].
  assert (Hcases : x.1 = [] \/ x.1 = ["numberFormat"%string] \/
                   x.1 = ["textFormat"%string]).
  { unfold declared in Hx.
    repeat (apply elem_of_cons in Hx as [->|Hx]; [simpl; tauto|]).
    by apply elem_of_nil in Hx. }
  destruct Hcases as [->|[->| ->]]; simpl; [done| |].
  - by destruct (assoc_get e "numberFormat") as [[]|].
  - by destruct (assoc_get e "textFormat") as [[]|].
Qed.

Lemma merge_formats_spec local_format default_format :
  wf_format local_format = true -> wf_format default_format = true ->
  exists merged,
    _merge_formats local_format default_format = Ok merged /\
    forall property, property ∈ _properties ->
      exists l d,
        leaf (_data_path property) local_format = Ok l /\
        leaf (_data_path property) default_format = Ok d /\
        leaf (_data_path property) merged = Ok (if is_None l then d else l).
Proof.
  intros Hl Hd.
  destruct (merge_fold local_format default_format declared declared_apart)
    with (todo := declared) (done := @nil (list string * string))
         (merged := JObj []) as (merged & Hm & Hleaf).
  - apply (bool_decide_eq_true_1 (NoDup declared)). vm_compute. reflexivity.
  - intros x Hx. split; by apply wf_format_shaped.
  - done.
  - intros x _. apply dict_shaped_empty.
  - intros x Hx. by apply elem_of_nil in Hx.
  - intros x _. apply leaf_empty_obj. unfold full. by destruct (x.1).
  - exists merged. split.
    + unfold _merge_formats. rewrite <- Hm, <- declared_paths.
      apply (foldlM_fmap (merge_path local_format default_format) _data_path).
    + intros p Hp.
      assert (Hpath : _data_path p ∈ full <$> declared).
      { rewrite <- declared_paths. by apply list_elem_of_fmap_2. }
      apply list_elem_of_fmap in Hpath as (x & Hpx & Hx).
      destruct (get_along_leaf x.1 local_format x.2 (wf_format_shaped _ _ Hl Hx))
        as (l & _ & Hll).
      destruct (get_along_leaf x.1 default_format x.2 (wf_format_shaped _ _ Hd Hx))
        as (d & _ & Hld).
      fold (full x) in *.
      exists l, d. rewrite Hpx. repeat split; [done..|].
      rewrite (Hleaf x Hx). unfold selected. by rewrite Hll, Hld.
Qed.

(** One turn of the loop of [_merge_formats], on well-formed dictionaries. *)
Lemma merge_path_selected local_format default_format merged x :
  x ∈ declared ->
  wf_format local_format = true -> wf_format default_format = true ->
  merge_path local_format default_format merged (full x) =
    (merged ← setdefault_along x.1 merged;
     let value := selected local_format default_format (full x) in
     if is_None value then Ok merged else set_along x.1 x.2 value merged).
Proof.
  intros Hx Hl Hd.
  destruct (get_along_leaf x.1 local_format x.2 (wf_format_shaped _ _ Hl Hx))
    as (l & Hgl & Hll).
  destruct (get_along_leaf x.1 default_format x.2 (wf_format_shaped _ _ Hd Hx))
    as (d & Hgd & Hld).
  unfold merge_path, selected, full. rewrite split_path_app, bind_Ok, Hll, Hld.
  apply bind_inv in Hgl as (xl & -> & Hxl).
  apply bind_inv in Hgd as (xd & -> & Hxd).
  rewrite !bind_Ok. destruct (setdefault_along x.1 merged) as [m|e]; [|done].
  rewrite !bind_Ok, Hxl, Hxd, !bind_Ok. cbv zeta.
  destruct (is_None l) eqn:El; simpl; [|by rewrite El].
  by destruct (is_None d).
Qed.

Lemma foldlM_ext {A B} (f g : A -> B -> result A) l :
  (forall a b, b ∈ l -> f a b = g a b) -> forall a, foldlM f a l = foldlM g a l.
Proof.
  induction l as [|b l IH]; intros Hfg a; simpl; [done|].
  rewrite (Hfg a b) by apply list_elem_of_here.
  destruct (g a b); simpl; [|done]. apply IH. intros a' b' Hb'.
  apply Hfg. by apply list_elem_of_further.
Qed.

Lemma foldlM_app {A B} (f : A -> B -> result A) l1 l2 : forall a,
  foldlM f a (l1 ++ l2) = foldlM f a l1 ≫= fun a' => foldlM f a' l2.
Proof.
  induction l1 as [|b l1 IH]; intros a; simpl; [done|].
  destruct (f a b); simpl; [apply IH|done].
Qed.

Lemma merge_formats_closed local_format default_format :
  wf_format local_format = true -> wf_format default_format = true ->
  _merge_formats local_format default_format =
    Ok (merged_format local_format default_format).
Proof.
  intros Hl Hd. unfold _merge_formats, merge_property.
  rewrite (foldlM_fmap (merge_path local_format default_format) _data_path).
  rewrite declared_paths, <- foldlM_fmap.
  rewrite (foldlM_ext _ (fun merged x =>
             merged ← setdefault_along x.1 merged;
             let value := selected local_format default_format (full x) in
             if is_None value then Ok merged
             else set_along x.1 x.2 value merged))
    by (intros a b Hb; by apply merge_path_selected).
  unfold merged_format.
  generalize (selected local_format default_format). intros value.
  change declared with (take 3 declared ++ drop 3 declared).
  rewrite foldlM_app.
  unfold declared, entry_unless_None. cbn [take drop foldlM full fst snd app].
  generalize (value ["numberFormat"; "type"]%string)
             (value ["numberFormat"; "pattern"]%string)
             (value ["backgroundColor"]%string)
             (value ["textFormat"; "foregroundColor"]%string)
             (value ["textFormat"; "fontFamily"]%string)
             (value ["textFormat"; "fontSize"]%string)
             (value ["textFormat"; "bold"]%string)
             (value ["textFormat"; "italic"]%string)
             (value ["textFormat"; "strikethrough"]%string)
             (value ["textFormat"; "underline"]%string).
  intros v1 v2 v3 v4 v5 v6 v7 v8 v9 v10.
  match goal with |- (?first ≫= _) = _ =>
    assert (Hfirst : first =
      Ok (JObj (("numberFormat"%string,
                 JObj ((if is_None v1 then [] else [("type"%string, v1)]) ++
                       (if is_None v2 then [] else [("pattern"%string, v2)])))
                :: (if is_None v3 then []
                    else [("backgroundColor"%string, v3)]))))
      by (destruct (is_None v1), (is_None v2), (is_None v3); reflexivity);
    rewrite Hfirst; clear Hfirst
  end.
  rewrite bind_Ok.
  generalize ((if is_None v1 then [] else [("type"%string, v1)]) ++
              (if is_None v2 then [] else [("pattern"%string, v2)])).
  intros number_format.
  destruct (is_None v3), (is_None v4), (is_None v5),
    (is_None v6), (is_None v7), (is_None v8), (is_None v9), (is_None v10);
    reflexivity.
Qed.

(** C7, as amended: for well-formed format dictionaries, [_merge_formats]
    returns exactly the dictionary [merged_format]: the two groups
    [numberFormat] and [textFormat], always there, and at every declared
    property path the local value when there is one (a value that is not
    [None]), else the default value when there is one, the path being left
    out otherwise, in which case reading the property gives its declared
    default; no other key is in it.  Merging [{a: 1}] with [{a: 2, b: 3}]
    gives the two empty groups only, while with [backgroundColor] for [a]
    and [textFormat.bold] for [b] the merge is
    [{backgroundColor: 1, textFormat: {bold: 3}}] next to the empty
    [numberFormat] group. *)
Theorem merge_formats_declared local_format default_format :
  wf_format local_format = true -> wf_format default_format = true ->
  _merge_formats local_format default_format =
    Ok (merged_format local_format default_format)
  /\ (forall property, property ∈ _properties ->
        exists l d,
          leaf (_data_path property) local_format = Ok l /\
          leaf (_data_path property) default_format = Ok d /\
          selected local_format default_format (_data_path property) =
            (if is_None l then d else l) /\
          leaf (_data_path property)
            (merged_format local_format default_format) =
            Ok (if is_None l then d else l) /\
          (is_None l = true -> is_None d = true ->
           forall format,
             _current_format format = merged_format local_format default_format ->
             property_get property format = Ok (_default_value property)))
  /\ _merge_formats (JObj [("a", JInt 1)]) (JObj [("a", JInt 2); ("b", JInt 3)])
     = Ok (JObj [("numberFormat", JObj []); ("textFormat", JObj [])])
  /\ _merge_formats (JObj [("backgroundColor", JInt 1)])
       (JObj [("backgroundColor", JInt 2); ("textFormat", JObj [("bold", JInt 3)])])
     = Ok (JObj [("numberFormat", JObj []); ("backgroundColor", JInt 1);
                 ("textFormat", JObj [("bold", JInt 3)])]).
Proof.
  intros Hl Hd. split; [by apply merge_formats_closed|].
  split; [|split; reflexivity].
  destruct (merge_formats_spec _ _ Hl Hd) as (merged & Hm & Hleaf).
  rewrite merge_formats_closed in Hm by done. injection Hm as <-.
  intros p Hp.
  destruct (Hleaf p Hp) as (l & d & Hll & Hld & Hpm).
  exists l, d. split; [done|]. split; [done|]. split.
  { unfold selected. by rewrite Hll, Hld. }
  split; [done|].
  intros El Ed format Hcur. unfold property_get.
  rewrite Hcur, Hpm, bind_Ok, El. by rewrite Ed.
Qed.

(** C7, as stated, at the input of its own example, where nothing of [a]
    and [b] reaches the merged dictionary; and at a pair of dictionaries of
    which one holds a group that is not a dictionary, where the merge
    raises. *)
Lemma merge_formats_undeclared_keys :
  (exists merged,
     _merge_formats (JObj [("a", JInt 1)]) (JObj [("a", JInt 2); ("b", JInt 3)])
       = Ok merged /\
     dict_get merged "a" = Ok JNull /\
     dict_get merged "b" = Ok JNull /\
     merged <> JObj [("a", JInt 1); ("b", JInt 3)]) /\
  _merge_formats (JObj [("numberFormat", JStr "TEXT")]) (JObj [])
    = Err AttributeError /\
  _merge_formats (JObj []) (JObj [("textFormat", JNull)])
    = Err AttributeError.
Proof. split; [|split; reflexivity]. eexists. repeat split. discriminate. Qed.

Lemma merge_formats_declared_witness :
  _merge_formats (JObj [("textFormat", JObj [("bold", JBool true)])])
    (JObj [("backgroundColor", Color_to_data Color_WHITE)])
  = Ok (JObj [("numberFormat", JObj []);
              ("backgroundColor", Color_to_data Color_WHITE);
              ("textFormat", JObj [("bold", JBool true)])]).
Proof.
  exact (proj1 (merge_formats_declared
                  (JObj [("textFormat", JObj [("bold", JBool true)])])
                  (JObj [("backgroundColor", Color_to_data Color_WHITE)])
                  eq_refl eq_refl)).
Defined.

Lemma insert_sorted_perm x l : insert_sorted x l ≡ₚ x :: l.
Proof.
  induction l as [|y l IH]; simpl; [done|].
  destruct (String.leb x y); [done|]. rewrite IH. apply Permutation_swap.
Qed.

Lemma sort_perm l : sort l ≡ₚ l.
Proof.
  induction l as [|x l IH]; simpl; [done|].
  by rewrite insert_sorted_perm, IH.
Qed.

(** The fields collected by the first loop are joined declared paths. *)
Lemma pending_fields_spec pending : forall properties fields,
  (forall p, p ∈ properties -> is_ok (leaf (_data_path p) pending) = true) ->
  exists extra,
    foldlM (pending_field pending) fields properties = Ok (fields ++ extra) /\
    forall f, f ∈ extra ->
      f ∈ (fun p => String.concat "." (_data_path p)) <$> properties.
Proof.
  induction properties as [|p ps IH]; intros fields Hok.
  - exists []. split; [by rewrite app_nil_r|]. intros f Hf. by apply elem_of_nil in Hf.
  - assert (Hp := Hok p (list_elem_of_here _ _)).
    assert (Hps : forall q, q ∈ ps -> is_ok (leaf (_data_path q) pending) = true)
      by (intros q Hq; apply Hok; by apply list_elem_of_further).
    change (foldlM (pending_field pending) fields (p :: ps))
      with (pending_field pending fields p ≫= fun a => foldlM (pending_field pending) a ps).
    destruct (leaf (_data_path p) pending) as [x|] eqn:Hx; [|done].
    assert (Hstep : pending_field pending fields p =
                    Ok (if is_None x then fields
                        else fields ++ [String.concat "." (_data_path p)])).
    { unfold pending_field. rewrite Hx, bind_Ok. by destruct (is_None x). }
    rewrite Hstep, bind_Ok. clear Hstep.
    destruct (is_None x).
    + destruct (IH fields Hps) as (extra & -> & Hextra).
      exists extra. split; [done|]. intros f Hf. rewrite fmap_cons.
      apply list_elem_of_further. by apply Hextra.
    + destruct (IH (fields ++ [String.concat "." (_data_path p)]) Hps)
        as (extra & -> & Hextra).
      exists (String.concat "." (_data_path p) :: extra).
      split; [by rewrite <- app_assoc|]. intros f Hf. rewrite fmap_cons.
      apply elem_of_cons in Hf as [->|Hf]; [apply list_elem_of_here|].
      apply list_elem_of_further. by apply Hextra.
Qed.

Lemma wf_format_leaf pending p :
  wf_format pending = true -> p ∈ _properties ->
  is_ok (leaf (_data_path p) pending) = true.
Proof.
  intros Hwf Hp.
  assert (Hpath : _data_path p ∈ full <$> declared).
  { rewrite <- declared_paths. by apply list_elem_of_fmap_2. }
  apply list_elem_of_fmap in Hpath as (x & -> & Hx).
  destruct (get_along_leaf x.1 pending x.2 (wf_format_shaped _ _ Hwf Hx))
    as (l & _ & Hl).
  unfold full. by rewrite Hl.
Qed.

Lemma dict_setdefault_obj e k v :
  exists e',
    dict_setdefault (JObj e) k v = Ok (JObj e', default v (assoc_get e k)) /\
    forall k', assoc_get e' k' =
               match assoc_get e k' with
               | Some x => Some x
               | None => if String.eqb k k' then Some v else None
               end.
Proof.
  unfold dict_setdefault. destruct (assoc_get e k) as [x|] eqn:Hk.
  - exists e. split; [done|]. intros k'. destruct (assoc_get e k') eqn:Hk'; [done|].
    destruct (String.eqb_spec k k') as [->|]; [congruence|done].
  - eexists. split; [done|]. apply assoc_get_app_single.
Qed.

(** C6: when the pending format holds a non-empty [numberFormat] group,
    [_get_pending_update] succeeds, its field list holds the path
    [numberFormat] exactly once and no path below it, and the group in the
    patch holds both [type] and [pattern], each with the pending value when
    there is one and otherwise with its default
    ([NUMBER_FORMAT_TYPE_UNSPECIFIED], the empty string); the rest of the
    patch is the pending format. *)
Theorem pending_update_number_format entries number_format :
  wf_format (JObj entries) = true ->
  assoc_get entries "numberFormat" = Some (JObj number_format) ->
  number_format <> [] ->
  exists patch number_format' fields,
    _get_pending_update (JObj entries) = Ok (JObj patch, fields) /\
    count_occ string_dec fields "numberFormat"%string = 1%nat /\
    (forall f, f ∈ fields -> String.prefix "numberFormat." f = false) /\
    assoc_get patch "numberFormat" = Some (JObj number_format') /\
    assoc_get number_format' "type" =
      Some (default (JStr "NUMBER_FORMAT_TYPE_UNSPECIFIED")
              (assoc_get number_format "type")) /\
    assoc_get number_format' "pattern" =
      Some (default (JStr EmptyString) (assoc_get number_format "pattern")) /\
    (forall k, k <> "numberFormat"%string ->
       assoc_get patch k = assoc_get entries k).
Proof.
  intros Hwf Hnf Hne.
  destruct (pending_fields_spec (JObj entries) _properties [])
    as (extra & Hfold & Hextra); [intros p; by apply wf_format_leaf|].
  unfold _get_pending_update. rewrite Hfold, bind_Ok. simpl app.
  change (dict_get (JObj entries) "numberFormat")
    with (Ok (default JNull (assoc_get entries "numberFormat"))).
  rewrite Hnf, bind_Ok. simpl default.
  assert (Htruthy : truthy (JObj number_format) = true)
    by (simpl; by destruct number_format).
  rewrite Htruthy.
  set (fields := sort (List.filter
                   (fun f => negb (String.prefix "numberFormat." f)) extra ++
                   ["numberFormat"%string])).
  assert (Hnum : forall f, f ∈ extra -> f <> "numberFormat"%string).
  { intros f Hf%Hextra%list_elem_of_In ->. revert Hf. vm_compute. intuition discriminate. }
  destruct (dict_setdefault_obj number_format "type"
              (JStr (NumberFormatType_value UNSPECIFIED))) as (nf1 & -> & Hnf1).
  rewrite bind_Ok.
  destruct (dict_setdefault_obj nf1 "pattern" (JStr EmptyString))
    as (nf2 & -> & Hnf2).
  rewrite bind_Ok.
  exists (assoc_set entries "numberFormat" (JObj nf2)), nf2, fields.
  split; [|split; [|split; [|split; [|split; [|split]]]]].
  - reflexivity.
  - unfold fields.
    rewrite (proj1 (Permutation_count_occ string_dec _ _) (sort_perm _)).
    rewrite count_occ_app. simpl.
    rewrite (proj1 (count_occ_not_In string_dec _ _)); [done|].
    intros Hin%filter_In. destruct Hin as [Hin _].
    by apply (Hnum _ (proj2 (list_elem_of_In _ _) Hin)).
  - intros f Hf. unfold fields in Hf. rewrite sort_perm in Hf.
    apply elem_of_app in Hf as [Hf|Hf].
    + apply list_elem_of_In, filter_In in Hf as [_ Hf]. by apply negb_true_iff.
    + by apply list_elem_of_singleton in Hf as ->.
  - by rewrite assoc_get_set.
  - rewrite Hnf2, Hnf1. by destruct (assoc_get number_format "type").
  - rewrite Hnf2, Hnf1. by destruct (assoc_get number_format "pattern").
  - intros k Hk. rewrite assoc_get_set.
    by destruct (String.eqb_spec "numberFormat" k).
Qed.

Lemma pending_update_number_format_witness :
  exists patch number_format' fields,
    _get_pending_update
      (JObj [("numberFormat", JObj [("type", JStr "DATE")])])
      = Ok (JObj patch, fields) /\
    count_occ string_dec fields "numberFormat"%string = 1%nat /\
    (forall f, f ∈ fields -> String.prefix "numberFormat." f = false) /\
    assoc_get patch "numberFormat" = Some (JObj number_format') /\
    assoc_get number_format' "type" =
      Some (default (JStr "NUMBER_FORMAT_TYPE_UNSPECIFIED")
              (assoc_get [("type"%string, JStr "DATE")] "type")) /\
    assoc_get number_format' "pattern" =
      Some (default (JStr EmptyString)
              (assoc_get [("type"%string, JStr "DATE")] "pattern")) /\
    (forall k, k <> "numberFormat"%string ->
       assoc_get patch k =
       assoc_get [("numberFormat"%string, JObj [("type"%string, JStr "DATE")])] k).
Proof.
  apply (pending_update_number_format
           [("numberFormat"%string, JObj [("type"%string, JStr "DATE")])]
           [("type"%string, JStr "DATE")]);
    [reflexivity | reflexivity | discriminate].
Defined.

(** The example of C6, run: [number_format_type] is set to [DATE] on a
    format with nothing pending and [number_format_pattern] is left alone. *)
Lemma pending_update_type_only :
  (pending ← _set_value_to_data (_data_path number_format_type) (JObj [])
               (JStr (NumberFormatType_value DATE));
   _get_pending_update pending)
  = Ok (JObj [("numberFormat",
               JObj [("type", JStr "DATE"); ("pattern", JStr EmptyString)])],
        ["numberFormat"%string]).
Proof. reflexivity. Qed.

End CellFormatFacts.

Module CellFacts.
Import Json CellFormat Cell.

Lemma length_append s1 s2 :
  String.length (s1 ++ s2) = (String.length s1 + String.length s2)%nat.
Proof. induction s1 as [|c s1 IH]; simpl; [done|]. by rewrite IH. Qed.

Lemma repr_char_length quote c : (1 <= String.length (Py.repr_char quote c))%nat.
Proof.
  unfold Py.repr_char.
  repeat match goal with |- context [if ?b then _ else _] => destruct b end;
    simpl; lia.
Qed.

Lemma repr_chars_length quote s :
  (String.length s <= String.length (Py.repr_chars quote s))%nat.
Proof.
  induction s as [|c s IH]; simpl; [lia|].
  rewrite length_append. pose proof (repr_char_length quote c). lia.
Qed.

Lemma FormulaValue_repr_longer formula :
  (String.length formula < String.length (FormulaValue_repr formula))%nat.
Proof.
  unfold FormulaValue_repr, Py.repr_str.
  rewrite !length_append. simpl. rewrite length_append.
  match goal with |- context [Py.repr_chars ?q formula] =>
    pose proof (repr_chars_length q formula) end.
  simpl. lia.
Qed.

Section Codec.
Variable datetime_to_serial : datetime -> float.
Variable serial_to_datetime : json -> datetime.
Variable epoch_plus : Z -> Z -> datetime.

#[local] Abbreviation round_trip :=
  (round_trip datetime_to_serial serial_to_datetime epoch_plus).

Lemma round_trip_None : round_trip PyNone = Ok PyNone.
Proof. reflexivity. Qed.

Lemma round_trip_str s : round_trip (PyStr s) = Ok (PyStr s).
Proof. reflexivity. Qed.

Lemma round_trip_bool b : round_trip (PyBool b) = Ok (PyBool b).
Proof. reflexivity. Qed.

Lemma round_trip_int z : round_trip (PyInt z) = Ok (PyInt z).
Proof. reflexivity. Qed.

Lemma unparse_ErrorValue e :
  _unparse_extended_value datetime_to_serial epoch_plus (PyErrorValue e)
  = Err ValueError.
Proof. reflexivity. Qed.

(** C3, at the failing input [FormulaValue('=A1')]: a formula value is
    encoded as the text of the [FormulaValue] object,
    [FormulaValue(formula='=A1')], and not as its formula, so decoding gives
    a formula value with that text and not the value that was encoded.  The
    same holds of every formula of ASCII characters: the text encoded is
    longer than the formula.  Strings, booleans and integers (above) do
    come back, and an error value is refused with [ValueError]. *)
Theorem round_trip_FormulaValue :
  round_trip (PyFormulaValue "=A1")
    = Ok (PyFormulaValue "FormulaValue(formula='=A1')")
  /\ round_trip (PyFormulaValue "=A1") <> Ok (PyFormulaValue "=A1")
  /\ (forall formula, Py.is_ascii formula = true ->
        round_trip (PyFormulaValue formula)
          = Ok (PyFormulaValue (FormulaValue_repr formula)) /\
        round_trip (PyFormulaValue formula) <> Ok (PyFormulaValue formula)).
Proof.
  split; [reflexivity|]. split; [discriminate|].
  intros formula _. split; [reflexivity|].
  intros [= Heq]. pose proof (FormulaValue_repr_longer formula) as Hlen.
  unfold py3_str_FormulaValue in Heq. rewrite Heq in Hlen. lia.
Qed.
End Codec.
End CellFacts.

Module ViewFacts.
Import Json CellFormat Wire View.

Section Frames.
Context (R : World -> World -> Prop) `{!Reflexive R, !Transitive R}.
#[local] Abbreviation keeps := (View.keeps R).

Lemma keeps_ret {A} (a : A) : keeps (mret a).
Proof. intros w. reflexivity. Qed.

Lemma keeps_raise {A} e : keeps (@raise World A e).
Proof. intros w. reflexivity. Qed.

Lemma keeps_lift {A} (r : result A) : keeps (lift r).
Proof. intros w. reflexivity. Qed.

Lemma keeps_get_state : keeps get_state.
Proof. intros w. reflexivity. Qed.

Lemma keeps_view self : keeps (view self).
Proof. intros w. reflexivity. Qed.

Lemma keeps_bind {A B} (m : M A) (k : A -> M B) :
  keeps m -> (forall a, keeps (k a)) -> keeps (m ≫= k).
Proof.
  intros Hm Hk w. unfold mbind, ST_bind. specialize (Hm w).
  destruct (m w) as [[a|e] w']; [|done].
  etrans; [exact Hm|apply Hk].
Qed.

Lemma keeps_for_each_from {B} (l : list B) (body : Z -> B -> M unit) : forall i,
  (forall i b, keeps (body i b)) -> keeps (for_each_from i l body).
Proof.
  induction l as [|b l IH]; intros i Hb; simpl.
  - apply keeps_ret.
  - apply keeps_bind; [apply Hb|]. intros _. by apply IH.
Qed.

Lemma keeps_for_each {B} (l : list B) (body : B -> M unit) :
  (forall b, keeps (body b)) -> keeps (for_each l body).
Proof.
  induction l as [|b l IH]; intros Hb; simpl.
  - apply keeps_ret.
  - apply keeps_bind; [apply Hb|]. intros _. by apply IH.
Qed.

#[local] Abbreviation writes_keep := (View.writes_keep R).

Lemma keeps_update self f : writes_keep self f -> keeps (modify (update_view self f)).
Proof. intros Hf w. apply Hf. Qed.

Lemma keeps_on_cell {A} self location (m : ST Cell.Cell A) :
  (forall x, writes_keep self (fun v => set_cell_map (x v) v)) ->
  keeps (on_cell self location m).
Proof.
  intros Hf w. unfold on_cell.
  destruct (cell_map_get _ _) as [c|]; [|reflexivity].
  destruct (m c) as [r c']. simpl.
  apply (Hf (fun v => cell_map_set (_cell_map v) location c')).
Qed.

Lemma keeps_worksheet_entry self : keeps (worksheet_entry self).
Proof.
  unfold worksheet_entry. apply keeps_bind; [apply keeps_view|]. intros v.
  apply keeps_bind; [apply keeps_view|]. intros ws.
  destruct (_entry ws); [apply keeps_ret|apply keeps_raise].
Qed.

Lemma keeps_spreadsheet_key self : keeps (spreadsheet_key self).
Proof.
  unfold spreadsheet_key. apply keeps_bind; [apply keeps_view|]. intros v.
  apply keeps_bind; [apply keeps_view|]. intros ws.
  destruct (_spreadsheet ws); [apply keeps_ret|apply keeps_raise].
Qed.

End Frames.

#[export] Instance same_refl {H} (hdr : View -> H) : Reflexive (same hdr).
Proof. by split. Qed.

#[export] Instance same_trans {H} (hdr : View -> H) : Transitive (same hdr).
Proof.
  intros w1 w2 w3 [Hl1 H1] [Hl2 H2]. split; [congruence|].
  intros i. by rewrite H1.
Qed.

#[export] Instance quiet_refl : Reflexive quiet.
Proof. by intros w. Qed.

#[export] Instance quiet_trans : Transitive quiet.
Proof. unfold quiet. intros w1 w2 w3. congruence. Qed.

Lemma same_update {H} (hdr : View -> H) self f w :
  (forall v, hdr (f v) = hdr v) -> same hdr w (update_view self f w).
Proof.
  intros Hf. unfold update_view, same, the_view. simpl.
  split. { rewrite length_alter. reflexivity. } intros i.
  destruct (decide (i = self)) as [->|Hne].
  - rewrite list_lookup_alter_eq. destruct (views w !! self); simpl; [by rewrite Hf|done].
  - by rewrite list_lookup_alter_ne.
Qed.

Lemma quiet_update self f w : quiet w (update_view self f w).
Proof. reflexivity. Qed.

Lemma same_issue {H} (hdr : View -> H) call w : same hdr w (issue call w).
Proof. by split. Qed.


Section Operations.
Variable datetime_to_serial : datetime -> float.
Variable serial_to_datetime : json -> datetime.
Variable epoch_plus : Z -> Z -> datetime.

(** Going through the response writes to the cell map only. *)
Lemma keeps_process_response (R : World -> World -> Prop)
    `{!Reflexive R, !Transitive R} self v (response : Response) :
  (forall x, writes_keep R self (fun v => set_cell_map (x v) v)) ->
  keeps R (process_response serial_to_datetime self v response).
Proof.
  intros Hw. unfold process_response. apply keeps_bind; [done..| |].
  - apply keeps_for_each_from; [done..|]. intros i row_data.
    apply keeps_for_each_from; [done..|]. intros j cell_data.
    apply keeps_bind; [done..|apply keeps_view; apply _|]. intros v'.
    destruct (cell_map_get _ _).
    + apply keeps_on_cell; first [exact Hw|apply _].
    + apply keeps_bind; [done..|apply keeps_lift; apply _|]. intros c.
      apply keeps_update; [apply _..|].
      apply (Hw (fun v0 => _cell_map v0 ++ [(_start_row v + i, _start_col v + j, c)])).
  - intros _. apply keeps_for_each; [done..|]. intros location.
    apply keeps_bind; [done..|apply keeps_view; apply _|]. intros v'.
    apply keeps_on_cell; first [exact Hw|apply _].
Qed.

Lemma keeps_ensure_fetched api self :
  keeps (same shape) (_ensure_fetched serial_to_datetime api self).
Proof.
  unfold _ensure_fetched.
  apply keeps_bind; [apply _..|apply keeps_view; apply _|]. intros v.
  destruct (_fetched v); [apply keeps_ret; apply _|].
  apply keeps_bind; [apply _..| |].
  { unfold _fetch. apply keeps_bind; [apply _..|apply keeps_view; apply _|]. intros v'.
    apply keeps_bind; [apply _..|apply keeps_worksheet_entry; apply _|]. intros entry.
    apply keeps_bind; [apply _..|apply keeps_spreadsheet_key; apply _|]. intros key.
    apply keeps_bind; [apply _..|intros w; apply same_issue|]. intros _.
    destruct (spreadsheets_get _ _ _); [apply keeps_ret; apply _|apply keeps_raise; apply _]. }
  intros response.
  apply keeps_bind; [apply _..|intros w; by apply same_update|]. intros _.
  apply keeps_bind; [apply _..|intros w; by apply same_update|]. intros _.
  apply keeps_process_response; [apply _..|].
  intros x w. by apply same_update.
Qed.

Lemma bindM_unfold {A B} (m : M A) (k : A -> M B) w :
  (m ≫= k) w = match m w with
               | (Ok a, w') => k a w'
               | (Err e, w') => (Err e, w')
               end.
Proof. reflexivity. Qed.

Lemma Cell_init_empty_ok b row col default_format :
  wf_format default_format = true ->
  exists c, Cell.__init__ serial_to_datetime b row col empty_cell_data
              default_format = Ok c /\
            Cell._row c = row /\ Cell._col c = col /\
            Cell._value_dirty c = false /\ Cell._format_dirty c = false.
Proof.
  intros Hwf.
  destruct (CellFormatFacts.merge_formats_spec (JObj []) default_format)
    as (merged & Hm & _); [done..|].
  unfold Cell.__init__, construct, Cell._reset_data, zoom,
    CellFormat._reset_data, mbind, ST_bind, modify, lift, get_state. simpl.
  rewrite Hm. simpl. eexists. repeat split.
Qed.

Lemma the_view_Some w self row col :
  in_window (the_view w self) row col = true ->
  views w !! self = Some (the_view w self).
Proof.
  unfold the_view. destruct (views w !! self); [done|].
  unfold in_window. simpl. lia.
Qed.

Lemma the_view_update w self f :
  is_Some (views w !! self) ->
  the_view (update_view self f w) self = f (the_view w self).
Proof.
  intros [v Hv]. unfold the_view, update_view. simpl.
  by rewrite list_lookup_alter_eq, Hv.
Qed.

Lemma cell_map_get_app m location c :
  cell_map_get m location = None ->
  cell_map_get (m ++ [(location, c)]) location = Some c.
Proof.
  induction m as [|[k c'] m IH]; simpl.
  - by rewrite bool_decide_eq_true_2.
  - destruct (bool_decide (k = location)); [done|]. apply IH.
Qed.

Lemma get_cell_outside api self row col w :
  in_window (the_view w self) row col = false ->
  _get_cell serial_to_datetime api self row col w = (Err IndexError, w).
Proof.
  intros Hw. unfold _get_cell. rewrite bindM_unfold. simpl.
  unfold in_window in Hw.
  by destruct (_start_row _ <=? row), (row <? _end_row _),
    (_start_col _ <=? col), (col <? _end_col _).
Qed.

End Operations.

End ViewFacts.

Module CellMethodsFacts.
Import Json CellFormat Wire View CellMethods ViewFacts.

Section Operations.
Variable datetime_to_serial : datetime -> float.
Variable serial_to_datetime : json -> datetime.
Variable epoch_plus : Z -> Z -> datetime.

Lemma ensure_fetched_idle api self w :
  _fetched (the_view w self) = true ->
  _ensure_fetched serial_to_datetime api self w = (Ok tt, w).
Proof.
  intros Hf. unfold _ensure_fetched. rewrite bindM_unfold. simpl. by rewrite Hf.
Qed.

Lemma read_cell_spec self location w c :
  cell_map_get (_cell_map (the_view w self)) location = Some c ->
  read_cell self location w = (Ok c, w).
Proof.
  intros Hc. unfold read_cell. rewrite bindM_unfold. simpl. by rewrite Hc.
Qed.

Lemma ensure_fetched_and_valid_spec api self location w w' c :
  _ensure_fetched serial_to_datetime api self w = (Ok tt, w') ->
  cell_map_get (_cell_map (the_view w' self)) location = Some c ->
  _ensure_fetched_and_valid serial_to_datetime api (self, location) w =
    (if in_window (the_view w' self) (Cell._row c) (Cell._col c)
     then Ok tt else Err HyouRuntimeError, w').
Proof.
  intros Hfetch Hc. unfold _ensure_fetched_and_valid, in_window. simpl.
  rewrite bindM_unfold, Hfetch, bindM_unfold. simpl.
  rewrite bindM_unfold, (read_cell_spec _ _ _ _ Hc).
  by destruct (_start_row _ <=? _), (_ <? _end_row _), (_start_col _ <=? _),
    (_ <? _end_col _).
Qed.

End Operations.
End CellMethodsFacts.

Module CommitFacts.
Import Json CellFormat Wire View CellMethods ViewFacts Commit.

Section Operations.
Variable datetime_to_serial : datetime -> float.
Variable epoch_plus : Z -> Z -> datetime.

#[local] Abbreviation commit := (commit datetime_to_serial epoch_plus).
#[local] Abbreviation fragments := (fragments datetime_to_serial epoch_plus).

Lemma worksheet_entry_pure self w : (worksheet_entry self w).2 = w.
Proof.
  unfold worksheet_entry. repeat (rewrite bindM_unfold; simpl).
  by match goal with |- context [_entry ?x] => destruct (_entry x) end.
Qed.

Lemma spreadsheet_key_pure self w : (spreadsheet_key self w).2 = w.
Proof.
  unfold spreadsheet_key. repeat (rewrite bindM_unfold; simpl).
  by match goal with |- context [_spreadsheet ?x] => destruct (_spreadsheet x) end.
Qed.

Lemma worksheet_entry_views self w w' :
  views w = views w' -> (worksheet_entry self w).1 = (worksheet_entry self w').1.
Proof.
  intros Hv. unfold worksheet_entry. repeat (rewrite bindM_unfold; simpl).
  unfold the_view. rewrite Hv. by match goal with |- context [_entry ?x] => destruct (_entry x) end.
Qed.

Lemma spreadsheet_key_views self w w' :
  views w = views w' -> (spreadsheet_key self w).1 = (spreadsheet_key self w').1.
Proof.
  intros Hv. unfold spreadsheet_key. repeat (rewrite bindM_unfold; simpl).
  unfold the_view. rewrite Hv. by match goal with |- context [_spreadsheet ?x] => destruct (_spreadsheet x) end.
Qed.

Lemma fragments_views self w w' :
  views w = views w' -> fragments self w = fragments self w'.
Proof.
  intros Hv. unfold View.fragments. rewrite (worksheet_entry_views self w w' Hv).
  unfold the_view. by rewrite Hv.
Qed.

(** [commit], case by case. *)
Lemma commit_unfold api self w :
  commit api self w =
  match fragments self w with
  | Err e => (Err e, w)
  | Ok [] => (Ok tt, w)
  | Ok update_requests =>
      match (spreadsheet_key self w).1 with
      | Err e => (Err e, w)
      | Ok spreadsheetId =>
          let w1 := issue (Call_batchUpdate spreadsheetId update_requests) w in
          match spreadsheets_batchUpdate api spreadsheetId update_requests with
          | None => (Err TransportError, w1)
          | Some _ => refresh_self api self w1
          end
      end
  end.
Proof.
  unfold Commit.commit, View.fragments. repeat (rewrite bindM_unfold; simpl).
  destruct (collect_update_requests _ _ _ _ _) as [[|r rs]|e]; simpl; try done.
  rewrite bindM_unfold. pose proof (spreadsheet_key_pure self w) as Hp.
  destruct (spreadsheet_key self w) as [[key|e] w1]; simpl in *; subst w1; [|done].
  rewrite bindM_unfold. simpl.
  by destruct (spreadsheets_batchUpdate api key (r :: rs)).
Qed.

(** [Worksheet.refresh()] raises only before it has written anything, and
    what it adds to the calls issued is its own listing. *)
Lemma worksheet_refresh_spec api self w :
  let r := Worksheet.refresh api self None w in
  (forall e, r.1 = Err e -> views r.2 = views w) /\
  exists rest, calls r.2 = calls w ++ rest.
Proof.
  unfold Worksheet.refresh, Worksheet.spreadsheet, Worksheet.key,
    Worksheet.rows, Worksheet.cols, Worksheet.entry, _reset_size, View.refresh.
  repeat (rewrite bindM_unfold; simpl).
  destruct (_spreadsheet (the_view w self)) as [key|] eqn:Hk; simpl;
    [|split; [done|exists []; by rewrite app_nil_r]].
  repeat (rewrite bindM_unfold; simpl).
  destruct (spreadsheets_get_sheets api key) as [sheets|]; simpl;
    [|split; [done|by eexists]].
  repeat (rewrite bindM_unfold; simpl).
  change (the_view (issue (Call_get_sheets key) w) self) with (the_view w self).
  destruct (_entry (the_view w self)) as [old|] eqn:He; simpl;
    [|split; [done|by eexists]].
  repeat (rewrite bindM_unfold; simpl).
  destruct (find _ sheets) as [entry|]; simpl; [|split; [done|by eexists]].
  repeat (rewrite bindM_unfold; simpl).
  match goal with
  | |- context [_entry (the_view ?w0 self)] =>
      destruct (_entry (the_view w0 self)) as [entry'|] eqn:He'
  end; simpl.
  2: { split; [|by eexists]. intros e _. exfalso. revert He'.
       unfold the_view, update_view. simpl. rewrite list_lookup_alter_eq.
       unfold the_view in He. destruct (views w !! self); simpl in *; done. }
  repeat (rewrite bindM_unfold; simpl). rewrite He'. simpl.
  repeat (rewrite bindM_unfold; simpl). split; [done|by eexists].
Qed.

Lemma refresh_self_spec api self w :
  let r := refresh_self api self w in
  (forall e, r.1 = Err e -> views r.2 = views w) /\
  exists rest, calls r.2 = calls w ++ rest.
Proof.
  unfold refresh_self. rewrite bindM_unfold. simpl.
  destruct (_spreadsheet (the_view w self)); [apply worksheet_refresh_spec|].
  unfold View.refresh. repeat (rewrite bindM_unfold; simpl).
  split; [done|]. exists []. by rewrite app_nil_r.
Qed.

Lemma local_bind {A B} (m : result A) (k : A -> result B) :
  local m -> (forall a, local (k a)) -> local (m ≫= k).
Proof.
  destruct m; [intros _ Hk; apply Hk|].
  intros Hm _ [= ->]. by apply Hm.
Qed.

Lemma local_fmap {A B} (f : A -> B) (m : result A) : local m -> local (f <$> m).
Proof. destruct m; [discriminate|]. intros Hm [= ->]. by apply Hm. Qed.

Ltac local_step :=
  match goal with
  | |- local (Ok _) => discriminate
  | |- local (Err _) => discriminate
  | |- local (_ ≫= _) => apply local_bind; [|intros]
  | |- local (_ <$> _) => apply local_fmap
  | |- local (match ?x with _ => _ end) => destruct x
  | |- local (if ?b then _ else _) => destruct b
  end.

Lemma local_foldlM {A B} (f : A -> B -> result A) l : forall a,
  (forall a b, local (f a b)) -> local (foldlM f a l).
Proof.
  induction l as [|b l IH]; intros a Hf; simpl; [discriminate|].
  apply local_bind; [apply Hf|]. intros a'. by apply IH.
Qed.

Lemma local_get_value_from_data path : forall d,
  local (_get_value_from_data path d).
Proof.
  induction path as [|n path IH]; intros d; simpl; [discriminate|].
  destruct (is_None d); [apply IH|].
  apply local_bind; [|intros; apply IH]. unfold dict_get, dict_get_default.
  repeat local_step.
Qed.

Lemma local_get_pending_update pending : local (_get_pending_update pending).
Proof.
  unfold _get_pending_update. apply local_bind.
  { apply local_foldlM. intros fields p. unfold pending_field.
    apply local_bind; [apply local_get_value_from_data|]. intros.
    repeat local_step. }
  intros fields. unfold dict_get, dict_get_default, dict_setdefault, dict_setitem.
  repeat local_step.
Qed.

Lemma local_build_update_request key c :
  local key ->
  local (Cell._build_update_request datetime_to_serial epoch_plus key c).
Proof.
  intros Hkey. unfold Cell._build_update_request.
  destruct (negb _); [discriminate|].
  apply local_bind.
  { destruct (Cell._value_dirty c); [|discriminate].
    apply local_bind; [|intros []; discriminate].
    unfold Cell._unparse_extended_value. repeat local_step. }
  intros [value_data fields]. apply local_bind.
  { destruct (Cell._format_dirty c); [|discriminate].
    apply local_bind; [apply local_get_pending_update|]. intros []. discriminate. }
  intros [value_data' fields']. apply local_bind; [done|]. intros. discriminate.
Qed.

Lemma local_collect key cells : forall acc,
  local key ->
  local (collect_update_requests datetime_to_serial epoch_plus key cells acc).
Proof.
  induction cells as [|c cells IH]; intros acc Hkey; simpl; [discriminate|].
  apply local_bind; [by apply local_build_update_request|]. intros r. by apply IH.
Qed.

Lemma local_worksheet_entry self w : local (worksheet_entry self w).1.
Proof.
  unfold worksheet_entry. repeat (rewrite bindM_unfold; simpl).
  match goal with |- context [_entry ?x] => destruct (_entry x) end; discriminate.
Qed.

Lemma local_spreadsheet_key self w : local (spreadsheet_key self w).1.
Proof.
  unfold spreadsheet_key. repeat (rewrite bindM_unfold; simpl).
  match goal with |- context [_spreadsheet ?x] => destruct (_spreadsheet x) end;
    discriminate.
Qed.

Lemma local_fragments self w : local (fragments self w).
Proof. apply local_collect, local_fmap, local_worksheet_entry. Qed.

(** C2: a [commit] that raises leaves every object as it was (the dirty
    flags, the fetched flag and the cell map of every view).  When the
    batch call raises, [commit] raises the transport error having done
    nothing but issue the call, and a [commit] run again builds the same
    fragments and issues the same batch call again, whatever the service
    then answers.  And [commit] does one of three things: nothing at all;
    the batch call, which raises; or the batch call, which returns, followed
    by the [refresh()] of the object ([refresh_self]), which is therefore
    run only after the batch call has returned. *)
Theorem commit_atomic api self w :
  let r := commit api self w in
  let batch spreadsheetId update_requests :=
    Call_batchUpdate spreadsheetId update_requests in
  (forall e, r.1 = Err e -> views r.2 = views w)
  /\ (forall spreadsheetId update_requests,
        fragments self w = Ok update_requests -> update_requests <> [] ->
        (spreadsheet_key self w).1 = Ok spreadsheetId ->
        spreadsheets_batchUpdate api spreadsheetId update_requests = None ->
        r = (Err TransportError, issue (batch spreadsheetId update_requests) w) /\
        fragments self r.2 = Ok update_requests /\
        forall api', exists rest,
          calls (commit api' self r.2).2 =
            calls r.2 ++ batch spreadsheetId update_requests :: rest)
  /\ (r = (Ok tt, w) /\ fragments self w = Ok []
      \/ (exists e, r = (Err e, w) /\ e <> TransportError)
      \/ (exists spreadsheetId update_requests,
            fragments self w = Ok update_requests /\ update_requests <> [] /\
            (spreadsheet_key self w).1 = Ok spreadsheetId /\
            spreadsheets_batchUpdate api spreadsheetId update_requests = None /\
            r = (Err TransportError,
                 issue (batch spreadsheetId update_requests) w))
      \/ (exists spreadsheetId update_requests,
            fragments self w = Ok update_requests /\ update_requests <> [] /\
            (spreadsheet_key self w).1 = Ok spreadsheetId /\
            spreadsheets_batchUpdate api spreadsheetId update_requests = Some tt /\
            r = refresh_self api self
                  (issue (batch spreadsheetId update_requests) w))).
Proof.
  intros r batch. subst r batch. cbv beta. rewrite commit_unfold.
  destruct (fragments self w) as [[|u us]|e] eqn:Hfr; simpl.
  { split; [intros e [=]|]. split; [by intros key reqs [= <-]|]. by left. }
  2: { split; [reflexivity|]. split; [intros key reqs [=]|].
       right. left. exists e. split; [done|]. intros ->.
       by destruct (local_fragments self w). }
  destruct (spreadsheet_key self w).1 as [key|e] eqn:Hkey; simpl.
  2: { split; [reflexivity|]. split; [intros key reqs _ _ [=]|].
       right. left. exists e. split; [done|]. intros ->.
       by destruct (local_spreadsheet_key self w). }
  destruct (spreadsheets_batchUpdate api key (u :: us)) as [[]|] eqn:Hapi; simpl.
  - split.
    { intros e He. destruct (refresh_self_spec api self
                               (issue (Call_batchUpdate key (u :: us)) w)) as [Hv _].
      exact (Hv e He). }
    split; [intros key' reqs [= <-] _ [= <-]; congruence|].
    right. right. right. exists key, (u :: us). done.
  - split; [reflexivity|]. split.
    + intros key' reqs [= <-] _ [= <-] _. split; [done|].
      assert (Hfr' : fragments self (issue (Call_batchUpdate key (u :: us)) w) = Ok (u :: us))
        by (by rewrite <- (fragments_views self w)).
      split; [done|]. intros api'. rewrite commit_unfold, Hfr'.
      rewrite <- (spreadsheet_key_views self w) by done. rewrite Hkey. simpl.
      destruct (spreadsheets_batchUpdate api' key (u :: us)).
      * destruct (refresh_self_spec api' self
                    (issue (Call_batchUpdate key (u :: us))
                       (issue (Call_batchUpdate key (u :: us)) w))) as [_ [rest ->]].
        exists rest. simpl. by rewrite <- app_assoc.
      * by exists [].
    + right. right. left. exists key, (u :: us). done.
Qed.

End Operations.
End CommitFacts.

Module FetchFacts.
Import Json CellFormat Wire View CellMethods ViewFacts CellMethodsFacts.

Section Operations.
Variable serial_to_datetime : json -> datetime.

(** A step of a method of [Cell] that leaves the two dirty flags alone. *)
#[local] Abbreviation keeps_flags m :=
  (forall c, dirty (m c).2 = dirty c).

(** A method of [Cell] that ends with both flags cleared, and that does not
    set a flag when it raises on the way. *)
#[local] Abbreviation clears_flags m :=
  (forall c, ((m c).1 = Ok tt -> dirty (m c).2 = false) /\
             (dirty (m c).2 = true -> dirty c = true)).

Lemma clears_flags_bind {A} (m : ST Cell.Cell A) (k : A -> ST Cell.Cell unit) :
  keeps_flags m -> (forall a, clears_flags (k a)) -> clears_flags (m ≫= k).
Proof.
  intros Hm Hk c. unfold mbind, ST_bind. specialize (Hm c).
  destruct (m c) as [[a|e] c']; simpl in *.
  - destruct (Hk a c') as [H1 H2]. split; [done|]. intros Hd. rewrite <- Hm. auto.
  - split; [done|]. by rewrite Hm.
Qed.

Lemma Cell_reset_flags in_w cell_data dflt :
  clears_flags (Cell._reset_data serial_to_datetime in_w cell_data dflt).
Proof.
  unfold Cell._reset_data.
  apply clears_flags_bind.
  { intros c. unfold zoom. by destruct (CellFormat._reset_data _ _ _). }
  intros _. apply clears_flags_bind.
  { intros c. unfold zoom. by destruct (CellFormat._reset_data _ _ _). }
  intros _. apply clears_flags_bind; [done|]. intros self.
  apply clears_flags_bind; [done|]. intros value.
  apply clears_flags_bind; [done|]. intros _.
  apply clears_flags_bind; [done|]. intros value'.
  apply clears_flags_bind; [done|]. intros _.
  apply clears_flags_bind; [done|]. intros _.
  intros c. split; done.
Qed.

Lemma Cell_init_clean in_w row col cell_data dflt c :
  Cell.__init__ serial_to_datetime in_w row col cell_data dflt = Ok c ->
  dirty c = false.
Proof.
  unfold Cell.__init__, construct. intros Hc.
  pose proof (Cell_reset_flags in_w cell_data dflt) as Hr.
  match type of Hc with context [Cell._reset_data _ _ _ _ ?b] =>
    specialize (Hr b); destruct (Cell._reset_data _ _ _ _ b) as [[[]|e] c']
  end; [|done].
  injection Hc as <-. by apply Hr.
Qed.

Lemma cell_map_get_set m location c location' :
  cell_map_get (cell_map_set m location c) location' =
  if bool_decide (location = location') then Some c
  else cell_map_get m location'.
Proof.
  induction m as [|[k c'] m IH]; simpl.
  - by destruct (bool_decide_reflect (location = location')).
  - destruct (bool_decide_reflect (k = location)) as [->|Hk]; simpl.
    + by destruct (bool_decide_reflect (location = location')).
    + rewrite IH. destruct (bool_decide_reflect (k = location')) as [->|]; [|done].
      by rewrite bool_decide_eq_false_2.
Qed.

Lemma cell_map_get_snoc m location c location' :
  cell_map_get (m ++ [(location, c)]) location' =
  match cell_map_get m location' with
  | Some x => Some x
  | None => if bool_decide (location = location') then Some c else None
  end.
Proof.
  induction m as [|[k c'] m IH]; simpl; [done|].
  by destruct (bool_decide (k = location')).
Qed.

Lemma the_view_update_cases w self f :
  the_view (update_view self f w) self =
  match views w !! self with Some v => f v | None => no_view end.
Proof.
  unfold the_view, update_view. simpl. rewrite list_lookup_alter_eq.
  by destruct (views w !! self).
Qed.

Lemma the_view_cases w self :
  the_view w self = match views w !! self with Some v => v | None => no_view end.
Proof. unfold the_view. by destruct (views w !! self). Qed.

Lemma cleans_ret {A} self (a : A) : cleans self (fun _ => False) (mret a : M A).
Proof. unfold cleans. intros w. split; [done|]. by intros _ location []. Qed.

Lemma cleans_bind {A B} self (P Q : Z * Z -> Prop) (m : M A) (k : A -> M B) :
  cleans self P m -> (forall a, cleans self Q (k a)) ->
  cleans self (fun location => P location \/ Q location) (m ≫= k).
Proof.
  unfold cleans. intros Hm Hk w. unfold mbind, ST_bind. destruct (Hm w) as [Hm1 Hm2].
  destruct (m w) as [[a|e] w']; simpl in *.
  - destruct (Hk a w') as [Hk1 Hk2]. split; [by eauto|].
    intros Hok location [HP|HQ] Hpend.
    + by apply (Hm2 eq_refl location HP), Hk1.
    + by apply (Hk2 Hok location HQ).
  - split; [done|]. done.
Qed.

Lemma cleans_weaken {A} self (P Q : Z * Z -> Prop) (m : M A) :
  (forall location, Q location -> P location) -> cleans self P m -> cleans self Q m.
Proof.
  unfold cleans. intros HPQ Hm w. destruct (Hm w) as [H1 H2]. split; [done|].
  intros Hok location HQ. by apply H2, HPQ.
Qed.

Lemma cleans_for_each {B} self (l : list B) (body : B -> M unit)
    (P : B -> Z * Z -> Prop) :
  (forall b, cleans self (P b) (body b)) ->
  cleans self (fun location => exists b, b ∈ l /\ P b location)
    (for_each l body).
Proof.
  intros Hb. induction l as [|b l IH]; simpl.
  - eapply cleans_weaken; [|apply cleans_ret].
    intros location (b & Hin & _). by apply elem_of_nil in Hin.
  - eapply cleans_weaken;
      [|apply (cleans_bind self (P b)
                 (fun location => exists b, b ∈ l /\ P b location)
                 (body b) (fun _ => for_each l body));
        [apply Hb|intros _; apply IH]].
    intros location (b' & [->|Hin]%elem_of_cons & HP); [by left|right; eauto].
Qed.

Lemma cleans_for_each_from {B} self (l : list B) (body : Z -> B -> M unit)
    (P : Z -> B -> Z * Z -> Prop) :
  (forall i b, cleans self (P i b) (body i b)) ->
  forall i,
    cleans self
      (fun location =>
         exists (k : nat) b, l !! k = Some b /\ P (i + Z.of_nat k) b location)
      (for_each_from i l body).
Proof.
  intros Hb. induction l as [|b l IH]; intros i; simpl.
  - eapply cleans_weaken; [|apply cleans_ret]. by intros location (k & b & Hk & _).
  - eapply cleans_weaken;
      [|apply (cleans_bind self (P i b)
                 (fun location =>
                    exists (k : nat) b, l !! k = Some b /\
                                        P (i + 1 + Z.of_nat k) b location)
                 (body i b) (fun _ => for_each_from (i + 1) l body));
        [apply Hb|intros _; apply (IH (i + 1))]].
    intros location (k & b' & Hk & HP). destruct k as [|k]; simpl in Hk.
    + injection Hk as <-. left. by rewrite Z.add_0_r in HP.
    + right. exists k, b'. split; [done|].
      by replace (i + 1 + Z.of_nat k) with (i + Z.of_nat (S k)) by lia.
Qed.

Lemma cleans_reset self location in_w cell_data dflt :
  cleans self (eq location)
    (on_cell self location
       (Cell._reset_data serial_to_datetime in_w cell_data dflt)).
Proof.
  unfold cleans, pending. intros w. unfold on_cell.
  destruct (cell_map_get (_cell_map (the_view w self)) location) as [c|] eqn:Hc;
    [|done].
  destruct (Cell_reset_flags in_w cell_data dflt c) as [Hok Hdirty].
  destruct (Cell._reset_data serial_to_datetime in_w cell_data dflt c)
    as [r c'] eqn:Hr. simpl in *.
  rewrite the_view_update_cases. rewrite the_view_cases in Hc |- *.
  destruct (views w !! self) as [v|]; [|done]. simpl.
  split.
  - intros location' (x & Hx & Hd). rewrite cell_map_get_set in Hx.
    destruct (bool_decide_reflect (location = location')) as [<-|Hne]; [|eauto].
    injection Hx as <-. eauto.
  - intros Hr' _ <- (x & Hx & Hd). rewrite cell_map_get_set in Hx.
    rewrite bool_decide_eq_true_2 in Hx by done. injection Hx as <-.
    destruct r as [[]|]; [|done]. by rewrite Hok in Hd.
Qed.

Lemma cleans_visit self row col cell_data :
  cleans self (eq (row, col))
    (v ← view self;
     match cell_map_get (_cell_map v) (row, col) with
     | None =>
         c ← lift (Cell.__init__ serial_to_datetime (in_window v row col)
                     row col cell_data (_default_format v));
         modify (update_view self
                   (fun v => set_cell_map (_cell_map v ++ [((row, col), c)]) v))
     | Some _ =>
         on_cell self (row, col)
           (Cell._reset_data serial_to_datetime (in_window v row col)
              cell_data (_default_format v))
     end).
Proof.
  intros w. rewrite bindM_unfold. simpl.
  destruct (cell_map_get (_cell_map (the_view w self)) (row, col)) as [c0|] eqn:Hc;
    [apply cleans_reset|]. unfold pending.
  rewrite bindM_unfold. unfold lift at 1.
  destruct (Cell.__init__ _ _ _ _ _ _) as [c|e] eqn:Hinit; [|split; done]. simpl.
  apply Cell_init_clean in Hinit.
  rewrite the_view_update_cases. rewrite the_view_cases in Hc |- *.
  destruct (views w !! self) as [v|];
    [|split; [by intros ? (? & ? & ?)|by intros _ ? _ (? & ? & ?)]].
  simpl. split.
  - intros location' (x & Hx & Hd). rewrite cell_map_get_snoc in Hx.
    destruct (cell_map_get (_cell_map v) location') as [y|]; [injection Hx as <-; eauto|].
    destruct (bool_decide (_ = location')); [|done]. injection Hx as <-. congruence.
  - intros _ _ <- (x & Hx & Hd). rewrite cell_map_get_snoc, Hc in Hx.
    rewrite bool_decide_eq_true_2 in Hx by done. injection Hx as <-. congruence.
Qed.

Lemma elem_of_visited start_row start_col row_data location :
  location ∈ visited start_row start_col row_data <->
  exists (i : nat) r (j : nat) (cell_data : CellData),
    row_data !! i = Some r /\ default [] r !! j = Some cell_data /\
    location = (start_row + Z.of_nat i, start_col + Z.of_nat j).
Proof.
  unfold visited. rewrite list_elem_of_join. split.
  - intros (l & Hin & Hl). apply elem_of_lookup_imap in Hl as (i & r & -> & Hr).
    apply elem_of_lookup_imap in Hin as (j & cd & -> & Hj). by exists i, r, j, cd.
  - intros (i & r & j & cd & Hr & Hj & ->).
    exists (imap (fun j (_ : CellData) =>
                    (start_row + Z.of_nat i, start_col + Z.of_nat j))
              (default [] r)). split.
    + by apply (elem_of_lookup_imap_2
                  (fun j (_ : CellData) =>
                     (start_row + Z.of_nat i, start_col + Z.of_nat j))
                  (default [] r) cd j).
    + by apply (elem_of_lookup_imap_2
                  (fun i r =>
                     imap (fun j (_ : CellData) =>
                             (start_row + Z.of_nat i, start_col + Z.of_nat j))
                       (default [] r)) row_data r i).
Qed.

Lemma cleans_process_response self v response :
  cleans self (fun location => location ∈ (_cell_map v).*1 \/
                               location ∈ visited (_start_row v) (_start_col v)
                                            (rowData response))
    (process_response serial_to_datetime self v response).
Proof.
  unfold process_response.
  eapply cleans_weaken; [|apply cleans_bind; [|intros _]].
  2: { apply (cleans_for_each_from self _ _
                (fun i row_data location =>
                   exists (k : nat) cell_data,
                     default [] row_data !! k = Some cell_data /\
                     (_start_row v + i, _start_col v + (0 + Z.of_nat k)) = location)).
       intros i row_data.
       apply (cleans_for_each_from self _ _
                (fun j cell_data location =>
                   (_start_row v + i, _start_col v + j) = location)).
       intros j cell_data. apply cleans_visit. }
  2: { apply (cleans_for_each self _ _ (fun b location => b = location)).
       intros location w.
       destruct (cleans_reset self location
                   (in_window (the_view w self) location.1 location.2)
                   empty_cell_data (_default_format (the_view w self)) w) as [H1 H2].
       rewrite bindM_unfold. simpl. split; [exact H1|exact H2]. }
  intros location [Hkey|Hvis].
  - destruct (decide (location ∈ visited (_start_row v) (_start_col v)
                                   (rowData response))) as [Hvis|Hnot].
    + left. apply elem_of_visited in Hvis as (i & r & j & cd & Hr & Hj & ->).
      exists i, r. split; [done|]. exists j, cd. split; [done|].
      f_equal; lia.
    + right. exists location. split; [|done].
      apply list_elem_of_In, filter_In. split; [by apply list_elem_of_In|].
      by rewrite bool_decide_eq_false_2.
  - left. apply elem_of_visited in Hvis as (i & r & j & cd & Hr & Hj & ->).
    exists i, r. split; [done|]. exists j, cd. split; [done|]. f_equal; lia.
Qed.

Lemma keeps_fetch {H} (hdr : View -> H) api self :
  keeps (same hdr) (_fetch api self).
Proof.
  unfold _fetch. apply keeps_bind; [apply _..|apply keeps_view; apply _|]. intros v'.
  apply keeps_bind; [apply _..|apply keeps_worksheet_entry; apply _|]. intros entry.
  apply keeps_bind; [apply _..|apply keeps_spreadsheet_key; apply _|]. intros key.
  apply keeps_bind; [apply _..|intros w; apply same_issue|]. intros _.
  destruct (spreadsheets_get _ _ _); [apply keeps_ret; apply _|apply keeps_raise; apply _].
Qed.

(** A fetch that returns leaves no cached cell with an edit pending. *)
Lemma ensure_fetched_clean api self w w' location c :
  _fetched (the_view w self) = false ->
  _ensure_fetched serial_to_datetime api self w = (Ok tt, w') ->
  cell_map_get (_cell_map (the_view w' self)) location = Some c ->
  dirty c = false.
Proof.
  intros Hf Hrun Hc. destruct (dirty c) eqn:Hd; [exfalso|done].
  unfold _ensure_fetched in Hrun. rewrite bindM_unfold in Hrun.
  simpl in Hrun. rewrite Hf in Hrun. rewrite bindM_unfold in Hrun.
  destruct (keeps_fetch (fun v => v) api self w) as [Hlen Hsame].
  destruct (_fetch api self w) as [[response|e] w1]; [|done].
  simpl in Hlen, Hsame.
  rewrite bindM_unfold in Hrun. simpl in Hrun.
  rewrite bindM_unfold in Hrun. simpl in Hrun.
  match type of Hrun with process_response _ _ _ _ ?w2 = _ =>
    destruct (cleans_process_response self (the_view w self) response w2)
      as [Hmono Hclean];
    assert (Hmap : _cell_map (the_view w2 self) = _cell_map (the_view w self))
  end.
  { rewrite the_view_update_cases. simpl. rewrite list_lookup_alter_eq.
    rewrite (Hsame self). unfold the_view. by destruct (views w1 !! self). }
  rewrite Hrun in Hmono, Hclean. simpl in Hmono, Hclean.
  assert (Hpend : pending w' self location) by (unfold pending; eauto).
  apply (Hclean eq_refl location); [|done]. left.
  destruct (Hmono location Hpend) as (c0 & Hc0 & _). rewrite Hmap in Hc0.
  clear -Hc0. induction (_cell_map (the_view w self)) as [|[k x] m IH];
    simpl in *; [done|].
  destruct (bool_decide_reflect (k = location)) as [->|];
    [apply list_elem_of_here|by apply list_elem_of_further, IH].
Qed.

End Operations.
End FetchFacts.


Module ReadFacts.
Import Json CellFormat Wire View CellMethods ViewFacts CellMethodsFacts.
Import Commit CommitFacts FetchFacts.

Section Operations.
Variable datetime_to_serial : datetime -> float.
Variable serial_to_datetime : json -> datetime.
Variable epoch_plus : Z -> Z -> datetime.

Lemma bind_post {A} (m : M A) (k : A -> M unit) (Q : World -> Prop) :
  (forall a w w', k a w = (Ok tt, w') -> Q w') ->
  forall w w', (m ≫= k) w = (Ok tt, w') -> Q w'.
Proof.
  intros Hk w w'. rewrite bindM_unfold.
  destruct (m w) as [[a|e] w1]; [apply Hk|done].
Qed.

Lemma refresh_unfetched self w w' :
  View.refresh self w = (Ok tt, w') -> _fetched (the_view w' self) = false.
Proof.
  unfold View.refresh. rewrite bindM_unfold. simpl. intros [= <-].
  rewrite the_view_update_cases. by destruct (views _ !! self).
Qed.

(** The [refresh()] that ends a [commit] leaves the view unfetched. *)
Lemma refresh_self_unfetched api self w w' :
  refresh_self api self w = (Ok tt, w') -> _fetched (the_view w' self) = false.
Proof.
  unfold refresh_self. revert w w'. apply bind_post. intros v.
  destruct (_spreadsheet v); [|apply refresh_unfetched].
  unfold Worksheet.refresh. apply bind_post. intros _.
  apply bind_post. intros rows. apply bind_post. intros cols.
  apply bind_post. intros _. apply refresh_unfetched.
Qed.

(** C1, as amended: a read of [effective_value], [formatted_value] or
    [effective_format] first makes sure the view is fetched; with [c] the
    cell as that leaves it, the read raises the stale-cell error when [c]
    lies outside the window, else the uncommitted-state error when one of
    the two dirty flags of [c] is set, and else returns the stored state.
    On a fetched view the fetch is idle ([ensure_fetched_idle]) and [c] is
    the cell as it stands.  On a view that is not fetched the fetch resets
    every cached cell, so both flags of [c] are clear; and that is the
    state a [commit] that has sent its batch leaves the view in. *)
Theorem effective_reads api self location w w' c :
  _ensure_fetched serial_to_datetime api self w = (Ok tt, w') ->
  cell_map_get (_cell_map (the_view w' self)) location = Some c ->
  let valid := in_window (the_view w' self) (Cell._row c) (Cell._col c) in
  (effective_value serial_to_datetime api (self, location) w).1 =
    read_outcome valid (dirty c) "effective_value" (Cell._effective_value c) /\
  (formatted_value serial_to_datetime api (self, location) w).1 =
    read_outcome valid (dirty c) "formatted_value" (Cell._formatted_value c) /\
  (effective_format serial_to_datetime api (self, location) w).1 =
    read_outcome valid (dirty c) "effective_format" (Cell._effective_format c) /\
  (_fetched (the_view w self) = false -> dirty c = false) /\
  (forall api0 w0,
     commit datetime_to_serial epoch_plus api0 self w0 = (Ok tt, w) ->
     calls w <> calls w0 ->
     _fetched (the_view w self) = false).
Proof.
  intros Hfetch Hc valid.
  pose proof (ensure_fetched_and_valid_spec serial_to_datetime api self
                location w w' c Hfetch Hc) as Hvalid.
  fold valid in Hvalid.
  split; [|split; [|split; [|split]]].
  1-3: unfold effective_value, formatted_value, effective_format, read_outcome;
       rewrite !bindM_unfold, Hvalid;
       destruct valid; simpl; [|done];
       rewrite !bindM_unfold, (read_cell_spec _ _ _ _ Hc);
       by destruct (dirty c).
  - intros Hf. by eapply ensure_fetched_clean.
  - intros api0 w0 Hcommit Hcalls. rewrite commit_unfold in Hcommit.
    destruct (fragments _ _ self w0) as [[|u us]|e]; [congruence| |done].
    destruct (spreadsheet_key self w0).1 as [key|e]; [|done]. simpl in Hcommit.
    destruct (spreadsheets_batchUpdate api0 key (u :: us)); [|done].
    by eapply refresh_self_unfetched.
Qed.

End Operations.
End ReadFacts.


Module SliceFacts.
Import Json CellFormat Wire View ViewFacts CellMethodsFacts.

Lemma clip_index_bounds length dflt i :
  0 <= length -> 0 <= dflt <= length ->
  0 <= Py.clip_index length dflt i <= length.
Proof.
  intros Hl Hd. unfold Py.clip_index. destruct i as [i|]; [|done]. cbv zeta.
  destruct (Z.ltb_spec i 0);
  repeat match goal with
         | |- context [if ?a <? ?b then _ else _] => destruct (Z.ltb_spec a b)
         end; lia.
Qed.

Lemma clip_index_negative length dflt i :
  - length <= i < 0 -> Py.clip_index length dflt (Some i) = length + i.
Proof.
  intros Hi. unfold Py.clip_index. cbv zeta.
  destruct (Z.ltb_spec i 0); [|lia].
  repeat match goal with
         | |- context [if ?a <? ?b then _ else _] => destruct (Z.ltb_spec a b)
         end; lia.
Qed.

Section Operations.
Variable serial_to_datetime : json -> datetime.

Lemma fetch_spec api self w entry key :
  _entry (the_view w (_worksheet (the_view w self))) = Some entry ->
  _spreadsheet (the_view w (_worksheet (the_view w self))) = Some key ->
  let v := the_view w self in
  let range_str :=
    Util.format_range_a1_notation (title entry)
      (_start_row v) (_end_row v) (_start_col v) (_end_col v) in
  _fetch api self w =
    (match spreadsheets_get api key range_str with
     | Some response => Ok response
     | None => Err TransportError
     end, issue (Call_get key range_str) w).
Proof.
  intros He Hk v range_str. subst v range_str.
  unfold _fetch, worksheet_entry, spreadsheet_key.
  repeat (rewrite bindM_unfold; simpl). rewrite He. simpl.
  repeat (rewrite bindM_unfold; simpl). rewrite Hk. simpl.
  repeat (rewrite bindM_unfold; simpl).
  by destruct (spreadsheets_get api key _).
Qed.

(** On an unfetched view [_ensure_fetched] issues the range fetch of the
    view, and nothing else. *)
Lemma ensure_fetched_fetches api self w entry key :
  _fetched (the_view w self) = false ->
  _entry (the_view w (_worksheet (the_view w self))) = Some entry ->
  _spreadsheet (the_view w (_worksheet (the_view w self))) = Some key ->
  let v := the_view w self in
  calls (_ensure_fetched serial_to_datetime api self w).2 =
    calls w ++
    [Call_get key
       (Util.format_range_a1_notation (title entry)
          (_start_row v) (_end_row v) (_start_col v) (_end_col v))].
Proof.
  intros Hf He Hk v. subst v. unfold _ensure_fetched. rewrite bindM_unfold.
  change (view self w) with (Ok (the_view w self), w). cbv iota beta. rewrite Hf.
  rewrite bindM_unfold, (fetch_spec api self w entry key He Hk).
  destruct (spreadsheets_get api key _) as [response|]; [|done].
  match goal with |- calls (?m ?w0).2 = _ =>
    assert (Hq : quiet w0 (m w0).2) end.
  { apply (keeps_bind quiet); [intros w0; reflexivity|]. intros _.
    apply (keeps_bind quiet); [intros w0; reflexivity|]. intros _.
    apply (keeps_process_response _ quiet). intros x w0. reflexivity. }
  by rewrite <- Hq.
Qed.

(** What [_get_cell] does after [_ensure_fetched] issues no call. *)
Lemma get_cell_calls api self row col w :
  in_window (the_view w self) row col = true ->
  calls (_get_cell serial_to_datetime api self row col w).2 =
  calls (_ensure_fetched serial_to_datetime api self w).2.
Proof.
  intros Hw. set (v := the_view w self) in *.
  unfold _get_cell. rewrite bindM_unfold.
  change (view self w) with (Ok v, w). cbv iota beta.
  unfold in_window in Hw.
  destruct (_start_row v <=? row), (row <? _end_row v),
    (_start_col v <=? col), (col <? _end_col v); try done. simpl.
  rewrite bindM_unfold.
  destruct (_ensure_fetched serial_to_datetime api self w) as [[[]|e] w1];
    [|done]. simpl.
  match goal with |- calls (?m ?w0).2 = _ =>
    assert (Hq : quiet w0 (m w0).2) end.
  { apply (keeps_bind quiet); [apply (keeps_view quiet)|]. intros v1.
    apply (keeps_bind quiet); [|intros; apply (keeps_ret quiet)].
    destruct (cell_map_get _ _); [apply (keeps_ret quiet)|].
    apply (keeps_bind quiet); [apply (keeps_lift quiet)|]. intros c w0.
    reflexivity. }
  by rewrite <- Hq.
Qed.

(** A read through a fetched view issues no call. *)
Lemma get_cell_fetched_quiet api self row col w :
  _fetched (the_view w self) = true ->
  calls (_get_cell serial_to_datetime api self row col w).2 = calls w.
Proof.
  intros Hf. destruct (in_window (the_view w self) row col) eqn:Hw.
  - rewrite get_cell_calls by done. by rewrite ensure_fetched_idle.
  - by rewrite get_cell_outside.
Qed.

Lemma worksheet_entry_spec self w entry :
  _entry (the_view w (_worksheet (the_view w self))) = Some entry ->
  worksheet_entry self w = (Ok entry, w).
Proof.
  intros He. unfold worksheet_entry. repeat (rewrite bindM_unfold; simpl).
  by rewrite He.
Qed.

Lemma own_entry_spec self w entry :
  _entry (the_view w self) = Some entry ->
  Worksheet.entry self w = (Ok entry, w).
Proof.
  intros He. unfold Worksheet.entry. repeat (rewrite bindM_unfold; simpl).
  by rewrite He.
Qed.

Lemma worksheet_view_spec self start_row end_row start_col end_col w entry :
  _entry (the_view w self) = Some entry ->
  let rows := Py.slice_indices start_row end_row (rowCount entry) in
  let cols := Py.slice_indices start_col end_col (columnCount entry) in
  Worksheet.view self start_row end_row start_col end_col w =
    View.__init__ self (Z.min rows.1 rows.2) rows.2 (Z.min cols.1 cols.2) cols.2 w.
Proof.
  intros He rows cols. unfold Worksheet.view, Worksheet.rows, Worksheet.cols.
  rewrite bindM_unfold, bindM_unfold, (own_entry_spec _ _ _ He). simpl.
  rewrite bindM_unfold, bindM_unfold, (own_entry_spec _ _ _ He). simpl.
  assert (Hmin : forall s e, (if e <? s then e else s) = Z.min s e)
    by (intros s e; destruct (Z.ltb_spec e s); lia).
  by rewrite !Hmin.
Qed.

(** On a fetched view, [_get_cell] at a location whose cell the view holds
    returns that cell and changes nothing. *)
Lemma get_cell_held api self row col w c :
  _fetched (the_view w self) = true ->
  in_window (the_view w self) row col = true ->
  cell_map_get (_cell_map (the_view w self)) (row, col) = Some c ->
  _get_cell serial_to_datetime api self row col w = (Ok (row, col), w).
Proof.
  intros Hf Hw Hc. set (v := the_view w self) in *.
  unfold _get_cell. rewrite bindM_unfold.
  change (view self w) with (Ok v, w). cbv iota beta.
  unfold in_window in Hw.
  destruct (_start_row v <=? row), (row <? _end_row v),
    (_start_col v <=? col), (col <? _end_col v); try done. simpl.
  rewrite bindM_unfold, ensure_fetched_idle by done.
  rewrite bindM_unfold. simpl. fold v. by rewrite Hc.
Qed.

Lemma view_init_spec worksheet sr er sc ec w :
  let r := View.__init__ worksheet sr er sc ec w in
  let new := length (views w) in
  r.1 = Ok new /\ calls r.2 = calls w /\
  (forall i, i <> new -> the_view r.2 i = the_view w i) /\
  the_view r.2 new =
    {| _worksheet := worksheet;
       _start_row := sr; _end_row := er; _start_col := sc; _end_col := ec;
       _view_rows := make_view_rows new sr er sc ec;
       _cell_map := []; _default_format := JNull; _fetched := false;
       _spreadsheet := None; _entry := None |}.
Proof.
  intros r new. unfold r, View.__init__.
  repeat (rewrite bindM_unfold; simpl). repeat split.
  - intros i Hi. unfold the_view. simpl.
    destruct (decide (i < new)%nat) as [Hlt|Hge].
    + by rewrite lookup_app_l.
    + rewrite lookup_app_r by (unfold new in *; lia).
      rewrite (lookup_ge_None_2 (views w)) by (unfold new in *; lia).
      destruct (i - length (views w))%nat as [|n] eqn:Hn; [unfold new in *; lia|done].
  - unfold the_view. simpl. rewrite lookup_app_r by done.
    by rewrite Nat.sub_diag.
Qed.

Lemma getitem_slice_bounds (row : ViewRow.ViewRow) start stop :
  let sliced := Rows.getitem_slice row start stop in
  ViewRow._view sliced = ViewRow._view row /\
  ViewRow._row sliced = ViewRow._row row /\
  (0 <= Rows.len row ->
   ViewRow._start_col row <= ViewRow._start_col sliced /\
   ViewRow._start_col sliced <= ViewRow._end_col sliced /\
   ViewRow._end_col sliced <= ViewRow._end_col row).
Proof.
  unfold Rows.getitem_slice, Py.slice_indices. simpl.
  split; [done|]. split; [done|]. intros Hlen.
  pose proof (clip_index_bounds (Rows.len row) 0 start Hlen ltac:(lia)).
  pose proof (clip_index_bounds (Rows.len row) (Rows.len row) stop Hlen ltac:(lia)).
  unfold Rows.len in *.
  destruct (Z.ltb_spec (Py.clip_index (ViewRow._end_col row - ViewRow._start_col row)
                          (ViewRow._end_col row - ViewRow._start_col row) stop)
                       (Py.clip_index (ViewRow._end_col row - ViewRow._start_col row)
                          0 start)); lia.
Qed.

(** C9, as amended: [Worksheet.view] makes a new view over the same
    worksheet, with row and column bounds clipped to the worksheet (a
    negative index counts from the end), no cell and no fetch of its own
    yet, and leaves every other object alone; the first read through it
    issues its own range fetch.  A slice of a row is a narrower row of the
    same view, so on a fetched view a read through it issues no call and
    returns the cell the view holds at that location, changing nothing;
    and a row slice of a view is a list of rows the view already has. *)
Theorem slicing api self start_row end_row start_col end_col w entry key :
  _entry (the_view w self) = Some entry ->
  _spreadsheet (the_view w self) = Some key ->
  0 <= rowCount entry -> 0 <= columnCount entry ->
  let r := Worksheet.view self start_row end_row start_col end_col w in
  let new := length (views w) in
  let v' := the_view r.2 new in
  (r.1 = Ok new /\ calls r.2 = calls w /\
   (forall i, i <> new -> the_view r.2 i = the_view w i) /\
   _worksheet v' = self /\ _cell_map v' = [] /\ _fetched v' = false /\
   0 <= _start_row v' <= _end_row v' /\ _end_row v' <= rowCount entry /\
   0 <= _start_col v' <= _end_col v' /\ _end_col v' <= columnCount entry /\
   _end_row v' = Py.clip_index (rowCount entry) (rowCount entry) end_row /\
   _start_row v' =
     Z.min (Py.clip_index (rowCount entry) 0 start_row) (_end_row v') /\
   _end_col v' =
     Py.clip_index (columnCount entry) (columnCount entry) end_col /\
   _start_col v' =
     Z.min (Py.clip_index (columnCount entry) 0 start_col) (_end_col v') /\
   forall row col, in_window v' row col = true ->
     calls (_get_cell serial_to_datetime api new row col r.2).2 =
       calls w ++
       [Call_get key
          (Util.format_range_a1_notation (title entry)
             (_start_row v') (_end_row v') (_start_col v') (_end_col v'))])
  /\ (forall (row : ViewRow.ViewRow) start stop,
       let sliced := Rows.getitem_slice row start stop in
       ViewRow._view sliced = ViewRow._view row /\
       ViewRow._row sliced = ViewRow._row row /\
       (0 <= Rows.len row ->
        ViewRow._start_col row <= ViewRow._start_col sliced /\
        ViewRow._start_col sliced <= ViewRow._end_col sliced /\
        ViewRow._end_col sliced <= ViewRow._end_col row) /\
       ViewRow._start_col sliced - ViewRow._start_col row =
         Z.min (Py.clip_index (Rows.len row) 0 start)
               (ViewRow._end_col sliced - ViewRow._start_col row) /\
       ViewRow._end_col sliced - ViewRow._start_col row =
         Z.max (Py.clip_index (Rows.len row) 0 start)
               (Py.clip_index (Rows.len row) (Rows.len row) stop) /\
       forall w0 index,
         _fetched (the_view w0 (ViewRow._view row)) = true ->
         calls (Rows.getitem serial_to_datetime api sliced index w0).2 = calls w0 /\
         forall c,
           let col := if index <? 0 then ViewRow._end_col sliced + index
                      else ViewRow._start_col sliced + index in
           in_window (the_view w0 (ViewRow._view row)) (ViewRow._row row) col
             = true ->
           cell_map_get (_cell_map (the_view w0 (ViewRow._view row)))
             (ViewRow._row row, col) = Some c ->
           Rows.getitem serial_to_datetime api sliced index w0 =
             (Ok (ViewRow._view row, (ViewRow._row row, col)), w0))
  /\ (forall w0 start stop,
       (Rows.view_getitem_slice self start stop w0).2 = w0 /\
       exists l, (Rows.view_getitem_slice self start stop w0).1 = Ok l /\
                 l ⊆ _view_rows (the_view w0 self))
  /\ (forall length dflt i,
       - length <= i < 0 -> Py.clip_index length dflt (Some i) = length + i).
Proof.
  intros He Hk Hrows Hcols r new v'.
  assert (Hself : self <> new).
  { intros ->. unfold the_view in He.
    rewrite lookup_ge_None_2 in He by (unfold new; lia). done. }
  pose proof (worksheet_view_spec self start_row end_row start_col end_col w entry He)
    as Hview. simpl in Hview.
  destruct (view_init_spec self
              (Z.min (Py.clip_index (rowCount entry) 0 start_row)
                     (Py.clip_index (rowCount entry) (rowCount entry) end_row))
              (Py.clip_index (rowCount entry) (rowCount entry) end_row)
              (Z.min (Py.clip_index (columnCount entry) 0 start_col)
                     (Py.clip_index (columnCount entry) (columnCount entry) end_col))
              (Py.clip_index (columnCount entry) (columnCount entry) end_col) w)
    as (Hr1 & Hcalls & Hold & Hnew).
  rewrite <- Hview in Hr1, Hcalls, Hold, Hnew. fold r in Hr1, Hcalls, Hold, Hnew.
  fold new in Hr1, Hold, Hnew. fold v' in Hnew.
  pose proof (clip_index_bounds (rowCount entry) 0 start_row Hrows ltac:(lia)).
  pose proof (clip_index_bounds (rowCount entry) (rowCount entry) end_row Hrows ltac:(lia)).
  pose proof (clip_index_bounds (columnCount entry) 0 start_col Hcols ltac:(lia)).
  pose proof (clip_index_bounds (columnCount entry) (columnCount entry) end_col Hcols ltac:(lia)).
  split; [|split; [|split]].
  - rewrite Hnew. simpl. repeat split; try done; try lia.
    intros row col Hw. rewrite <- Hnew in Hw.
    rewrite get_cell_calls by done.
    rewrite (ensure_fetched_fetches api new r.2 entry key).
    + fold v'. rewrite Hcalls, Hnew. done.
    + fold v'. by rewrite Hnew.
    + fold v'. rewrite Hnew. simpl. by rewrite Hold.
    + fold v'. rewrite Hnew. simpl. by rewrite Hold.
  - intros row start stop sliced.
    destruct (getitem_slice_bounds row start stop) as (Hv & Hrow & Hb).
    split; [done|]. split; [done|]. split; [done|].
    split; [|split].
    { unfold sliced, Rows.getitem_slice, Py.slice_indices. simpl.
      match goal with |- context [if ?a <? ?b then _ else _] =>
        destruct (Z.ltb_spec a b) end; lia. }
    { unfold sliced, Rows.getitem_slice, Py.slice_indices. simpl.
      match goal with |- context [if ?a <? ?b then _ else _] =>
        destruct (Z.ltb_spec a b) end; lia. }
    intros w0 index Hf. fold sliced in Hv, Hrow. split.
    + unfold Rows.getitem. rewrite bindM_unfold.
      pose proof (get_cell_fetched_quiet api (ViewRow._view sliced)
                    (ViewRow._row sliced)
                    (if index <? 0 then ViewRow._end_col sliced + index
                     else ViewRow._start_col sliced + index) w0) as Hq.
      rewrite Hv in Hq. specialize (Hq Hf). rewrite Hv.
      destruct (_get_cell _ _ _ _ _ _) as [[location|e] w1]; done.
    + intros c col Hw Hc. unfold Rows.getitem. rewrite bindM_unfold.
      rewrite Hv, Hrow. fold col.
      by rewrite (get_cell_held api _ _ _ _ c Hf Hw Hc).
  - intros w0 start stop. unfold Rows.view_getitem_slice.
    repeat (rewrite bindM_unfold; simpl). split; [done|].
    eexists. split; [done|].
    etrans; [apply subseteq_take|apply subseteq_drop].
  - apply clip_index_negative.
Qed.

End Operations.


End SliceFacts.

(** ** The sample sessions *)

Module SampleFacts.
Import Json CellFormat Wire View CellMethods Sample Commit.

Lemma effective_reads_witness :
  exists c,
    cell_map_get (_cell_map (the_view w_edited 0)) (0, 1) = Some c /\
    dirty c = true /\
    (effective_value serial_to_datetime api_down (0%nat, (0, 1)) w_edited).1 =
      Err (UncommittedCellPropertyError "effective_value") /\
    (formatted_value serial_to_datetime api_down (0%nat, (0, 1)) w_edited).1 =
      Err (UncommittedCellPropertyError "formatted_value") /\
    (effective_format serial_to_datetime api_down (0%nat, (0, 1)) w_edited).1 =
      Err (UncommittedCellPropertyError "effective_format").
Proof.
  eexists. split; [vm_compute; reflexivity|].
  match goal with
  | |- dirty ?c = true /\ _ =>
      split; [reflexivity|];
      assert (Hfetch : _ensure_fetched serial_to_datetime api_down 0%nat w_edited
                       = (Ok tt, w_edited)) by (vm_compute; reflexivity);
      assert (Hc : cell_map_get (_cell_map (the_view w_edited 0)) (0, 1) = Some c)
        by (vm_compute; reflexivity);
      destruct (ReadFacts.effective_reads datetime_to_serial serial_to_datetime
                  epoch_plus api_down 0%nat (0, 1) w_edited w_edited c Hfetch Hc)
        as (Hv & Hf & He & _);
      exact (conj Hv (conj Hf He))
  end.
Defined.

(** The other half of C1 on the sample: the cell before the edit, and the
    cell after the edit is committed and fetched again. *)
Lemma effective_reads_clean :
  (effective_value serial_to_datetime api_down (0%nat, (0, 1)) w_fetched).1 =
    Ok (PyStr "b") /\
  (effective_value serial_to_datetime api (0%nat, (0, 1))
     (after w_edited (commit datetime_to_serial epoch_plus api 0%nat))).1 =
    Ok (PyStr "b").
Proof. split; vm_compute; reflexivity. Qed.

(** C1, as stated, at two dirty cells.  After [refresh()] the read of the
    edited cell fetches, which resets the cell, and returns the server's
    value; and the read of a dirty cell that the shrunk window no longer
    covers raises the stale-cell error. *)
Lemma dirty_read_not_uncommitted :
  (dirty <$> cell_map_get (_cell_map (the_view w_refreshed 0)) (0, 1)
     = Some true /\
   (effective_value serial_to_datetime api (0%nat, (0, 1)) w_refreshed).1
     = Ok (PyStr "b")) /\
  (dirty <$> cell_map_get (_cell_map (the_view w_shrunk 0)) (2, 0)
     = Some true /\
   _fetched (the_view w_shrunk 0) = true /\
   (effective_value serial_to_datetime api (0%nat, (2, 0)) w_shrunk).1
     = Err HyouRuntimeError).
Proof. repeat split; vm_compute; reflexivity. Qed.

Lemma commit_atomic_witness :
  let r := commit datetime_to_serial epoch_plus api_down 0%nat w_edited in
  exists update_requests,
    fragments datetime_to_serial epoch_plus 0%nat w_edited = Ok update_requests /\
    update_requests <> [] /\
    r = (Err TransportError,
         issue (Call_batchUpdate "KEY" update_requests) w_edited) /\
    views r.2 = views w_edited /\
    fragments datetime_to_serial epoch_plus 0%nat r.2 = Ok update_requests /\
    forall api', exists rest,
      calls (commit datetime_to_serial epoch_plus api' 0%nat r.2).2 =
        calls r.2 ++ Call_batchUpdate "KEY" update_requests :: rest.
Proof.
  cbv zeta. eexists. split; [vm_compute; reflexivity|].
  split; [discriminate|].
  match goal with
  | |- _ = (_, issue (Call_batchUpdate _ ?reqs) _) /\ _ =>
      destruct (CommitFacts.commit_atomic datetime_to_serial epoch_plus api_down
                  0%nat w_edited) as (Hviews & Hretry & _);
      destruct (Hretry "KEY"%string reqs) as (Hr & Hfr & Hagain);
        [vm_compute; reflexivity|discriminate|reflexivity|reflexivity|]
  end.
  split; [exact Hr|]. split; [|split; [exact Hfr|exact Hagain]].
  apply (Hviews TransportError). by rewrite Hr.
Defined.

(** C5, at the failing inputs.  Outside the window [_get_cell] raises
    [IndexError] and leaves the world as it was, and it succeeds only
    inside the window; but inside the window it does not always succeed.
    The view [ws.view(start_col=0, end_col=28)] of a worksheet of one row
    and sixty columns of numbers has the window [0,1) x [0,28); its fetch
    names the last column with [format_column_address(27)], which is "BB"
    (the 54th column) and not "AB", so the service answers 54 cells, and
    the cell of column 28, outside the window, makes the fetch raise the
    stale-cell error: the read of the cell at (0, 0) raises.  And on the
    first sample a service answer that holds a cell in error, whose wire
    value is an object, makes the read of the cell at (0, 0) raise
    [TypeError]. *)
Theorem get_cell_in_window_raises :
  (forall s2d api self row col w,
     in_window (the_view w self) row col = false ->
     _get_cell s2d api self row col w = (Err IndexError, w))
  /\ (forall s2d api self row col w,
        is_ok (_get_cell s2d api self row col w).1 = true ->
        in_window (the_view w self) row col = true)
  /\ (let v := the_view w_wide 1 in
      let r := _get_cell serial_to_datetime api_wide 1%nat 0 0 w_wide in
      (_start_row v, _end_row v, _start_col v, _end_col v) = (0, 1, 0, 28) /\
      in_window v 0 0 = true /\
      Util.format_column_address 27 = "BB"%string /\
      r.1 = Err HyouRuntimeError /\
      calls r.2 = [Call_get "KEY" "'Sheet1'!A1:BB1"])
  /\ (in_window (the_view w_new 0) 0 0 = true /\
      (_get_cell serial_to_datetime api_error 0%nat 0 0 w_new).1
        = Err TypeError).
Proof.
  split; [intros; by apply ViewFacts.get_cell_outside|]. split.
  - intros s2d api self row col w Hok.
    destruct (in_window (the_view w self) row col) eqn:Hw; [done|].
    by rewrite (ViewFacts.get_cell_outside s2d api self row col w Hw) in Hok.
  - split; repeat split; vm_compute; reflexivity.
Qed.

(** C9, as stated, at a slice of a row: the slice [ws[0][1:]] is a row of
    the worksheet's own view, and with the service unreachable a read
    through it still returns the cell the view has fetched, without a call. *)
Lemma row_slice_shares_cache :
  exists row,
    (Rows.view_getitem 0%nat 0 w_fetched).1 = Ok row /\
    let sliced := Rows.getitem_slice row (Some 1) None in
    let r := Rows.getitem serial_to_datetime api_down sliced 0 w_fetched in
    ViewRow._view sliced = 0%nat /\
    r.1 = Ok (0%nat, (0, 1)) /\
    calls r.2 = calls w_fetched /\
    (user_entered_value serial_to_datetime api_down (0%nat, (0, 1)) r.2).1
      = Ok (PyStr "b").
Proof. eexists. split; [vm_compute; reflexivity|]. repeat split. Qed.

Lemma slicing_witness :
  let r := Worksheet.view 0%nat (Some 1) None (Some (-2)) None w_fetched in
  r.1 = Ok 1%nat /\
  _worksheet (the_view r.2 1) = 0%nat /\
  _cell_map (the_view r.2 1) = [] /\
  _fetched (the_view r.2 1) = false /\
  calls (_get_cell serial_to_datetime api 1%nat 1 1 r.2).2 =
    calls w_fetched ++ [Call_get "KEY" "'Sheet1'!B2:C3"].
Proof.
  destruct (SliceFacts.slicing serial_to_datetime api 0%nat (Some 1) None
              (Some (-2)) None w_fetched (entry 3) "KEY"%string
              eq_refl eq_refl ltac:(vm_compute; discriminate)
              ltac:(vm_compute; discriminate))
    as ((Hr & _ & _ & Hws & Hmap & Hf & _ & _ & _ & _ & _ & _ & _ & _ & Hread) & _).
  split; [exact Hr|]. split; [exact Hws|]. split; [exact Hmap|].
  split; [exact Hf|]. apply (Hread 1 1). vm_compute; reflexivity.
Defined.

End SampleFacts.
